(** * Control plane and sandboxed code runner of the tutoring agent

    A shallow embedding of [agentic_system/src/control_plane.py]
    ([ControlPlane]) and of the tools of [agentic_system/src/tools.py] that
    the control plane guards ([write_file], [delete_file], [run_code]),
    followed by the properties of the specification that concern them.

    The development goes on to the other tools of the registry
    ([read_file], [execute_command], [log_interaction],
    [update_learner_profile], [assess_understanding], [search_knowledge],
    [ingest_document]), to what they call in [retriever.py] and
    [document_processor.py], and to the planning loop of [agent.py]
    ([TutorAgent.teach]), which calls the control plane.

    Modelling conventions.
    - A Python [str] is a [string]; a character stands for a code point
      below 256.
    - A Python value that is only passed around (results, parameters) is a
      [value]; a [dict] literal keeps its insertion order.
    - A statement sequence that can raise is a computation [M S A]: a
      function from the state before to an [outcome] (return or raise)
      and the state after.  A mutation made before an exception is raised
      stays in the state, as in Python.
    - Whatever the host decides (clock, temporary file names, child
      processes, the collaborator tools, the working directory) is a field
      of [host]; a call takes the [host] it runs on as an argument.
    - The file system is a finite map from absolute path, in the normal
      form of [os.path.normpath], to what stands there: a regular file
      or a directory.  On a real host the root is a directory and
      whatever stands at a path stands in a directory ([well_formed]);
      the statements say where they need it.  There are no symbolic
      links, the operating system refuses nothing by permission, and a
      path that begins with exactly two slashes is kept apart from the
      path with one, as [normpath] keeps it.  Text is written and read
      as UTF-8.  A child process may change the map in any way.
    - The audit log refers to the plans and results of the calls: a tool
      that changes such an object in place changes what the log shows
      ([sharing]).
    - A float (a duration, a similarity) is a rational number. *)

From Stdlib Require Import String Ascii ZArith QArith List Bool Lia Sorted.
From stdpp Require Import base option list gmap strings pretty.

Local Open Scope string_scope.
Local Open Scope list_scope.
Local Open Scope stdpp_scope.

(** ** Python strings *)

Module Str.

(** [c in s], for a one-character [c]. *)
Fixpoint contains (c : ascii) (s : string) : bool :=
  match s with
  | EmptyString => false
  | String a s' => if Ascii.eqb a c then true else contains c s'
  end.

(** [s.split(c)[0]]: the text before the first [c], all of [s] without. *)
Fixpoint split_head (c : ascii) (s : string) : string :=
  match s with
  | EmptyString => EmptyString
  | String a s' => if Ascii.eqb a c then EmptyString else String a (split_head c s')
  end.

(** [ch.isspace()] for a code point below 256: the ASCII white space
    9..13 and 32, the separators 28..31, NEL (133) and NBSP (160). *)
Definition isspace (a : ascii) : bool :=
  let n := nat_of_ascii a in
  (((9 <=? n) && (n <=? 13)) || ((28 <=? n) && (n <=? 32))
   || (n =? 133) || (n =? 160))%nat.

Fixpoint lstrip (s : string) : string :=
  match s with
  | EmptyString => EmptyString
  | String a s' => if isspace a then lstrip s' else s
  end.

Fixpoint rstrip (s : string) : string :=
  match s with
  | EmptyString => EmptyString
  | String a s' =>
      match rstrip s' with
      | EmptyString => if isspace a then EmptyString else String a EmptyString
      | r => String a r
      end
  end.

(** [s.strip()] *)
Definition strip (s : string) : string := rstrip (lstrip s).

(** [s.startswith(p)] *)
Definition startswith (s p : string) : bool := String.prefix p s.

(** [s.endswith(p)] *)
Definition endswith (s p : string) : bool :=
  String.prefix (String.rev p) (String.rev s).

(** [s.replace(old, new)] for a non-empty [old]: every occurrence, left
    to right, without overlap.  [skip] counts the characters of a
    matched occurrence still to be dropped. *)
Fixpoint replace_from (old new : string) (skip : nat) (s : string) : string :=
  match s with
  | EmptyString => EmptyString
  | String a s' =>
      match skip with
      | S k => replace_from old new k s'
      | O =>
          if String.prefix old s
          then new +:+ replace_from old new (String.length old - 1) s'
          else String a (replace_from old new 0 s')
      end
  end.

Definition replace (s old new : string) : string := replace_from old new 0 s.

(** [sep.join(l)] *)
Fixpoint join (sep : string) (l : list string) : string :=
  match l with
  | [] => ""
  | [x] => x
  | x :: l' => x +:+ sep +:+ join sep l'
  end.

(** [s.split(sep)] for a one-character [sep]. *)
Fixpoint split (c : ascii) (s : string) : list string :=
  match s with
  | EmptyString => [""]
  | String a s' =>
      if Ascii.eqb a c then "" :: split c s'
      else match split c s' with
           | [] => [String a ""]
           | x :: l => String a x :: l
           end
  end.

(** The two lower-case hexadecimal digits of a code point. *)
Definition hex_digit (n : nat) : ascii :=
  ascii_of_nat (if (n <? 10)%nat then 48 + n else 87 + n).

Definition hex2 (a : ascii) : string :=
  let n := nat_of_ascii a in
  String (hex_digit (n / 16)) (String (hex_digit (n mod 16)) "").

Definition backslash : ascii := ascii_of_nat 92.
Definition squote : ascii := ascii_of_nat 39.
Definition dquote : ascii := ascii_of_nat 34.

(** One character of [repr(s)] inside the quote [q]. *)
Definition repr_char (q a : ascii) : string :=
  let n := nat_of_ascii a in
  let esc (t : string) := String backslash t in
  if Ascii.eqb a backslash then esc (String backslash "")
  else if Ascii.eqb a q then esc (String a "")
  else if (n =? 9)%nat then esc "t"
  else if (n =? 10)%nat then esc "n"
  else if (n =? 13)%nat then esc "r"
  else if ((n <? 32) || ((127 <=? n) && (n <=? 160)) || (n =? 173))%nat
       then esc ("x" +:+ hex2 a)
  else String a "".

Fixpoint repr_body (q : ascii) (s : string) : string :=
  match s with
  | EmptyString => ""
  | String a s' => repr_char q a +:+ repr_body q s'
  end.

(** [repr(s)]: single quotes, unless [s] has a single quote and no
    double quote. *)
Definition repr (s : string) : string :=
  let q := if contains squote s && negb (contains dquote s)
           then dquote else squote in
  String q (repr_body q s) +:+ String q "".

(** [str(l)] for a list of strings. *)
Definition repr_list (l : list string) : string :=
  "[" +:+ join ", " (map repr l) +:+ "]".

End Str.

(** ** [os.path] on a POSIX host *)

Module Path.

(** [os.path.isabs(p)] *)
Definition isabs (p : string) : bool := Str.startswith p "/".

(** [os.path.join(a, b)] *)
Definition join (a b : string) : string :=
  if Str.startswith b "/" then b
  else if String.eqb a "" || Str.endswith a "/" then a +:+ b
  else a +:+ "/" +:+ b.

(** The loop of [normpath] over the components, [new_comps] kept in
    reverse: empty and dot components are dropped, a dot-dot component
    pops the last kept component, and is kept itself where nothing can be
    popped in a relative path or after another dot-dot. *)
Fixpoint normpath_comps (initial_slashes : nat) (comps rev_new : list string)
  : list string :=
  match comps with
  | [] => rev rev_new
  | comp :: comps' =>
      if String.eqb comp "" || String.eqb comp "." then
        normpath_comps initial_slashes comps' rev_new
      else if negb (String.eqb comp "..")
              || ((initial_slashes =? 0)%nat && bool_decide (rev_new = []))
              || match rev_new with x :: _ => String.eqb x ".." | [] => false end
           then normpath_comps initial_slashes comps' (comp :: rev_new)
      else normpath_comps initial_slashes comps' (tail rev_new)
  end.

(** [os.path.normpath(path)] *)
Definition normpath (path : string) : string :=
  if String.eqb path "" then "."
  else
    let initial_slashes :=
      if Str.startswith path "/" then
        if Str.startswith path "//" && negb (Str.startswith path "///")
        then 2%nat else 1%nat
      else 0%nat in
    let comps := normpath_comps initial_slashes (Str.split "/" path) [] in
    let joined := Str.join "/" comps in
    let path' :=
      match initial_slashes with
      | 0%nat => joined
      | 1%nat => "/" +:+ joined
      | _ => "//" +:+ joined
      end in
    if String.eqb path' "" then "." else path'.

(** [os.path.abspath(path)], [cwd] being [os.getcwd()]. *)
Definition abspath (cwd path : string) : string :=
  normpath (if isabs path then path else join cwd path).

(** [os.path.dirname(p)]: up to the last slash, trailing slashes dropped
    unless nothing else is left. *)
Fixpoint dirname_head (p : string) : string :=
  match p with
  | EmptyString => ""
  | String a p' =>
      if Str.contains "/" p' then String a (dirname_head p')
      else if Ascii.eqb a "/" then "/" else ""
  end.

Fixpoint all_slashes (p : string) : bool :=
  match p with
  | EmptyString => true
  | String a p' => Ascii.eqb a "/" && all_slashes p'
  end.

Fixpoint rstrip_slashes (p : string) : string :=
  match p with
  | EmptyString => ""
  | String a p' => if all_slashes p then "" else String a (rstrip_slashes p')
  end.

Definition dirname (p : string) : string :=
  let head := dirname_head p in
  if all_slashes head then head else rstrip_slashes head.

(** [os.path.basename(p)]: what follows the last slash. *)
Fixpoint basename (p : string) : string :=
  match p with
  | EmptyString => ""
  | String a p' =>
      if Str.contains "/" p' then basename p'
      else if Ascii.eqb a "/" then p' else p
  end.

(** [os.path.split(p)] *)
Definition split (p : string) : string * string := (dirname p, basename p).

End Path.


(** ** Python values, exceptions and computations *)

#[local] Set Warnings "-register-all".

(** A value that the modelled code only passes around: a tool's argument,
    a tool's result.  A [VDict] lists its items in insertion order. *)
Inductive value : Type :=
| VNone
| VBool (b : bool)
| VInt (n : Z)
| VStr (s : string)
| VList (l : list value)
| VDict (items : list (string * value)).

(** [d.get(k)] on the items of a dict. *)
Fixpoint dict_get {A : Type} (k : string) (items : list (string * A)) : option A :=
  match items with
  | [] => None
  | (k', v) :: items' => if String.eqb k' k then Some v else dict_get k items'
  end.

(** [v.get(k)] for a value that is a dict. *)
Definition value_get (k : string) (v : value) : option value :=
  match v with
  | VDict items => dict_get k items
  | _ => None
  end.

(** The exceptions the modelled code meets.  [HostError] stands for any
    other instance of [Exception] that the host raises (a missing
    executable, a full disk, an encoding error), [msg] being its [str]. *)
Inductive exn : Type :=
| TypeError (msg : string)
| KeyError (key : string)
| UnboundLocalError (name : string)
| FileNotFoundError (path : string)
| FileExistsError (path : string)
| NotADirectoryError (path : string)
| IsADirectoryError (path : string)
| TimeoutExpired
| HostError (msg : string).

(** [str(e)].  The text for [TimeoutExpired] is never read: the clause
    of [run_code] that catches it does not use it. *)
Definition exn_str (e : exn) : string :=
  match e with
  | TypeError msg => msg
  | KeyError key => Str.repr key
  | UnboundLocalError name =>
      "cannot access local variable " +:+ Str.repr name
      +:+ " where it is not associated with a value"
  | FileNotFoundError path =>
      "[Errno 2] No such file or directory: " +:+ Str.repr path
  | FileExistsError path => "[Errno 17] File exists: " +:+ Str.repr path
  | NotADirectoryError path => "[Errno 20] Not a directory: " +:+ Str.repr path
  | IsADirectoryError path => "[Errno 21] Is a directory: " +:+ Str.repr path
  | TimeoutExpired => "Command timed out"
  | HostError msg => msg
  end.

(** [isinstance(e, subprocess.TimeoutExpired)] *)
Definition is_timeout_expired (e : exn) : bool :=
  match e with TimeoutExpired => true | _ => false end.

(** [isinstance(e, FileExistsError)] *)
Definition is_file_exists_error (e : exn) : bool :=
  match e with FileExistsError _ => true | _ => false end.

Inductive outcome (A : Type) : Type :=
| Return (a : A)
| Raise (e : exn).
Arguments Return {A} a.
Arguments Raise {A} e.

(** A computation over a state [S]: the outcome and the state it leaves. *)
Definition M (S A : Type) : Type := S -> outcome A * S.

Definition ret {S A : Type} (a : A) : M S A := fun s => (Return a, s).

Definition raise {S A : Type} (e : exn) : M S A := fun s => (Raise e, s).

Definition bind {S A B : Type} (c : M S A) (k : A -> M S B) : M S B :=
  fun s =>
    match c s with
    | (Return a, s') => k a s'
    | (Raise e, s') => (Raise e, s')
    end.

(** [try: body  except ...: handler] *)
Definition try_except {S A : Type} (body : M S A) (handler : exn -> M S A) : M S A :=
  fun s =>
    match body s with
    | (Return a, s') => (Return a, s')
    | (Raise e, s') => handler e s'
    end.

Definition gets {S A : Type} (f : S -> A) : M S A := fun s => (Return (f s), s).

Definition modify {S : Type} (f : S -> S) : M S unit := fun s => (Return tt, f s).

(** A computation on a component [T] of the state [S]. *)
Definition zoom {S T A : Type} (get : S -> T) (set : T -> S -> S) (c : M T A) : M S A :=
  fun s => let '(r, t') := c (get s) in (r, set t' s).

Declare Scope py_scope.
Delimit Scope py_scope with py.
Notation "x <- c ;; k" := (bind c (fun x => k))
  (at level 20, c at level 99, k at level 200, only parsing) : py_scope.
Notation "c ;; k" := (bind c (fun _ => k))
  (at level 100, k at level 200, only parsing, right associativity) : py_scope.
Local Open Scope py_scope.

(** ** The host and the tool registry *)

(** What stands at a path: a regular file that holds the text [content]
    (its bytes are the UTF-8 encoding of the text); a regular file whose
    bytes are not the encoding of a text, [error] being the message of
    the [UnicodeDecodeError] that reading it as text raises; or a
    directory. *)
Inductive node : Type :=
| File (content : string)
| Blob (error : string)
| Dir.

(** [n] is a regular file. *)
Definition is_regular (n : option node) : bool :=
  match n with
  | Some (File _) | Some (Blob _) => true
  | _ => false
  end.

(** [n] is a directory. *)
Definition is_dir (n : option node) : bool :=
  match n with Some Dir => true | _ => false end.

(** What [tempfile.NamedTemporaryFile(mode='w', suffix=..., delete=False)]
    followed by [f.write(code)] does on the host.  [name] is the path of
    the file without its suffix.  With [delete=False] a file that was
    created stays when the write raises. *)
Inductive temp_file : Type :=
| TempCreateFails (e : exn)
| TempWriteFails (name : string) (e : exn)
| TempWritten (name : string).

(** What a child process does: it cannot be started; or it runs for
    [duration] seconds, turns what stands on the host into [effect] of
    it, and ends with [returncode], [stdout] and [stderr] being what it
    wrote, read as text; or it runs and writes what is not UTF-8 text,
    so that [subprocess.run(..., text=True)] raises a
    [UnicodeDecodeError] of message [error] once it has ended.  The
    programs run are arbitrary, so [effect] is any function. *)
Inductive process : Type :=
| SpawnFails (e : exn)
| Runs (duration : Q) (returncode : Z) (stdout stderr : string)
       (effect : gmap string node -> gmap string node)
| Garbles (duration : Q) (error : string)
          (effect : gmap string node -> gmap string node).

(** [subprocess.CompletedProcess] *)
Record completed_process : Type := {
  returncode : Z;
  stdout : string;
  stderr : string
}.

(** What the call of a tool that is left to the host changes in place.
    The audit log refers to the plan and to the result of each call it
    holds, and a tool may change a list or a dict that it is given as an
    argument, or that it returned before and kept: [on_parameter i k v]
    is the parameter [k], of value [v], of the plan that entry [i] of the
    log refers to, as the call leaves it, and [on_result i r] the result
    of that entry.  The plan of the call itself counts as the entry that
    the call is about to append. *)
Record sharing : Type := {
  on_parameter : nat -> string -> value -> value;
  on_result : nat -> value -> value
}.

Record host : Type := {
  (** [datetime.now().isoformat()] *)
  now : string;
  (** [os.getcwd()] *)
  getcwd : string;
  named_temporary_file : temp_file;
  (** the behaviour of the child process started from an argument vector *)
  popen : list string -> process;
  (** a tool that is not modelled here, called on its keyword arguments *)
  collaborator : string -> gmap string value -> outcome value;
  (** what that call changes in the objects the audit log refers to *)
  in_place : string -> gmap string value -> sharing
}.

(** The state of a [ToolRegistry] the modelled tools read and write, with
    what stands on the host.  [spawned] and [dispatched] are records kept
    for the statements only: the argument vectors passed to
    [subprocess.run], and the keyword calls of a tool function the
    control plane made. *)
Record tool_registry : Type := {
  safe_write_directories : list string;
  command_whitelist : list string;
  fs : gmap string node;
  spawned : list (list string);
  dispatched : list (string * gmap string value)
}.

Definition set_fs (f : gmap string node -> gmap string node) (t : tool_registry)
  : tool_registry :=
  {| safe_write_directories := safe_write_directories t;
     command_whitelist := command_whitelist t;
     fs := f (fs t);
     spawned := spawned t;
     dispatched := dispatched t |}.

Definition add_spawned (cmd : list string) (t : tool_registry) : tool_registry :=
  {| safe_write_directories := safe_write_directories t;
     command_whitelist := command_whitelist t;
     fs := fs t;
     spawned := spawned t ++ [cmd];
     dispatched := dispatched t |}.

Definition add_dispatched (call : string * gmap string value) (t : tool_registry)
  : tool_registry :=
  {| safe_write_directories := safe_write_directories t;
     command_whitelist := command_whitelist t;
     fs := fs t;
     spawned := spawned t;
     dispatched := dispatched t ++ [call] |}.

(** [ToolRegistry.__init__], on a host where [files] stand. *)
Definition ToolRegistry_init (files : gmap string node) : tool_registry :=
  {| safe_write_directories := ["/app/uploads"; "/tmp"];
     command_whitelist := ["ls"; "pwd"; "cat"; "grep"; "find"; "wc"; "head"; "tail"];
     fs := files;
     spawned := [];
     dispatched := [] |}.

(** *** File system and process primitives *)

(** [os.path.exists(p)] *)
Definition os_path_exists (p : string) : M tool_registry bool :=
  gets (fun t => bool_decide (is_Some (fs t !! p))).

(** [os.path.isdir(p)] *)
Definition os_path_isdir (p : string) : M tool_registry bool :=
  gets (fun t => match fs t !! p with Some Dir => true | _ => false end).

(** [os.remove(p)]: a directory is not removed ([IsADirectoryError] on
    Linux). *)
Definition os_remove (p : string) : M tool_registry unit :=
  fun t =>
    match fs t !! p with
    | Some Dir => (Raise (IsADirectoryError p), t)
    | Some _ => (Return tt, set_fs (delete p) t)
    | None => (Raise (FileNotFoundError p), t)
    end.

(** [os.mkdir(p)] *)
Definition os_mkdir (p : string) : M tool_registry unit :=
  fun t =>
    match fs t !! p with
    | Some _ => (Raise (FileExistsError p), t)
    | None =>
        match fs t !! Path.dirname p with
        | Some Dir => (Return tt, set_fs (insert p Dir) t)
        | Some _ => (Raise (NotADirectoryError p), t)
        | None => (Raise (FileNotFoundError p), t)
        end
    end.

(** [os.makedirs(name, exist_ok=True)] as the library has it: the
    missing ancestors are made first, a [FileExistsError] of that is
    passed over, and the error of the last [mkdir] is raised unless
    [name] is a directory.  [fuel] bounds the depth of the recursion. *)
Fixpoint makedirs (fuel : nat) (name : string) : M tool_registry unit :=
  match fuel with
  | O => raise (HostError "maximum recursion depth exceeded")
  | S fuel' =>
      let '(head, tail) := Path.split name in
      let '(head, tail) :=
        if String.eqb tail "" then Path.split head else (head, tail) in
      done <- (if negb (String.eqb head "") && negb (String.eqb tail "") then
                 found <- os_path_exists head ;;
                 if negb found then
                   try_except (makedirs fuel' head)
                     (fun e => if is_file_exists_error e then ret tt else raise e) ;;
                   ret (String.eqb tail ".")
                 else ret false
               else ret false) ;;
      if done then ret tt
      else
        try_except (os_mkdir name)
          (fun e =>
             isdir <- os_path_isdir name ;;
             if negb isdir then raise e else ret tt)
  end.

(** [os.makedirs(d, exist_ok=True)]: a path has fewer components than
    characters, so the recursion ends before the fuel does. *)
Definition os_makedirs (d : string) : M tool_registry unit :=
  makedirs (S (String.length d)) d.

(** [with open(p, 'w') as f: f.write(content)] *)
Definition open_write (p content : string) : M tool_registry unit :=
  fun t =>
    match fs t !! p with
    | Some Dir => (Raise (IsADirectoryError p), t)
    | _ =>
        match fs t !! Path.dirname p with
        | Some Dir => (Return tt, set_fs (insert p (File content)) t)
        | Some _ => (Raise (NotADirectoryError p), t)
        | None => (Raise (FileNotFoundError p), t)
        end
    end.

(** [subprocess.run(cmd, capture_output=True, text=True, timeout=timeout)] *)
Definition subprocess_run (h : host) (cmd : list string) (timeout : Q)
  : M tool_registry completed_process :=
  fun t =>
    let t1 := add_spawned cmd t in
    match popen h cmd with
    | SpawnFails e => (Raise e, t1)
    | Runs duration rc out err effect =>
        let t2 := set_fs effect t1 in
        if Qle_bool duration timeout
        then (Return {| returncode := rc; stdout := out; stderr := err |}, t2)
        else (Raise TimeoutExpired, t2)
    | Garbles duration error effect =>
        let t2 := set_fs effect t1 in
        if Qle_bool duration timeout
        then (Raise (HostError error), t2)
        else (Raise TimeoutExpired, t2)
    end.

(** The [with tempfile.NamedTemporaryFile(...)] block of [run_code]; it
    returns [f.name]. *)
Definition write_temp_file (h : host) (suffix code : string) : M tool_registry string :=
  match named_temporary_file h with
  | TempCreateFails e => raise e
  | TempWriteFails name e =>
      modify (set_fs (insert (name +:+ suffix) (File ""))) ;; raise e
  | TempWritten name =>
      modify (set_fs (insert (name +:+ suffix) (File code))) ;; ret (name +:+ suffix)
  end.

(** ** [ToolRegistry.write_file] and [ToolRegistry.delete_file] *)

(** [any(abs_path.startswith(safe_dir) for safe_dir in
    self.safe_write_directories)] *)
Definition is_safe (t : tool_registry) (abs_path : string) : bool :=
  existsb (fun safe_dir => Str.startswith abs_path safe_dir) (safe_write_directories t).

Definition write_file (h : host) (path content : string) : M tool_registry value :=
  try_except
    (let abs_path := Path.abspath (getcwd h) path in
     safe <- gets (fun t => is_safe t abs_path) ;;
     if negb safe then
       dirs <- gets safe_write_directories ;;
       ret (VDict [("error", VStr ("permission denied: can only write to "
                                    +:+ Str.repr_list dirs));
                   ("path", VStr path)])
     else
       os_makedirs (Path.dirname abs_path) ;;
       open_write abs_path content ;;
       ret (VDict [("tool", VStr "write_file");
                   ("status", VStr "success");
                   ("path", VStr abs_path);
                   ("bytes_written", VInt (Z.of_nat (String.length content)))]))
    (fun e => ret (VDict [("error", VStr ("failed to write file: " +:+ exn_str e))])).

Definition delete_file (h : host) (path : string) : M tool_registry value :=
  try_except
    (let abs_path := Path.abspath (getcwd h) path in
     safe <- gets (fun t => is_safe t abs_path) ;;
     if negb safe then
       ret (VDict [("error", VStr "permission denied: can only delete from safe directories")])
     else
       found <- os_path_exists abs_path ;;
       if negb found then
         ret (VDict [("error", VStr ("file not found: " +:+ path))])
       else
         os_remove abs_path ;;
         ret (VDict [("tool", VStr "delete_file");
                     ("status", VStr "success");
                     ("path", VStr abs_path)]))
    (fun e => ret (VDict [("error", VStr ("failed to delete file: " +:+ exn_str e))])).

(** ** [ToolRegistry.run_code] *)

(** An entry of [lang_config]; an absent key is [None], and
    [config.get("compile")] is [compile]. *)
Record language_config : Type := {
  ext : string;
  cmd : option (list string);
  compile : bool;
  compiler : option string
}.

Definition lang_config : list (string * language_config) :=
  [ ("python", {| ext := ".py"; cmd := Some ["python3"]; compile := false; compiler := None |});
    ("javascript", {| ext := ".js"; cmd := Some ["node"]; compile := false; compiler := None |});
    ("go", {| ext := ".go"; cmd := Some ["go"; "run"]; compile := false; compiler := None |});
    ("rust", {| ext := ".rs"; cmd := None; compile := true; compiler := None |});
    ("c", {| ext := ".c"; cmd := None; compile := true; compiler := Some "gcc" |});
    ("cpp", {| ext := ".cpp"; cmd := None; compile := true; compiler := Some "g++" |}) ].

(** The local variables of [run_code] that its [except] clauses read;
    [None] is a variable not bound yet. *)
Record locals : Type := {
  config : option language_config;
  temp_path : option string;
  output_path : option string
}.

Definition no_locals : locals :=
  {| config := None; temp_path := None; output_path := None |}.

Definition frame : Type := locals * tool_registry.

(** A registry computation run inside the frame of [run_code]. *)
Definition tools_of {A : Type} (c : M tool_registry A) : M frame A :=
  zoom snd (fun t s => (fst s, t)) c.

Definition assign (f : locals -> locals) : M frame unit :=
  modify (fun s => (f (fst s), snd s)).

(** Reading a local variable: [UnboundLocalError] when it is not bound. *)
Definition local {A : Type} (name : string) (get : locals -> option A) : M frame A :=
  fun s =>
    match get (fst s) with
    | Some a => (Return a, s)
    | None => (Raise (UnboundLocalError name), s)
    end.

(** [d[key]] on an entry of [lang_config] *)
Definition subscript {A S : Type} (key : string) (field : option A) : M S A :=
  match field with
  | Some a => ret a
  | None => raise (KeyError key)
  end.

(** The statements of [run_code] from [# Execute] to the final [return]. *)
Definition run_code_execute (h : host) (language : string) (cfg : language_config)
    (tp : string) (exec_cmd : list string) : M frame value :=
  result <- tools_of (subprocess_run h exec_cmd 10) ;;
  tools_of (os_remove tp) ;;
  (if compile cfg then
     op <- local "output_path" output_path ;;
     found <- tools_of (os_path_exists op) ;;
     if found then tools_of (os_remove op) else ret tt
   else ret tt) ;;
  ret (VDict [("tool", VStr "run_code");
              ("status", VStr "success");
              ("language", VStr language);
              ("stdout", VStr (stdout result));
              ("stderr", VStr (stderr result));
              ("return_code", VInt (returncode result))]).

(** The body of the [try] statement of [run_code]. *)
Definition run_code_try (h : host) (code language : string) : M frame value :=
  match dict_get language lang_config with
  | None =>
      ret (VDict [("error", VStr ("unsupported language: " +:+ language
                                   +:+ ". Supported: "
                                   +:+ Str.repr_list (map fst lang_config)))])
  | Some cfg =>
      assign (fun l => {| config := Some cfg; temp_path := temp_path l;
                          output_path := output_path l |}) ;;
      tp <- tools_of (write_temp_file h (ext cfg) code) ;;
      assign (fun l => {| config := config l; temp_path := Some tp;
                          output_path := output_path l |}) ;;
      if compile cfg then
        let op := Str.replace tp (ext cfg) "" in
        assign (fun l => {| config := config l; temp_path := temp_path l;
                            output_path := Some op |}) ;;
        compile_cmd <- (if String.eqb language "rust"
                        then ret ["rustc"; tp; "-o"; op]
                        else cc <- subscript "compiler" (compiler cfg) ;;
                             ret [cc; tp; "-o"; op]) ;;
        compile_result <- tools_of (subprocess_run h compile_cmd 30) ;;
        if negb (returncode compile_result =? 0)%Z then
          tools_of (os_remove tp) ;;
          ret (VDict [("tool", VStr "run_code");
                      ("status", VStr "compilation_error");
                      ("language", VStr language);
                      ("stderr", VStr (stderr compile_result));
                      ("return_code", VInt (returncode compile_result))])
        else run_code_execute h language cfg tp [op]
      else
        interpreter <- subscript "cmd" (cmd cfg) ;;
        run_code_execute h language cfg tp (interpreter ++ [tp])
  end.

(** The clean-up both [except] clauses of [run_code] start with. *)
Definition run_code_cleanup : M frame unit :=
  tp <- local "temp_path" temp_path ;;
  found <- tools_of (os_path_exists tp) ;;
  (if found then tools_of (os_remove tp) else ret tt) ;;
  cfg <- local "config" config ;;
  if compile cfg then
    bound <- gets (fun s : frame => output_path (fst s)) ;;
    match bound with
    | Some op =>
        found' <- tools_of (os_path_exists op) ;;
        if found' then tools_of (os_remove op) else ret tt
    | None => ret tt
    end
  else ret tt.

Definition run_code_except (language : string) (e : exn) : M frame value :=
  if is_timeout_expired e then
    run_code_cleanup ;;
    ret (VDict [("error", VStr "code execution timed out (10s limit for execution, 30s for compilation)")])
  else
    run_code_cleanup ;;
    ret (VDict [("error", VStr ("failed to run " +:+ language +:+ " code: " +:+ exn_str e))]).

Definition run_code (h : host) (code language : string) : M tool_registry value :=
  fun t =>
    let '(r, s) := try_except (run_code_try h code language)
                              (run_code_except language) (no_locals, t) in
    (r, snd s).

(** ** [ControlPlane] *)

(** The methods of [ToolRegistry] that [tool_map] holds. *)
Module Tool.
Inductive t : Type :=
| search_knowledge | assess_understanding | update_learner_profile
| log_interaction | read_file | list_directory | ingest_document
| analyze_image | write_file | delete_file | web_search | fetch_url
| execute_command | run_code | set_assignment.

Definition name (f : t) : string :=
  match f with
  | search_knowledge => "search_knowledge"
  | assess_understanding => "assess_understanding"
  | update_learner_profile => "update_learner_profile"
  | log_interaction => "log_interaction"
  | read_file => "read_file"
  | list_directory => "list_directory"
  | ingest_document => "ingest_document"
  | analyze_image => "analyze_image"
  | write_file => "write_file"
  | delete_file => "delete_file"
  | web_search => "web_search"
  | fetch_url => "fetch_url"
  | execute_command => "execute_command"
  | run_code => "run_code"
  | set_assignment => "set_assignment"
  end.

(** The parameters of each method after [self]: those without a default,
    then those with one. *)
Definition signature (f : t) : list string * list string :=
  match f with
  | search_knowledge => (["query"], ["filters"; "session_id"])
  | assess_understanding => (["topic"], [])
  | update_learner_profile => (["topic"; "proficiency"], [])
  | log_interaction => (["event"; "details"], [])
  | read_file => (["path"], [])
  | list_directory => (["path"], [])
  | ingest_document => (["path"], ["session_id"])
  | analyze_image => (["image_path"; "question"], ["agent"])
  | write_file => (["path"; "content"], [])
  | delete_file => (["path"], [])
  | web_search => (["query"], [])
  | fetch_url => (["url"], [])
  | execute_command => (["command"], ["args"])
  | run_code => (["code"], ["language"])
  | set_assignment => (["description"], ["language"])
  end.
End Tool.

(** Whether the keyword call of [f] on [params] binds: every parameter
    without a default is given, and every key names a parameter. *)
Definition binds (f : Tool.t) (params : gmap string value) : bool :=
  let '(required, optional) := Tool.signature f in
  forallb (fun k => bool_decide (is_Some (params !! k))) required
  && bool_decide (dom params ⊆ list_to_set (required ++ optional)).

(** The body of a method on bound arguments, where it is one of the
    three tools modelled above, run on arguments of their annotated type
    [str]. *)
Definition own_body (h : host) (f : Tool.t) (params : gmap string value)
  : option (M tool_registry value) :=
  match f with
  | Tool.write_file =>
      match params !! "path", params !! "content" with
      | Some (VStr path), Some (VStr content) => Some (write_file h path content)
      | _, _ => None
      end
  | Tool.delete_file =>
      match params !! "path" with
      | Some (VStr path) => Some (delete_file h path)
      | _ => None
      end
  | Tool.run_code =>
      match params !! "code", default (VStr "python") (params !! "language") with
      | Some (VStr code), VStr language => Some (run_code h code language)
      | _, _ => None
      end
  | _ => None
  end.

(** The body of a method on bound arguments: every other tool, and
    every other argument, is left to the host. *)
Definition tool_body (h : host) (f : Tool.t) (params : gmap string value)
  : M tool_registry value :=
  match own_body h f params with
  | Some body => body
  | None => fun t => (collaborator h (Tool.name f) params, t)
  end.

(** The keyword call of [f] on [params]: a [TypeError] when the arguments
    do not bind (the interpreter's wording of it is not modelled). *)
Definition call (h : host) (f : Tool.t) (params : gmap string value)
  : M tool_registry value :=
  modify (add_dispatched (Tool.name f, params)) ;;
  if binds f params then tool_body h f params
  else raise (TypeError (Tool.name f +:+ "() got arguments that do not match its parameters")).

Record safety_rules_t : Type := {
  max_tools_per_request : nat;
  allowed_tools : list string
}.

(** An action plan: a dict with the keys [action], [parameters] and
    [context], each of which may be absent. *)
Record plan : Type := {
  action : option string;
  parameters : option (gmap string value);
  context : option (gmap string string)
}.

(** An entry of [execution_log]: the time of the call, a string, and
    the plan and the result the entry refers to, as they are now.  The
    entry does not copy them: when a tool changes one of these objects
    in place, a later call included, the entry shows the change
    ([retouch]). *)
Record audit_entry : Type := {
  timestamp : string;
  entry_plan : plan;
  entry_result : value
}.

Record control_plane : Type := {
  tools : tool_registry;
  safety_rules : safety_rules_t;
  execution_log : list audit_entry
}.

(** [ControlPlane.__init__] *)
Definition ControlPlane_init (tool_registry : tool_registry) : control_plane :=
  {| tools := tool_registry;
     safety_rules :=
       {| max_tools_per_request := 5;
          allowed_tools :=
            ["search_knowledge"; "assess_understanding";
             "update_learner_profile"; "log_interaction";
             "read_file"; "list_directory";
             "ingest_document"; "analyze_image";
             "write_file"; "delete_file";
             "web_search"; "fetch_url"; "execute_command";
             "run_code"; "set_assignment"] |};
     execution_log := [] |}.

Record metadata_t : Type := {
  execution_count : nat;
  safety_checks_passed : bool
}.

(** The two dicts [execute] returns: the one with the keys [error] and
    [plan], and the one with the keys [success] (always [True]), [action],
    [result] and [metadata]. *)
Inductive envelope : Type :=
| Refused (error : string) (p : plan)
| Executed (act : option string) (result : value) (metadata : metadata_t).

(** [envelope.get("success")] *)
Definition success (e : envelope) : option bool :=
  match e with
  | Refused _ _ => None
  | Executed _ _ _ => Some true
  end.

(** [action.split('(')[0].strip() if '(' in action else action] *)
Definition base_action (a : string) : string :=
  if Str.contains "(" a then Str.strip (Str.split_head "(" a) else a.

(** [len(plan.get("parameters", {}))] *)
Definition parameter_count (p : plan) : nat := size (default ∅ (parameters p)).

Definition _validate_request (cp : control_plane) (p : plan) : bool :=
  let allowed := allowed_tools (safety_rules cp) in
  if match action p with
     | Some a =>
         negb (String.eqb a "") && negb (bool_decide (a ∈ allowed))
         && negb (bool_decide (base_action a ∈ allowed))
     | None => false
     end
  then false
  else if (10 <? parameter_count p)%nat then false
  else true.

Definition tool_map : gmap string Tool.t :=
  list_to_map
    [ ("search_knowledge", Tool.search_knowledge);
      ("assess_understanding", Tool.assess_understanding);
      ("update_learner_profile", Tool.update_learner_profile);
      ("log_interaction", Tool.log_interaction);
      ("read_file", Tool.read_file);
      ("list_directory", Tool.list_directory);
      ("ingest_document", Tool.ingest_document);
      ("analyze_image", Tool.analyze_image);
      ("write_file", Tool.write_file);
      ("delete_file", Tool.delete_file);
      ("web_search", Tool.web_search);
      ("fetch_url", Tool.fetch_url);
      ("execute_command", Tool.execute_command);
      ("run_code", Tool.run_code);
      ("set_assignment", Tool.set_assignment) ].

(** [str(action)] for an action that is a string or [None]. *)
Definition action_str (a : option string) : string := default "None" a.

Definition _route_and_execute (h : host) (act : option string)
    (params : gmap string value) : M tool_registry value :=
  match act ≫= (fun a => tool_map !! a) with
  | Some tool_func => call h tool_func params
  | None => ret (VDict [("error", VStr ("unknown action: " +:+ action_str act))])
  end.

Definition set_tools (t : tool_registry) (cp : control_plane) : control_plane :=
  {| tools := t; safety_rules := safety_rules cp; execution_log := execution_log cp |}.

Definition append_log (e : audit_entry) (cp : control_plane) : control_plane :=
  {| tools := tools cp; safety_rules := safety_rules cp;
     execution_log := execution_log cp ++ [e] |}.

(** What the call that [_route_and_execute] makes changes in place:
    nothing when no tool is called, when the arguments do not bind, so
    that no body runs, and when the body is one of the three modelled
    above, which are given strings and build their result anew. *)
Definition shared_by (h : host) (act : option string) (params : gmap string value)
  : option sharing :=
  match act ≫= (fun a => tool_map !! a) with
  | Some tool_func =>
      if binds tool_func params then
        match own_body h tool_func params with
        | Some _ => None
        | None => Some (in_place h (Tool.name tool_func) params)
        end
      else None
  | None => None
  end.

(** A plan whose parameters were changed in place. *)
Definition retouch_plan (f : string -> value -> value) (p : plan) : plan :=
  {| action := action p;
     parameters :=
       match parameters p with
       | Some params => Some (map_imap (fun k v => Some (f k v)) params)
       | None => None
       end;
     context := context p |}.

Definition retouch_entry (s : sharing) (i : nat) (e : audit_entry) : audit_entry :=
  {| timestamp := timestamp e;
     entry_plan := retouch_plan (on_parameter s i) (entry_plan e);
     entry_result := on_result s i (entry_result e) |}.

(** The control plane once the objects its log refers to were changed
    in place. *)
Definition retouch (s : option sharing) (cp : control_plane) : control_plane :=
  match s with
  | Some s =>
      {| tools := tools cp; safety_rules := safety_rules cp;
         execution_log := imap (retouch_entry s) (execution_log cp) |}
  | None => cp
  end.

(** The plan of a call as the call left it, the log having [i] entries. *)
Definition plan_after (s : option sharing) (i : nat) (p : plan) : plan :=
  match s with
  | Some s => retouch_plan (on_parameter s i) p
  | None => p
  end.

(** A computation that changes in place what the log refers to,
    whether it returns or raises. *)
Definition sharing_log {A : Type} (s : option sharing) (c : M control_plane A)
  : M control_plane A :=
  fun cp => let '(r, cp') := c cp in (r, retouch s cp').

Definition execute (h : host) (p : plan) : M control_plane envelope :=
  valid <- gets (fun cp => _validate_request cp p) ;;
  if negb valid then ret (Refused "safety validation failed" p)
  else
    let act := action p in
    let params := default ∅ (parameters p) in
    let shared := shared_by h act params in
    result <- sharing_log shared
                (zoom tools set_tools (_route_and_execute h act params)) ;;
    logged <- gets (fun cp => plan_after shared (length (execution_log cp)) p) ;;
    modify (append_log {| timestamp := now h; entry_plan := logged;
                          entry_result := result |}) ;;
    count <- gets (fun cp => length (execution_log cp)) ;;
    ret (Executed act result
           {| execution_count := count; safety_checks_passed := true |}).

(** ** Example hosts and states *)

(** A call that changes nothing in place. *)
Definition untouched : sharing :=
  {| on_parameter := fun _ _ v => v; on_result := fun _ v => v |}.

(** A host on which the temporary file is written, every child process
    ends at once with exit code 0, and the tools left to the host return
    [None] and change nothing in place. *)
Definition quiet_host : host :=
  {| now := "2024-01-01T00:00:00";
     getcwd := "/app";
     named_temporary_file := TempWritten "/tmp/tmpab12cd34";
     popen := fun _ => Runs 0 0 "" "" id;
     collaborator := fun _ _ => Return VNone;
     in_place := fun _ _ => untouched |}.

(** [d[k] = v] on the items of a dict: a key that is there keeps its
    place. *)
Fixpoint dict_set {A : Type} (k : string) (v : A) (items : list (string * A))
  : list (string * A) :=
  match items with
  | [] => [(k, v)]
  | (k', v') :: items' =>
      if String.eqb k' k then (k', v) :: items' else (k', v') :: dict_set k v items'
  end.

(** A host whose [search_knowledge] does what the tool starts with:
    given a [filters] dict that is not empty and a [session_id] that is
    not empty, it stores the session in that dict, which is the dict the
    plan of the call holds.  The log has [n] entries at the call, so
    that plan is entry [n]. *)
Definition filing_host (n : nat) : host :=
  {| now := now quiet_host;
     getcwd := getcwd quiet_host;
     named_temporary_file := named_temporary_file quiet_host;
     popen := popen quiet_host;
     collaborator := fun _ _ =>
       Return (VDict [("tool", VStr "search_knowledge"); ("results", VList []);
                      ("count", VInt 0)]);
     in_place := fun name params =>
       if String.eqb name "search_knowledge" then
         {| on_parameter := fun i k v =>
              match v, params !! "session_id" with
              | VDict (item :: items), Some (VStr (String a s)) =>
                  if (i =? n)%nat && String.eqb k "filters"
                  then VDict (dict_set "session_id" (VStr (String a s)) (item :: items))
                  else v
              | _, _ => v
              end;
            on_result := fun _ v => v |}
       else untouched |}.

(** A control plane as the application builds it, on a host without files. *)
Definition fresh_plane : control_plane := ControlPlane_init (ToolRegistry_init ∅).

(** ** Vocabulary of the statements *)

(** [path] begins with the characters of [root]. *)
Definition prefixed_by (root path : string) : Prop :=
  exists rest, path = root +:+ rest.

(** [path] is the directory [root] or lies below it. *)
Definition inside_directory (root path : string) : Prop :=
  path = root \/ prefixed_by (root +:+ "/") path.

(** The files of a host on which the directory [/tmpdata] holds the one
    file [x], of text [content], if any. *)
Definition tmpdata (content : option string) : gmap string node :=
  let dirs : gmap string node := <["/" := Dir]> {[ "/tmpdata" := Dir ]} in
  match content with
  | Some text => <["/tmpdata/x" := File text]> dirs
  | None => dirs
  end.

(** A registry as [__init__] builds it, on a host with one file outside
    the safe write directories. *)
Definition registry_with_tmpdata : tool_registry :=
  ToolRegistry_init (tmpdata (Some "old")).

Definition plan_of (a : option string) (params : list (string * value)) : plan :=
  {| action := a; parameters := Some (list_to_map params); context := None |}.

Definition six_parameters : list (string * value) :=
  [ ("query", VStr "loops"); ("filters", VDict []); ("session_id", VStr "s1");
    ("limit", VInt 3); ("offset", VInt 0); ("lang", VStr "en") ].

(** A sequence of calls, each on the host of its moment: the outcomes in
    order and the control plane at the end. *)
Fixpoint run (calls : list (host * plan)) (cp : control_plane)
  : list (outcome envelope) * control_plane :=
  match calls with
  | [] => ([], cp)
  | (h, p) :: calls' =>
      let '(r, cp1) := execute h p cp in
      let '(rs, cp2) := run calls' cp1 in
      (r :: rs, cp2)
  end.

(** The call returned a dict whose [success] is [True]. *)
Definition returned_success (r : outcome envelope) : bool :=
  match r with
  | Return e => bool_decide (success e = Some true)
  | Raise _ => false
  end.

Definition successes (rs : list (outcome envelope)) : nat :=
  length (List.filter returned_success rs).

(** The argument vector of the compile phase of [run_code]. *)
Definition compile_argv (language : string) (cfg : language_config) (tp : string)
  : list string :=
  [ if String.eqb language "rust" then "rustc" else default "" (compiler cfg);
    tp; "-o"; Str.replace tp (ext cfg) "" ].

(** The argument vector of the execute phase of [run_code]. *)
Definition exec_argv (cfg : language_config) (tp : string) : list string :=
  if compile cfg then [Str.replace tp (ext cfg) ""]
  else default [] (cmd cfg) ++ [tp].

(** The child process leaves the file [p] in place: where a regular
    file stood, a regular file stands. *)
Definition keeps (effect : gmap string node -> gmap string node) (p : string)
  : Prop :=
  forall files, is_regular (files !! p) = true -> is_regular (effect files !! p) = true.

(** The child process puts no directory at [p]: where none stood, none
    stands. *)
Definition spares (effect : gmap string node -> gmap string node) (p : string)
  : Prop :=
  forall files, files !! p <> Some Dir -> effect files !! p <> Some Dir.

(** What a process that runs does to the host. *)
Definition effect_of (c : process)
  : option (gmap string node -> gmap string node) :=
  match c with
  | SpawnFails _ => None
  | Runs _ _ _ _ effect => Some effect
  | Garbles _ _ effect => Some effect
  end.

(** No child process puts a directory at [p]. *)
Definition no_directory_made (h : host) (p : string) : Prop :=
  forall argv effect, effect_of (popen h argv) = Some effect -> spares effect p.

(** For a compiled language, no directory stands at the output path
    before the call and no child process puts one there. *)
Definition output_path_is_free (h : host) (cfg : language_config)
    (t : tool_registry) (tp : string) : Prop :=
  compile cfg = true ->
  fs t !! Str.replace tp (ext cfg) "" <> Some Dir
  /\ no_directory_made h (Str.replace tp (ext cfg) "").

(** The compile phase, where the language has one, ends within 30
    seconds with exit code 0. *)
Definition compiles (h : host) (language : string) (cfg : language_config)
    (tp : string) : Prop :=
  compile cfg = true ->
  exists d out err eff,
    popen h (compile_argv language cfg tp) = Runs d 0 out err eff /\ (d <= 30)%Q.

(** No child process of the call removes the source file [tp]. *)
Definition source_is_kept (h : host) (language : string) (cfg : language_config)
    (tp : string) : Prop :=
  forall argv d rc out err eff,
    argv ∈ [compile_argv language cfg tp; exec_argv cfg tp] ->
    popen h argv = Runs d rc out err eff -> keeps eff tp.

(** The argument vectors of a call that reached the execute phase. *)
Definition both_phases (language : string) (cfg : language_config) (tp : string)
  : list (list string) :=
  (if compile cfg then [compile_argv language cfg tp] else []) ++ [exec_argv cfg tp].

Inductive phase : Type := CompilePhase | ExecutePhase.

(** The child process of phase [ph] runs longer than the phase allows:
    30 seconds to compile, 10 seconds to execute. *)
Definition times_out (h : host) (language : string) (cfg : language_config)
    (tp : string) (ph : phase) : Prop :=
  match ph with
  | CompilePhase =>
      compile cfg = true
      /\ exists d rc out err eff,
           popen h (compile_argv language cfg tp) = Runs d rc out err eff /\ (30 < d)%Q
  | ExecutePhase =>
      compiles h language cfg tp
      /\ exists d rc out err eff,
           popen h (exec_argv cfg tp) = Runs d rc out err eff /\ (10 < d)%Q
  end.

(** The argument vector of the process that runs out of time in phase
    [ph]. *)
Definition overrun_argv (language : string) (cfg : language_config) (tp : string)
    (ph : phase) : list string :=
  match ph with
  | CompilePhase => compile_argv language cfg tp
  | ExecutePhase => exec_argv cfg tp
  end.

(** The process started from [argv] leaves a directory at [p], whatever
    stood there. *)
Definition leaves_directory (h : host) (argv : list string) (p : string) : Prop :=
  forall effect files,
    effect_of (popen h argv) = Some effect -> effect files !! p = Some Dir.

(** The argument vectors of a call that timed out in phase [ph]. *)
Definition attempted (language : string) (cfg : language_config) (tp : string)
    (ph : phase) : list (list string) :=
  match ph with
  | CompilePhase => [compile_argv language cfg tp]
  | ExecutePhase => both_phases language cfg tp
  end.

(** The dict [run_code] returns from its [except TimeoutExpired] clause. *)
Definition timed_out_result : value :=
  VDict [("error", VStr "code execution timed out (10s limit for execution, 30s for compilation)")].

(** The dict an [except] clause of [run_code] returns for the exception
    [e], once its clean-up is done. *)
Definition except_result (language : string) (e : exn) : value :=
  if is_timeout_expired e then timed_out_result
  else VDict [("error", VStr ("failed to run " +:+ language +:+ " code: " +:+ exn_str e))].

(** The dict [run_code] returns after the execute phase. *)
Definition success_result (language out err : string) (rc : Z) : value :=
  VDict [("tool", VStr "run_code");
         ("status", VStr "success");
         ("language", VStr language);
         ("stdout", VStr out);
         ("stderr", VStr err);
         ("return_code", VInt rc)].

(** The dict [run_code] returns after a compiler that exits non-zero. *)
Definition compilation_error_result (language err : string) (rc : Z) : value :=
  VDict [("tool", VStr "run_code");
         ("status", VStr "compilation_error");
         ("language", VStr language);
         ("stderr", VStr err);
         ("return_code", VInt rc)].

Fixpoint string_repeat (a : ascii) (n : nat) : string :=
  match n with
  | O => ""
  | S n' => String a (string_repeat a n')
  end.

(** A text of 100000 characters. *)
Definition long_output : string := string_repeat "x" (100 * 1000).

(** The interpreter runs a script that divides by zero: exit code 1 and a
    traceback on the standard error. *)
Definition failing_script_host : host :=
  {| now := now quiet_host;
     getcwd := getcwd quiet_host;
     named_temporary_file := TempWritten "/tmp/tmpab12cd34";
     popen := fun _ =>
       Runs 0.05 1 ""
         "Traceback (most recent call last): ZeroDivisionError: division by zero" id;
     collaborator := collaborator quiet_host;
     in_place := in_place quiet_host |}.

(** Every child process runs for a minute. *)
Definition sleeping_host : host :=
  {| now := now quiet_host;
     getcwd := getcwd quiet_host;
     named_temporary_file := TempWritten "/tmp/tmpab12cd34";
     popen := fun _ => Runs 60 0 "" "" id;
     collaborator := collaborator quiet_host;
     in_place := in_place quiet_host |}.

(** Every child process prints [long_output] on both streams; with exit
    code 0 when it is started from one argument (a compiled binary) or two
    (an interpreter), with exit code 1 otherwise (a compiler). *)
Definition noisy_host : host :=
  {| now := now quiet_host;
     getcwd := getcwd quiet_host;
     named_temporary_file := TempWritten "/tmp/tmpab12cd34";
     popen := fun argv =>
       Runs 1 (if (length argv <=? 2)%nat then 0 else 1) long_output long_output id;
     collaborator := collaborator quiet_host;
     in_place := in_place quiet_host |}.

(** Every child process removes the files named in its argument vector
    (a script that removes itself) and ends with exit code 0. *)
Definition self_removing_host : host :=
  {| now := now quiet_host;
     getcwd := getcwd quiet_host;
     named_temporary_file := TempWritten "/tmp/tmpab12cd34";
     popen := fun argv => Runs 0.1 0 "done" "" (fun files => foldr delete files argv);
     collaborator := collaborator quiet_host;
     in_place := in_place quiet_host |}.

(** The compiler writes its output file and then exits with code 1. *)
Definition leaky_compiler_host : host :=
  {| now := now quiet_host;
     getcwd := getcwd quiet_host;
     named_temporary_file := TempWritten "/tmp/tmpab12cd34";
     popen := fun _ =>
       Runs 2 1 "" "ld: cannot find -lm" (insert "/tmp/tmpab12cd34" (File "ELF"));
     collaborator := collaborator quiet_host;
     in_place := in_place quiet_host |}.

(** Every child process removes the file named last in its argument
    vector, makes a directory at that path, and sleeps for a minute (a
    script that puts a directory in its own place). *)
Definition swapping_host : host :=
  {| now := now quiet_host;
     getcwd := getcwd quiet_host;
     named_temporary_file := TempWritten "/tmp/tmpab12cd34";
     popen := fun argv =>
       Runs 60 0 "" ""
         (fun files => match last argv with
                       | Some p => <[p := Dir]> files
                       | None => files
                       end);
     collaborator := collaborator quiet_host;
     in_place := in_place quiet_host |}.

(** The temporary file is created, and writing the source text into it
    raises (a text the encoding of the host cannot encode). *)
Definition write_fault_host : host :=
  {| now := now quiet_host;
     getcwd := getcwd quiet_host;
     named_temporary_file :=
       TempWriteFails "/tmp/tmpab12cd34"
         (HostError "'utf-8' codec can't encode character '\ud800' in position 0: surrogates not allowed");
     popen := popen quiet_host;
     collaborator := collaborator quiet_host;
     in_place := in_place quiet_host |}.

(** ** Further vocabulary: sequences of calls *)

(** The [execution_count] of each call that returned [success: True]. *)
Definition counts (rs : list (outcome envelope)) : list nat :=
  omap (fun r => match r with
                 | Return (Executed _ _ m) => Some (execution_count m)
                 | _ => None
                 end) rs.

(** The audit entries of the calls of a sequence that returned
    [success: True], in order, where no call changes in place what the
    log refers to. *)
Fixpoint logged (calls : list (host * plan)) (rs : list (outcome envelope))
  : list audit_entry :=
  match calls, rs with
  | (h, p) :: calls', Return (Executed _ result _) :: rs' =>
      {| timestamp := now h; entry_plan := p; entry_result := result |}
      :: logged calls' rs'
  | _ :: calls', _ :: rs' => logged calls' rs'
  | _, _ => []
  end.

(** The times of these entries. *)
Fixpoint logged_times (calls : list (host * plan)) (rs : list (outcome envelope))
  : list string :=
  match calls, rs with
  | (h, p) :: calls', Return (Executed _ _ _) :: rs' => now h :: logged_times calls' rs'
  | _ :: calls', _ :: rs' => logged_times calls' rs'
  | _, _ => []
  end.

(** The call of the plan [p] on the host [h] leaves the objects of the
    log alone: no tool is called, or one that is modelled here. *)
Definition shares_nothing (c : host * plan) : Prop :=
  shared_by c.1 (action c.2) (default ∅ (parameters c.2)) = None.

(** The argument vector of the first child process of [run_code]. *)
Definition first_argv (language : string) (cfg : language_config) (tp : string)
  : list string :=
  if compile cfg then compile_argv language cfg tp else exec_argv cfg tp.

(** A host on which no executable is found. *)
Definition bare_host : host :=
  {| now := now quiet_host;
     getcwd := getcwd quiet_host;
     named_temporary_file := TempWritten "/tmp/tmpab12cd34";
     popen := fun argv =>
       SpawnFails (HostError "[Errno 2] No such file or directory: 'rustc'");
     collaborator := collaborator quiet_host;
     in_place := in_place quiet_host |}.

(** ** The other file and process tools of [ToolRegistry] *)

(** [s[:n]] *)
Fixpoint slice_to (n : nat) (s : string) : string :=
  match n, s with
  | S n', String a s' => String a (slice_to n' s')
  | _, _ => ""
  end.



(** The files of a host that has the directories [/app] and [/tmp],
    and the [entries] given. *)
Definition scratch (entries : list (string * node)) : gmap string node :=
  foldr (fun e : string * node => insert e.1 e.2)
    (<["/" := Dir]> (<["/app" := Dir]> {[ "/tmp" := Dir ]})) entries.

(** Where the walk of an absolute path starts: the root, or the root of
    the paths with two leading slashes. *)
Definition root_of (full : string) : string :=
  if Str.startswith full "//" && negb (Str.startswith full "///") then "//" else "/".

(** The path of the directory reached from [root] through the
    components [rev_comps], the last first. *)
Definition place (root : string) (rev_comps : list string) : string :=
  root +:+ Str.join "/" (rev rev_comps).

(** The walk of the operating system along the components of a path: a
    component is looked up in the directory reached so far, which has to
    be a directory; an empty component and a dot stay there, and dot-dot
    goes to the directory above, the root being above itself. *)
Fixpoint walk (files : gmap string node) (root : string) (comps rev_new : list string)
  : option (list string) :=
  match comps with
  | [] => Some rev_new
  | comp :: comps' =>
      match files !! place root rev_new with
      | Some Dir =>
          walk files root comps'
            (if String.eqb comp "" || String.eqb comp "." then rev_new
             else if String.eqb comp ".." then tail rev_new
             else comp :: rev_new)
      | _ => None
      end
  end.

(** Where a path leads, when every directory it goes through is there:
    a relative path is walked from the working directory, itself reached
    by its name; the empty path leads nowhere. *)
Definition os_walk (h : host) (files : gmap string node) (path : string)
  : option string :=
  if String.eqb path "" then None
  else
    let full := if Path.isabs path then path else Path.join (getcwd h) path in
    if negb (Path.isabs full) then None
    else
      match walk files (root_of full) (Str.split "/" full) [] with
      | Some rev_comps => Some (place (root_of full) rev_comps)
      | None => None
      end.

(** What a path names for the operating system: where it leads, when
    something stands there. *)
Definition os_locate (h : host) (t : tool_registry) (path : string) : option string :=
  match os_walk h (fs t) path with
  | Some k => if bool_decide (is_Some (fs t !! k)) then Some k else None
  | None => None
  end.

(** [os.path.exists(path)] for a path as it is given. *)
Definition os_path_exists_at (h : host) (path : string) : M tool_registry bool :=
  gets (fun t => bool_decide (is_Some (os_locate h t path))).

Definition carriage_return : ascii := ascii_of_nat 13.
Definition line_feed : ascii := ascii_of_nat 10.

(** What reading in text mode makes of the text of a file: a carriage
    return, with the line feed that follows it if any, is read as a line
    feed. *)
Fixpoint universal_newlines (s : string) : string :=
  match s with
  | EmptyString => EmptyString
  | String a s' =>
      if Ascii.eqb a carriage_return then
        String line_feed
          match s' with
          | String b s'' =>
              if Ascii.eqb b line_feed then universal_newlines s''
              else universal_newlines s'
          | EmptyString => EmptyString
          end
      else String a (universal_newlines s')
  end.

(** [with open(path, 'r', encoding='utf-8') as f: content = f.read()] *)
Definition open_read (h : host) (path : string) : M tool_registry string :=
  fun t =>
    match os_locate h t path with
    | Some k =>
        match fs t !! k with
        | Some (File content) => (Return (universal_newlines content), t)
        | Some (Blob error) => (Raise (HostError error), t)
        | Some Dir => (Raise (IsADirectoryError path), t)
        | None => (Raise (FileNotFoundError path), t)
        end
    | None => (Raise (FileNotFoundError path), t)
    end.

Definition read_file (h : host) (path : string) : M tool_registry value :=
  try_except
    (found <- os_path_exists_at h path ;;
     if negb found then
       ret (VDict [("error", VStr ("file not found: " +:+ path))])
     else
       content <- open_read h path ;;
       ret (VDict [("tool", VStr "read_file");
                   ("path", VStr path);
                   ("content",
                    VStr (if (5000 <? String.length content)%nat
                          then slice_to 5000 content +:+ "... (truncated)"
                          else content))]))
    (fun e => ret (VDict [("error", VStr ("failed to read file: " +:+ exn_str e))])).

(** [execute_command]; [args] is [None] for the default.  The working
    directory [/app] of the child is part of what the host decides. *)
Definition execute_command (h : host) (command : string) (args : option (list string))
  : M tool_registry value :=
  try_except
    (whitelist <- gets command_whitelist ;;
     if negb (bool_decide (command ∈ whitelist)) then
       ret (VDict [("error", VStr ("command not allowed. whitelist: "
                                    +:+ Str.repr_list whitelist));
                   ("command", VStr command)])
     else
       let cmd_list :=
         match args with
         | Some (a :: args') => [command] ++ a :: args'
         | _ => [command]
         end in
       result <- subprocess_run h cmd_list 10 ;;
       ret (VDict [("tool", VStr "execute_command");
                   ("status", VStr "success");
                   ("command", VStr (Str.join " " cmd_list));
                   ("stdout", VStr (slice_to 1000 (stdout result)));
                   ("stderr", VStr (slice_to 1000 (stderr result)));
                   ("return_code", VInt (returncode result))]))
    (fun e =>
       if is_timeout_expired e then
         ret (VDict [("error", VStr "command timed out (10s limit)")])
       else
         ret (VDict [("error", VStr ("failed to execute command: " +:+ exn_str e))])).

(** ** The learner's state in [ToolRegistry] *)

(** [self.user_state] *)
Record user_state_t : Type := {
  proficiency : string;
  topics_covered : list string
}.

(** A [DatabaseManager] as the two tools use it: what its
    [log_interaction] and [update_profile] answer. *)
Record database : Type := {
  db_log_interaction : string -> value -> outcome Z;
  db_update_profile : string -> string -> outcome user_state_t
}.

(** An entry of [self.interaction_log]. *)
Record interaction : Type := {
  interaction_timestamp : string;
  event : string;
  details : value
}.

(** The attributes of a [ToolRegistry] that [log_interaction] and
    [update_learner_profile] read and write; [db] is [None] when the
    database was not available at construction. *)
Record learner_registry : Type := {
  db : option database;
  interaction_log : list interaction;
  user_state : user_state_t
}.

(** The attributes as [ToolRegistry.__init__] sets them. *)
Definition learner_init (d : option database) : learner_registry :=
  {| db := d;
     interaction_log := [];
     user_state := {| proficiency := "fundamental"; topics_covered := [] |} |}.

(** [self.user_state.copy()] as a value. *)
Definition profile_value (u : user_state_t) : value :=
  VDict [("proficiency", VStr (proficiency u));
         ("topics_covered", VList (VStr <$> topics_covered u))].

Definition update_learner_profile (topic prof : string) : M learner_registry value :=
  fun r =>
    match db r with
    | Some d =>
        match db_update_profile d prof topic with
        | Raise e => (Raise e, r)
        | Return profile =>
            let r' := {| db := db r; interaction_log := interaction_log r;
                         user_state := profile |} in
            (Return (VDict [("tool", VStr "update_learner_profile");
                            ("status", VStr "updated");
                            ("profile", profile_value profile)]), r')
        end
    | None =>
        let topics :=
          if bool_decide (topic ∈ topics_covered (user_state r))
          then topics_covered (user_state r)
          else topics_covered (user_state r) ++ [topic] in
        let u := {| proficiency := prof; topics_covered := topics |} in
        (Return (VDict [("tool", VStr "update_learner_profile");
                        ("status", VStr "updated");
                        ("profile", profile_value u)]),
         {| db := db r; interaction_log := interaction_log r; user_state := u |})
    end.

Definition log_interaction (h : host) (ev : string) (det : value)
  : M learner_registry value :=
  fun r =>
    match match db r with
          | Some d => db_log_interaction d ev det
          | None => Return (-1)%Z
          end with
    | Raise e => (Raise e, r)
    | Return entry_id =>
        let log' := interaction_log r
                    ++ [{| interaction_timestamp := now h; event := ev; details := det |}] in
        (Return (VDict [("tool", VStr "log_interaction");
                        ("status", VStr "logged");
                        ("entry_id",
                         VInt (if (entry_id =? -1)%Z then Z.of_nat (length log')
                               else entry_id))]),
         {| db := db r; interaction_log := log'; user_state := user_state r |})
    end.

(** The argument vector [execute_command] builds. *)
Definition command_argv (command : string) (args : option (list string)) : list string :=
  command :: default [] args.

(** Successive [log_interaction] calls, each on the host of its moment:
    the results in order. *)
Fixpoint log_all (calls : list (host * string * value)) : M learner_registry (list value) :=
  match calls with
  | [] => ret []
  | (h, ev, det) :: calls' =>
      r <- log_interaction h ev det ;;
      rs <- log_all calls' ;;
      ret (r :: rs)
  end.

(** The [entry_id] of each result. *)
Definition entry_ids (rs : list value) : list Z :=
  omap (fun r => match value_get "entry_id" r with
                 | Some (VInt n) => Some n
                 | _ => None
                 end) rs.

(** A host on which [ls] prints a long listing. *)
Definition listing_host : host :=
  {| now := now quiet_host;
     getcwd := getcwd quiet_host;
     named_temporary_file := named_temporary_file quiet_host;
     popen := fun _ => Runs 1 0 long_output "" id;
     collaborator := collaborator quiet_host;
     in_place := in_place quiet_host |}.

(** A host on which [cat] is given a file that is not text. *)
Definition binary_host : host :=
  {| now := now quiet_host;
     getcwd := getcwd quiet_host;
     named_temporary_file := named_temporary_file quiet_host;
     popen := fun _ =>
       Garbles 1 "'utf-8' codec can't decode byte 0xff in position 0: invalid start byte" id;
     collaborator := collaborator quiet_host;
     in_place := in_place quiet_host |}.

(** ** [TutorAgent] *)

(** [ch.lower()] for a code point below 256: the ASCII capitals and the
    Latin-1 capitals 192..222 without the multiplication sign (215). *)
Definition lower_char (a : ascii) : ascii :=
  let n := nat_of_ascii a in
  if (((65 <=? n) && (n <=? 90))
      || ((192 <=? n) && (n <=? 222) && negb (n =? 215)))%nat
  then ascii_of_nat (n + 32)
  else a.

(** [s.lower()] *)
Fixpoint lower (s : string) : string :=
  match s with
  | EmptyString => EmptyString
  | String a s' => String (lower_char a) (lower s')
  end.

(** [sub in s] *)
Fixpoint isin (sub s : string) : bool :=
  String.prefix sub s
  || match s with
     | EmptyString => false
     | String _ s' => isin sub s'
     end.

(** The language model behind [self.client]: its answer to the planning
    prompt, a text or an exception, and the response that
    [_synthesize_response] makes of the query and the results, which
    catches what its own call of the model raises.  The prompts are not
    modelled: the session context and the session documents of [teach]
    only enter them, and their fields are taken to be the strings they
    are annotated as, so that building a prompt does not raise. *)
Record language_model : Type := {
  planning : outcome string;
  synthesis : string -> list envelope -> string
}.

Definition newline : ascii := ascii_of_nat 10.

(** [TutorAgent._plan_actions] *)
Definition _plan_actions (lm : language_model) : list string :=
  match planning lm with
  | Return actions_text =>
      take 5 (List.filter (fun line => negb (String.eqb line ""))
                (Str.strip <$> Str.split newline actions_text))
  | Raise _ => ["search_knowledge"]
  end.

(** The topic [teach] passes to [assess_understanding]. *)
Definition assess_topic (student_query : string) : string :=
  let topic := lower student_query in
  if isin "python" topic then "python"
  else if isin "javascript" topic then "javascript"
  else if isin "go" topic then "go"
  else if isin "rust" topic then "rust"
  else if isin "c++" topic then "c++"
  else if isin "c" topic then "c"
  else topic.

(** The parameters [teach] maps the query to, by the action's name. *)
Definition teach_params (action_name student_query : string) : gmap string value :=
  if String.eqb action_name "assess_understanding" then
    {[ "topic" := VStr (assess_topic student_query) ]}
  else if String.eqb action_name "update_learner_profile" then
    <[ "topic" := VStr student_query ]> {[ "proficiency" := VStr "fundamental" ]}
  else if String.eqb action_name "set_assignment" then
    <[ "description" := VStr student_query ]> {[ "language" := VStr "python" ]}
  else if String.eqb action_name "ingest_document" then
    {[ "path" := VStr "" ]}
  else if String.eqb action_name "analyze_image" then
    <[ "image_path" := VStr "" ]> {[ "question" := VStr student_query ]}
  else if String.eqb action_name "read_file" then
    {[ "path" := VStr student_query ]}
  else if String.eqb action_name "write_file" then
    <[ "path" := VStr "output.txt" ]> {[ "content" := VStr student_query ]}
  else
    {[ "query" := VStr student_query ]}.

Definition supported_tools : list string :=
  ["search_knowledge"; "ingest_document"; "set_assignment"].

(** [if session_id and action_name in supported_tools:
       params["session_id"] = session_id] *)
Definition inject_session (session_id : option string) (action_name : string)
    (params : gmap string value) : gmap string value :=
  match session_id with
  | Some s =>
      if negb (String.eqb s "") && bool_decide (action_name ∈ supported_tools)
      then <[ "session_id" := VStr s ]> params
      else params
  | None => params
  end.

(** The [action_plan] of [teach] for an action of the plan. *)
Definition action_plan (session_id : option string) (action_name student_query : string)
  : plan :=
  {| action := Some action_name;
     parameters := Some (inject_session session_id action_name
                           (teach_params action_name student_query));
     context := Some {[ "intent" := "teaching" ]} |}.

(** An entry of [conversation_history]. *)
Record exchange : Type := {
  exchange_query : string;
  exchange_plan : list string;
  exchange_results : list envelope;
  exchange_response : string
}.

Record tutor_agent : Type := {
  agent_control_plane : control_plane;
  conversation_history : list exchange
}.

(** [TutorAgent.__init__] *)
Definition TutorAgent_init (cp : control_plane) : tutor_agent :=
  {| agent_control_plane := cp; conversation_history := [] |}.

Definition set_control_plane (cp : control_plane) (a : tutor_agent) : tutor_agent :=
  {| agent_control_plane := cp; conversation_history := conversation_history a |}.

Definition append_history (e : exchange) (a : tutor_agent) : tutor_agent :=
  {| agent_control_plane := agent_control_plane a;
     conversation_history := conversation_history a ++ [e] |}.

(** The loop of [teach] over the planned actions; the [i]-th action of
    the plan is executed on the host [hosts i]. *)
Fixpoint teach_actions (hosts : nat -> host) (student_query : string)
    (session_id : option string) (i : nat) (action_names : list string)
  : M control_plane (list envelope) :=
  match action_names with
  | [] => ret []
  | action_name :: rest =>
      let action_name := Str.strip action_name in
      result <- execute (hosts i) (action_plan session_id action_name student_query) ;;
      results <- teach_actions hosts student_query session_id (S i) rest ;;
      ret (result :: results)
  end.

(** [TutorAgent.teach] *)
Definition teach (lm : language_model) (hosts : nat -> host) (student_query : string)
    (session_id : option string) : M tutor_agent string :=
  let action_names := _plan_actions lm in
  results <- zoom agent_control_plane set_control_plane
               (teach_actions hosts student_query session_id 0 action_names) ;;
  let response := synthesis lm student_query results in
  modify (append_history {| exchange_query := student_query;
                            exchange_plan := action_names;
                            exchange_results := results;
                            exchange_response := response |}) ;;
  ret response.

(** The tools whose parameters the default of [teach], a [query], does
    not name. *)
Definition tools_without_query : list Tool.t :=
  [Tool.log_interaction; Tool.list_directory; Tool.delete_file;
   Tool.fetch_url; Tool.execute_command; Tool.run_code].

(** [bool(session_id)] *)
Definition truthy (session_id : option string) : bool :=
  match session_id with
  | Some s => negb (String.eqb s "")
  | None => false
  end.

(** A model that answers the planning prompt with three lines. *)
Definition three_line_model : language_model :=
  {| planning := Return (String.concat (String newline "")
                           ["search_knowledge"; "  run_code "; ""; "set_assignment"]);
     synthesis := fun _ _ => "Try the exercise in the workspace!" |}.

(** The [questions] of [assess_understanding]. *)
Definition questions : list (string * list string) :=
  [("python", ["what keyword defines a function?"; "how do you create a variable?"]);
   ("ml", ["what is supervised learning?"; "name two types of ml algorithms."]);
   ("math", ["what is a vector?"; "explain matrix multiplication."])].

(** [ToolRegistry.assess_understanding] *)
Definition assess_understanding (topic : string) : value :=
  VDict [("tool", VStr "assess_understanding");
         ("topic", VStr topic);
         ("questions",
          VList (VStr <$> default ["general comprehension check."]
                            (dict_get topic questions)))].

(** ** [SemanticRetriever] *)

(** A [Document] of [utils.py]. *)
Record Document : Type := {
  doc_id : string;
  content : string;
  metadata : list (string * value);
  embedding : option (list Q)
}.

(** The attribute [documents] of a [SemanticRetriever].  [api_calls] and
    [slept] are records kept for the statements only: the number of calls
    of [client.embeddings.create] made so far, and the arguments of
    [time.sleep]. *)
Record retriever : Type := {
  documents : list Document;
  api_calls : nat;
  slept : list Z
}.

(** What the retriever asks of its libraries: the embedding the API
    returns to its [n]-th call, or the exception the [try] block raises
    there; the vector of [np.random.rand(768)]; the similarity of a
    query embedding to each document, by the document's index, or what
    numpy and scikit-learn raise on the embeddings; [hash]. *)
Record embedding_service : Type := {
  embeddings_create : nat -> string -> outcome (list Q);
  random_rand : list Q;
  cosine_similarity : option (list Q) -> list Document -> outcome (nat -> Q);
  hash : string -> Z
}.

Definition count_call (r : retriever) : retriever :=
  {| documents := documents r; api_calls := S (api_calls r); slept := slept r |}.

Definition time_sleep (seconds : Z) (r : retriever) : retriever :=
  {| documents := documents r; api_calls := api_calls r;
     slept := slept r ++ [seconds] |}.

Definition append_document (doc : Document) (r : retriever) : retriever :=
  {| documents := documents r ++ [doc]; api_calls := api_calls r; slept := slept r |}.

Definition max_retries : nat := 3.

(** The loop of [_generate_embedding] over the attempts left; [None] is
    what falling out of the loop would return. *)
Fixpoint embedding_attempts (o : embedding_service) (text : string)
    (attempts : list nat) (retry_delay : Z) : M retriever (option (list Q)) :=
  match attempts with
  | [] => ret None
  | attempt :: attempts' =>
      n <- gets api_calls ;;
      modify count_call ;;
      match embeddings_create o n text with
      | Return embedding => ret (Some embedding)
      | Raise e =>
          let error_msg := exn_str e in
          if isin "503" error_msg || isin "overloaded" (lower error_msg) then
            if (attempt <? max_retries - 1)%nat then
              modify (time_sleep retry_delay) ;;
              embedding_attempts o text attempts' (retry_delay * 2)
            else ret (Some (random_rand o))
          else ret (Some (random_rand o))
      end
  end.

(** [SemanticRetriever._generate_embedding] *)
Definition _generate_embedding (o : embedding_service) (text : string)
  : M retriever (option (list Q)) :=
  embedding_attempts o text (seq 0 max_retries) 1.

(** [a == b] on values. *)
Fixpoint py_eq (a b : value) {struct a} : bool :=
  match a, b with
  | VNone, VNone => true
  | VBool x, VBool y => Bool.eqb x y
  | VBool x, VInt n => (n =? (if x then 1 else 0))%Z
  | VInt n, VBool x => (n =? (if x then 1 else 0))%Z
  | VInt n, VInt m => (n =? m)%Z
  | VStr s, VStr t => String.eqb s t
  | VList l, VList m =>
      (fix all2 (l m : list value) : bool :=
         match l, m with
         | [], [] => true
         | x :: l', y :: m' => py_eq x y && all2 l' m'
         | _, _ => false
         end) l m
  | VDict l, VDict m =>
      (length l =? length m)%nat
      && (fix all (l : list (string * value)) : bool :=
            match l with
            | [] => true
            | (k, v) :: l' =>
                match dict_get k m with
                | Some w => py_eq v w
                | None => false
                end && all l'
            end) l
  | _, _ => false
  end.

(** The inner loop of [search]: every filter's key is in the metadata,
    with an equal value. *)
Definition matches (filters : list (string * value)) (doc : Document) : bool :=
  forallb (fun '(key, v) =>
             match dict_get key (metadata doc) with
             | Some w => py_eq w v
             | None => false
             end) filters.

(** Whether the loop of [search] appends [doc]: filters that are [None]
    or empty are not applied. *)
Definition passes (filters : option (list (string * value))) (doc : Document) : bool :=
  match filters with
  | Some ((_ :: _) as fs) => matches fs doc
  | _ => true
  end.

(** [list(enumerate(similarities))] for the similarities of [n] documents. *)
Definition enumerate (similarities : nat -> Q) (n : nat) : list (nat * Q) :=
  (fun i => (i, similarities i)) <$> seq 0 n.

(** The place of a pair in a list sorted by similarity, highest first:
    before the first pair that is not above it. *)
Fixpoint insert_desc (x : nat * Q) (l : list (nat * Q)) : list (nat * Q) :=
  match l with
  | [] => [x]
  | y :: l' => if Qle_bool y.2 x.2 then x :: y :: l' else y :: insert_desc x l'
  end.

(** [results.sort(key=lambda x: x[1], reverse=True)]: a stable sort. *)
Definition sort_desc (results : list (nat * Q)) : list (nat * Q) :=
  foldr insert_desc [] results.

(** The loop of [search] over the sorted results. *)
Fixpoint search_loop (docs : list Document) (top_k : Z)
    (filters : option (list (string * value))) (results : list (nat * Q))
    (final_results : list Document) : outcome (list Document) :=
  match results with
  | [] => Return final_results
  | (idx, score) :: results' =>
      match docs !! idx with
      | None => Raise (HostError "list index out of range")
      | Some doc =>
          if negb (passes filters doc)
          then search_loop docs top_k filters results' final_results
          else
            let final_results := final_results ++ [doc] in
            if (top_k <=? Z.of_nat (length final_results))%Z
            then Return final_results
            else search_loop docs top_k filters results' final_results
      end
  end.

(** [SemanticRetriever.search] *)
Definition search (o : embedding_service) (query : string) (top_k : Z)
    (filters : option (list (string * value))) : M retriever (list Document) :=
  docs <- gets documents ;;
  match docs with
  | [] => ret []
  | _ :: _ =>
      query_embedding <- _generate_embedding o query ;;
      match cosine_similarity o query_embedding docs with
      | Raise e => raise e
      | Return similarities =>
          let results := sort_desc (enumerate similarities (length docs)) in
          fun r => (search_loop docs top_k filters results [], r)
      end
  end.

(** [{"content": d.content, "metadata": d.metadata}] *)
Definition result_of (d : Document) : value :=
  VDict [("content", VStr (content d)); ("metadata", VDict (metadata d))].

(** [ToolRegistry.search_knowledge], on the retriever of the registry. *)
Definition search_knowledge (o : embedding_service) (query : string)
    (filters : option (list (string * value))) (session_id : option string)
  : M retriever value :=
  let search_filters :=
    match filters with
    | Some ((_ :: _) as fs) => fs
    | _ => []
    end in
  let search_filters :=
    if truthy session_id
    then dict_set "session_id" (VStr (default "" session_id)) search_filters
    else search_filters in
  docs <- search o query 3 (Some search_filters) ;;
  ret (VDict [("tool", VStr "search_knowledge");
              ("results", VList (result_of <$> docs));
              ("count", VInt (Z.of_nat (length docs)))]).

(** [SemanticRetriever.add_document].  The copy sent to the database,
    whose failure is caught, is not modelled. *)
Definition add_document (o : embedding_service) (content : string)
    (metadata : list (string * value)) : M retriever unit :=
  docs <- gets documents ;;
  let doc_id := "doc_" +:+ pretty (length docs) +:+ "_"
                +:+ pretty (hash o content `mod` 10000)%Z in
  embedding <- _generate_embedding o content ;;
  modify (append_document {| doc_id := doc_id; content := content;
                             metadata := metadata; embedding := embedding |}).

(** The similarities [search] ranks by: those of the query's embedding
    to the documents. *)
Definition query_similarities (o : embedding_service) (query : string) (r : retriever)
  : outcome (nat -> Q) :=
  match (_generate_embedding o query r).1 with
  | Return query_embedding => cosine_similarity o query_embedding (documents r)
  | Raise e => Raise e
  end.

(** ** [DocumentProcessor] *)

(** [s.rfind(c)] for a one-character [c], from the index [i] of the
    first character of [s]. *)
Fixpoint rfind_from (c : ascii) (s : string) (i : Z) : Z :=
  match s with
  | EmptyString => (-1)%Z
  | String a s' =>
      let later := rfind_from c s' (i + 1) in
      if (0 <=? later)%Z then later
      else if Ascii.eqb a c then i else (-1)%Z
  end.

Definition rfind (c : ascii) (s : string) : Z := rfind_from c s 0.

(** [s[i:j]] for indices that are not negative. *)
Definition slice (i j : Z) (s : string) : string :=
  String.substring (Z.to_nat i) (Z.to_nat j - Z.to_nat i) s.

(** [s[i:]] for an index that is not negative. *)
Definition slice_from (i : Z) (s : string) : string :=
  String.substring (Z.to_nat i) (String.length s - Z.to_nat i) s.

(** [any(ch != '.' for ch in s)] *)
Fixpoint has_non_dot (s : string) : bool :=
  match s with
  | EmptyString => false
  | String a s' => negb (Ascii.eqb a ".") || has_non_dot s'
  end.

(** [os.path.splitext(p)[1]]: the text from the last dot of the last
    component, when a character other than a dot comes before it in
    that component. *)
Definition splitext_ext (p : string) : string :=
  let sepIndex := rfind "/" p in
  let dotIndex := rfind "." p in
  if (sepIndex <? dotIndex)%Z
  then if has_non_dot (slice (sepIndex + 1) dotIndex p)
       then slice_from dotIndex p
       else ""
  else "".

(** The four extraction methods. *)
Inductive extractor : Type := Pdf | Docx | Odt | Image.

(** [self.supported_formats] *)
Definition supported_formats : list (string * extractor) :=
  [("pdf", Pdf); ("docx", Docx); ("odt", Odt);
   ("png", Image); ("jpg", Image); ("jpeg", Image)].

(** The text an extraction method makes of the file at a path; each
    method returns the empty text when its library raises. *)
Definition document_reader : Type := extractor -> string -> string.

(** The two dicts [process_file] returns. *)
Inductive processed : Type :=
| Unsupported (ext : string)
| Extracted (text type : string) (length : nat) (path : string).

(** [DocumentProcessor.process_file] *)
Definition process_file (read : document_reader) (file_path : string) : processed :=
  let ext := lower (slice_from 1 (splitext_ext file_path)) in
  match dict_get ext supported_formats with
  | None => Unsupported ext
  | Some extract =>
      let text := read extract file_path in
      Extracted text ext (String.length text) file_path
  end.

(** The dict of a [processed]. *)
Definition processed_value (p : processed) : value :=
  match p with
  | Unsupported ext =>
      VDict [("error", VStr ("unsupported file format: " +:+ ext));
             ("supported", VList (VStr <$> supported_formats.*1))]
  | Extracted text type length path =>
      VDict [("text", VStr text); ("type", VStr type);
             ("length", VInt (Z.of_nat length)); ("path", VStr path)]
  end.

(** [ToolRegistry.ingest_document], on the files and the retriever of
    the registry. *)
Definition ingest_document (h : host) (read : document_reader) (o : embedding_service)
    (path : string) (session_id : option string)
  : M (tool_registry * retriever) value :=
  try_except
    (found <- zoom fst (fun t s => (t, s.2)) (os_path_exists_at h path) ;;
     if negb found then ret (VDict [("error", VStr ("file not found: " +:+ path))])
     else
       match process_file read path with
       | Unsupported ext => ret (processed_value (Unsupported ext))
       | Extracted text type length _ =>
           let filename := Path.basename path in
           let metadata := [("source", VStr filename); ("type", VStr type);
                            ("proficiency", VStr "intermediate")] in
           let metadata :=
             if truthy session_id
             then dict_set "session_id" (VStr (default "" session_id)) metadata
             else metadata in
           zoom snd (fun r s => (s.1, r)) (add_document o text metadata) ;;
           ret (VDict [("tool", VStr "ingest_document");
                       ("status", VStr "success");
                       ("filename", VStr filename);
                       ("chars_extracted", VInt (Z.of_nat length))])
       end)
    (fun e => ret (VDict [("error", VStr ("failed to ingest document: " +:+ exn_str e))])).

(** A service whose API is overloaded twice and then answers. *)
Definition overloaded_service : embedding_service :=
  {| embeddings_create := fun n _ =>
       if (n <? 2)%nat then Raise (HostError "Error code: 503 - service overloaded")
       else Return [1%Q; 0%Q];
     random_rand := [0%Q; 1%Q];
     cosine_similarity := fun _ _ => Return (fun i => inject_Z (Z.of_nat i));
     hash := fun _ => 4242%Z |}.

(** Two documents of two sessions. *)
Definition two_sessions : retriever :=
  {| documents :=
       [{| doc_id := "doc_0_1"; content := "loops";
           metadata := [("source", VStr "a.pdf"); ("session_id", VStr "alice")];
           embedding := None |};
        {| doc_id := "doc_1_2"; content := "recursion";
           metadata := [("source", VStr "b.pdf"); ("session_id", VStr "bob")];
           embedding := None |}];
     api_calls := 0;
     slept := [] |}.


(** ** Properties *)

(** *** The writable-root check of [write_file] and [delete_file] *)

Lemma startswith_prefixed_by (s p : string) :
  Str.startswith s p = true <-> prefixed_by p s.
Proof.
  unfold Str.startswith, prefixed_by. revert s.
  induction p as [|a p IH]; intros s; simpl.
  - destruct s; split; eauto.
  - destruct s as [|b s]; simpl.
    + split; [discriminate | intros [rest H]; discriminate].
    + destruct (ascii_dec a b) as [->|Hne].
      * rewrite IH. split; intros [rest H]; exists rest.
        -- by subst s.
        -- change (String b p +:+ rest) with (String b (p +:+ rest)) in H.
           congruence.
      * split; [discriminate | intros [rest H]].
        change (String a p +:+ rest) with (String a (p +:+ rest)) in H.
        congruence.
Qed.

Lemma is_safe_false (t : tool_registry) (abs_path : string) :
  is_safe t abs_path = false <->
  forall root, root ∈ safe_write_directories t -> ~ prefixed_by root abs_path.
Proof.
  unfold is_safe. rewrite <- not_true_iff_false, existsb_exists. split.
  - intros Hno root Hin Hpre. apply Hno. exists root. split.
    + by apply list_elem_of_In.
    + by apply startswith_prefixed_by.
  - intros Hall (root & Hin & Hpre). apply (Hall root).
    + by apply list_elem_of_In.
    + by apply startswith_prefixed_by.
Qed.

(** C9. A [write_file] or [delete_file] call whose target, made absolute,
    is prefixed by no entry of [safe_write_directories] returns a
    permission-denied result and leaves the registry, and with it every
    file, as it was: the check comes before any file operation. *)
Theorem unsafe_target_is_refused_without_mutation
    (h : host) (t : tool_registry) (path content : string) :
  (forall root, root ∈ safe_write_directories t ->
                ~ prefixed_by root (Path.abspath (getcwd h) path)) ->
  write_file h path content t
  = (Return (VDict [("error", VStr ("permission denied: can only write to "
                                     +:+ Str.repr_list (safe_write_directories t)));
                    ("path", VStr path)]), t)
  /\ delete_file h path t
     = (Return (VDict [("error",
                        VStr "permission denied: can only delete from safe directories")]),
        t).
Proof.
  intros Hroots. apply is_safe_false in Hroots.
  unfold write_file, delete_file, try_except, bind, gets, ret.
  rewrite Hroots. done.
Qed.

Lemma unsafe_target_is_refused_witness :
  write_file quiet_host "/etc/passwd" "x" (ToolRegistry_init {[ "/etc/passwd" := File "root" ]})
  = (Return (VDict [("error", VStr "permission denied: can only write to ['/app/uploads', '/tmp']");
                    ("path", VStr "/etc/passwd")]),
     ToolRegistry_init {[ "/etc/passwd" := File "root" ]})
  /\ delete_file quiet_host "/etc/passwd" (ToolRegistry_init {[ "/etc/passwd" := File "root" ]})
     = (Return (VDict [("error",
                        VStr "permission denied: can only delete from safe directories")]),
        ToolRegistry_init {[ "/etc/passwd" := File "root" ]}).
Proof.
  apply (unsafe_target_is_refused_without_mutation quiet_host
           (ToolRegistry_init {[ "/etc/passwd" := File "root" ]}) "/etc/passwd" "x").
  apply is_safe_false. vm_compute. reflexivity.
Defined.

(** C10. The writable-root check compares characters and knows no path
    separator: [/tmpdata/x] lies in none of the safe write directories,
    yet it begins with the characters of the root [/tmp], so the check
    passes, [write_file] overwrites the file and [delete_file] removes it. *)
Theorem prefix_check_ignores_directory_boundary :
  Path.abspath (getcwd quiet_host) "/tmpdata/x" = "/tmpdata/x"
  /\ (forall root, root ∈ safe_write_directories registry_with_tmpdata ->
                   ~ inside_directory root "/tmpdata/x")
  /\ prefixed_by "/tmp" "/tmpdata/x"
  /\ is_safe registry_with_tmpdata "/tmpdata/x" = true
  /\ write_file quiet_host "/tmpdata/x" "new" registry_with_tmpdata
     = (Return (VDict [("tool", VStr "write_file");
                       ("status", VStr "success");
                       ("path", VStr "/tmpdata/x");
                       ("bytes_written", VInt 3)]),
        ToolRegistry_init (tmpdata (Some "new")))
  /\ delete_file quiet_host "/tmpdata/x" registry_with_tmpdata
     = (Return (VDict [("tool", VStr "delete_file");
                       ("status", VStr "success");
                       ("path", VStr "/tmpdata/x")]),
        ToolRegistry_init (tmpdata None)).
Proof.
  split; [reflexivity|]. split.
  - intros root Hin [Heq | Hpre].
    + subst root. vm_compute in Hin.
      repeat (apply elem_of_cons in Hin as [Hin | Hin]; [discriminate|]).
      by apply elem_of_nil in Hin.
    + apply startswith_prefixed_by in Hpre.
      simpl in Hin.
      repeat (apply elem_of_cons in Hin as [-> | Hin]; [discriminate|]).
      by apply elem_of_nil in Hin.
  - split; [by exists "data/x"|].
    split; [reflexivity|].
    split; vm_compute; reflexivity.
Qed.

(** *** Validation of a plan by [execute] *)



Lemma validate_false_parameters (cp : control_plane) (p : plan) :
  10 < parameter_count p -> _validate_request cp p = false.
Proof.
  intros Hmany. unfold _validate_request.
  destruct (match action p with Some _ => _ | None => _ end); [reflexivity|].
  apply Nat.ltb_lt in Hmany. by rewrite Hmany.
Qed.

Lemma execute_invalid (h : host) (cp : control_plane) (p : plan) :
  _validate_request cp p = false ->
  execute h p cp = (Return (Refused "safety validation failed" p), cp).
Proof. intros Hv. unfold execute, bind, gets. rewrite Hv. reflexivity. Qed.

(** More than ten parameters: refused, whatever the action. *)
Lemma more_than_ten_parameters_are_refused (h : host) (cp : control_plane) (p : plan) :
  10 < parameter_count p ->
  execute h p cp = (Return (Refused "safety validation failed" p), cp).
Proof. intros Hmany. apply execute_invalid. by apply validate_false_parameters. Qed.




(** *** The parameter ceiling *)

(** C5 at a plan of six parameters. The configured ceiling of 5 is never
    read: the test is against the literal 10, so the plan passes
    validation, the router makes the keyword call of [search_knowledge],
    and the [TypeError] of that call leaves [execute]. *)
Theorem six_parameters_pass_validation :
  parameter_count (plan_of (Some "search_knowledge") six_parameters) = 6
  /\ max_tools_per_request (safety_rules fresh_plane) = 5
  /\ _validate_request fresh_plane (plan_of (Some "search_knowledge") six_parameters) = true
  /\ exists msg cp',
       execute quiet_host (plan_of (Some "search_knowledge") six_parameters) fresh_plane
       = (Raise (TypeError msg), cp')
       /\ dispatched (tools cp') = [("search_knowledge", list_to_map six_parameters)].
Proof.
  split; [by vm_compute|]. split; [reflexivity|]. split; [by vm_compute|].
  eexists _, _. split; vm_compute; reflexivity.
Qed.

(** *** The audit log *)

(** What is changed in place changes neither the number of the entries
    nor their times, and nothing outside the log. *)
Lemma retouch_entry_time (s : sharing) (i : nat) (e : audit_entry) :
  timestamp (retouch_entry s i e) = timestamp e.
Proof. reflexivity. Qed.

Lemma imap_times (f : nat -> audit_entry -> audit_entry) (l : list audit_entry) :
  (forall i e, timestamp (f i e) = timestamp e) ->
  timestamp <$> imap f l = timestamp <$> l.
Proof.
  revert f. induction l as [|e l IH]; intros f Hf; [reflexivity|].
  cbn [imap fmap list_fmap]. f_equal; [apply Hf|]. apply IH. intros i e'. apply Hf.
Qed.

Lemma retouch_log_times (s : option sharing) (cp : control_plane) :
  timestamp <$> execution_log (retouch s cp) = timestamp <$> execution_log cp.
Proof.
  destruct s as [s|]; [|reflexivity]. cbn [retouch execution_log].
  apply imap_times. intros i e. reflexivity.
Qed.

Lemma retouch_log_length (s : option sharing) (cp : control_plane) :
  length (execution_log (retouch s cp)) = length (execution_log cp).
Proof.
  rewrite <- (length_fmap timestamp), retouch_log_times. apply length_fmap.
Qed.

Lemma retouch_tools (s : option sharing) (cp : control_plane) :
  tools (retouch s cp) = tools cp.
Proof. by destruct s. Qed.

Lemma retouch_rules (s : option sharing) (cp : control_plane) :
  safety_rules (retouch s cp) = safety_rules cp.
Proof. by destruct s. Qed.

(** [execute] by cases on validation and on the outcome of the router. *)
Lemma execute_unfold (h : host) (p : plan) (cp : control_plane) :
  execute h p cp =
  if _validate_request cp p then
    let shared := shared_by h (action p) (default ∅ (parameters p)) in
    match _route_and_execute h (action p) (default ∅ (parameters p)) (tools cp) with
    | (Return result, t') =>
        let cp1 := retouch shared (set_tools t' cp) in
        let entry :=
          {| timestamp := now h;
             entry_plan := plan_after shared (length (execution_log cp1)) p;
             entry_result := result |} in
        (Return (Executed (action p) result
                   {| execution_count := length (execution_log cp1 ++ [entry]);
                      safety_checks_passed := true |}),
         append_log entry cp1)
    | (Raise e, t') => (Raise e, retouch shared (set_tools t' cp))
    end
  else (Return (Refused "safety validation failed" p), cp).
Proof.
  unfold execute, bind, gets, zoom, modify, ret, sharing_log.
  destruct (_validate_request cp p); [|reflexivity]. simpl.
  destruct (_route_and_execute _ _ _ _) as [[result|e] t']; reflexivity.
Qed.

Lemma execute_log_times (h : host) (p : plan) (cp : control_plane) :
  timestamp <$> execution_log (execute h p cp).2
  = (timestamp <$> execution_log cp)
    ++ (if returned_success (execute h p cp).1 then [now h] else []).
Proof.
  rewrite execute_unfold.
  destruct (_validate_request cp p); cbn [fst snd returned_success];
    [|by rewrite app_nil_r].
  destruct (_route_and_execute _ _ _ _) as [[result|e] t']; cbv zeta;
    cbn [fst snd returned_success success append_log execution_log].
  - rewrite fmap_app, retouch_log_times. reflexivity.
  - rewrite retouch_log_times, app_nil_r. reflexivity.
Qed.

Lemma execute_log_length (h : host) (p : plan) (cp : control_plane) :
  length (execution_log (execute h p cp).2)
  = length (execution_log cp) + (if returned_success (execute h p cp).1 then 1 else 0).
Proof.
  rewrite <- (length_fmap timestamp), execute_log_times, length_app, length_fmap.
  by destruct (returned_success _).
Qed.

Lemma run_log_length (calls : list (host * plan)) (cp : control_plane) :
  length (execution_log (run calls cp).2)
  = length (execution_log cp) + successes (run calls cp).1.
Proof.
  revert cp. induction calls as [|[h p] calls IH]; intros cp; simpl.
  - unfold successes. simpl. lia.
  - pose proof (execute_log_length h p cp) as Hstep.
    destruct (execute h p cp) as [r cp1]. specialize (IH cp1).
    destruct (run calls cp1) as [rs cp2]. simpl in *.
    unfold successes in *. simpl.
    destruct (returned_success r); simpl; lia.
Qed.

(** C2, as the code has it. (1) A call that passes validation and returns
    has appended exactly one entry, stamped with the clock's time and
    holding the result the envelope holds, and reports as
    [execution_count] the length of the log with that entry.  (2) A call
    that raises has appended nothing.  (3) Whatever the outcome of a
    call, the entries that were there are still there, in their order:
    their times are a prefix of the times after the call.  (4) After any
    sequence of calls the log has grown by the number of calls that
    returned [success: True].  What the entries show of the plans they
    refer to, and what the older entries show of their results, is left
    out: a tool may change these objects in place. *)
Theorem audit_log_counts_executed_calls :
  (forall h p cp e cp',
      _validate_request cp p = true -> execute h p cp = (Return e, cp') ->
      timestamp <$> execution_log cp' = (timestamp <$> execution_log cp) ++ [now h]
      /\ exists result entry,
           last (execution_log cp') = Some entry
           /\ timestamp entry = now h
           /\ entry_result entry = result
           /\ e = Executed (action p) result
                   {| execution_count := length (execution_log cp');
                      safety_checks_passed := true |})
  /\ (forall h p cp e cp',
        execute h p cp = (Raise e, cp') ->
        timestamp <$> execution_log cp' = timestamp <$> execution_log cp)
  /\ (forall h p cp,
        (timestamp <$> execution_log cp)
        `prefix_of` (timestamp <$> execution_log (execute h p cp).2))
  /\ (forall calls cp,
        length (execution_log (run calls cp).2)
        = length (execution_log cp) + successes (run calls cp).1).
Proof.
  split; [|split; [|split]].
  - intros h p cp e cp' Hvalid Hrun. split.
    + pose proof (execute_log_times h p cp) as Htimes.
      rewrite Hrun in Htimes. cbn [fst snd returned_success] in Htimes.
      revert Hrun. rewrite execute_unfold, Hvalid.
      destruct (_route_and_execute _ _ _ _) as [[result|e'] t']; [|discriminate].
      intros [= <- <-]. exact Htimes.
    + revert Hrun. rewrite execute_unfold, Hvalid.
      destruct (_route_and_execute _ _ _ _) as [[result|e'] t']; [|discriminate].
      intros [= <- <-]. eexists result, _.
      split; [apply last_snoc|]. repeat split.
  - intros h p cp e cp' Hrun. pose proof (execute_log_times h p cp) as Htimes.
    rewrite Hrun in Htimes. cbn [fst snd returned_success] in Htimes.
    by rewrite app_nil_r in Htimes.
  - intros h p cp. rewrite execute_log_times. by apply prefix_app_r.
  - apply run_log_length.
Qed.

(** On a plan that binds, the first part of the theorem applies: one
    entry, counted 1. *)
Lemma audit_log_counts_executed_calls_witness :
  timestamp <$> execution_log
                  (execute quiet_host
                     (plan_of (Some "run_code") [("code", VStr "print(2+2)")])
                     fresh_plane).2
  = (timestamp <$> execution_log fresh_plane) ++ [now quiet_host]
  /\ exists result entry,
       last (execution_log
               (execute quiet_host
                  (plan_of (Some "run_code") [("code", VStr "print(2+2)")])
                  fresh_plane).2) = Some entry
       /\ timestamp entry = now quiet_host
       /\ entry_result entry = result
       /\ Executed (Some "run_code")
            (VDict [("tool", VStr "run_code"); ("status", VStr "success");
                    ("language", VStr "python"); ("stdout", VStr "");
                    ("stderr", VStr ""); ("return_code", VInt 0)])
            {| execution_count := 1; safety_checks_passed := true |}
          = Executed (action (plan_of (Some "run_code") [("code", VStr "print(2+2)")])) result
              {| execution_count :=
                   length (execution_log
                             (execute quiet_host
                                (plan_of (Some "run_code") [("code", VStr "print(2+2)")])
                                fresh_plane).2);
                 safety_checks_passed := true |}.
Proof.
  apply (proj1 audit_log_counts_executed_calls quiet_host
           (plan_of (Some "run_code") [("code", VStr "print(2+2)")]) fresh_plane).
  - vm_compute. reflexivity.
  - vm_compute. reflexivity.
Defined.

(** What an entry shows of its plan is what the tool left of it: the
    session that [search_knowledge] stores in the [filters] it is given
    is in the logged plan, which is not the plan as it was sent. *)
Lemma logged_plan_shows_what_the_tool_stored :
  exists e cp',
    execute (filing_host 0)
      (plan_of (Some "search_knowledge")
         [("query", VStr "loops"); ("filters", VDict [("topic", VStr "python")]);
          ("session_id", VStr "s1")])
      fresh_plane
    = (Return e, cp')
    /\ entry_plan <$> execution_log cp'
       = [plan_of (Some "search_knowledge")
            [("query", VStr "loops");
             ("filters", VDict [("topic", VStr "python"); ("session_id", VStr "s1")]);
             ("session_id", VStr "s1")]].
Proof. eexists _, _. split; vm_compute; reflexivity. Qed.

(** C2 fails for a call that passes validation and raises: the keyword
    call of [run_code] without its [code] argument is a [TypeError], which
    leaves [execute] before the entry is appended. *)
Lemma validated_call_that_raises_is_not_logged :
  _validate_request fresh_plane (plan_of (Some "run_code") []) = true
  /\ exists msg cp',
       execute quiet_host (plan_of (Some "run_code") []) fresh_plane
       = (Raise (TypeError msg), cp')
       /\ execution_log cp' = [].
Proof.
  split; [by vm_compute|]. eexists _, _. split; vm_compute; reflexivity.
Qed.

(** *** Running code: the paths of [run_code] *)

(** The entries of [lang_config], by language. *)
Lemma lang_config_cases (language : string) (cfg : language_config) :
  dict_get language lang_config = Some cfg ->
  (language, cfg) ∈ lang_config.
Proof.
  unfold lang_config. cbn [dict_get].
  repeat match goal with
         | |- context [String.eqb ?k language] =>
             destruct (String.eqb_spec k language) as [<-|_]
         end;
    intros [= <-] || discriminate.
  all: set_solver.
Qed.

(** One goal per language of [lang_config]. *)
Ltac language_cases H :=
  apply lang_config_cases in H; unfold lang_config in H;
  repeat (apply elem_of_cons in H as [H | H]; [injection H as -> ->|]);
  [ .. | by apply elem_of_nil in H ].

Ltac unfold_run_code :=
  unfold write_temp_file, run_code_except, run_code_cleanup, run_code_execute,
    bind, tools_of, zoom, gets, modify, ret, raise, assign, local, subscript,
    subprocess_run, os_remove, os_path_exists.

Ltac run_code_step :=
  cbn -[String.append Str.replace];
  repeat first
    [ progress change (bool_decide (is_Some (@None node))) with false
    | match goal with
      | |- context [bool_decide (is_Some (Some ?x))] =>
          change (bool_decide (is_Some (Some x))) with true
      end
    | progress cbn -[String.append Str.replace] ].

(** The next step of a run: what is known of the host is used, and what
    is not is taken by cases. *)
Ltac run_code_known :=
  match goal with
  | H : popen ?h ?c = _ |- context [popen ?h ?c] => rewrite H
  | H : Qle_bool ?a ?b = _ |- context [Qle_bool ?a ?b] => rewrite H
  | H : compile ?c = _ |- context [compile ?c] => rewrite H
  | H : @lookup _ _ (gmap string node) _ ?k ?m = _
    |- context [@lookup _ _ (gmap string node) _ ?k ?m] => rewrite H
  end.

Ltac run_code_split prune :=
  match goal with
  | |- context [popen ?h ?c] => destruct (popen h c) eqn:?
  | |- context [Qle_bool ?a ?b] => destruct (Qle_bool a b) eqn:?
  | |- context [@lookup _ _ (gmap string node) _ ?k ?m] =>
      let n := fresh "n" in
      destruct (@lookup _ _ (gmap string node) _ k m) as [n|] eqn:?;
      [destruct n|]; try (solve [prune])
  | |- context [if ?b then _ else _] => destruct b eqn:?
  end.

(** Case analysis on everything the host decides along a run. *)
Ltac run_code_cases_with prune :=
  repeat (run_code_step; first [run_code_known | run_code_split prune]);
  run_code_step.

Ltac run_code_cases := run_code_cases_with fail.

Lemma no_directory_insert_file (files : gmap string node) (k p content : string) :
  files !! p <> Some Dir -> <[k := File content]> files !! p <> Some Dir.
Proof.
  intros Hno Hdir. apply lookup_insert_Some in Hdir as [[_ [=]]|[_ Hdir]]. by apply Hno.
Qed.

Lemma no_directory_delete (files : gmap string node) (k p : string) :
  files !! p <> Some Dir -> delete k files !! p <> Some Dir.
Proof.
  intros Hno Hdir. apply lookup_delete_Some in Hdir as [_ Hdir]. by apply Hno.
Qed.

Lemma no_directory_written (files : gmap string node) (p content : string) :
  <[p := File content]> files !! p <> Some Dir.
Proof. rewrite lookup_insert_eq. discriminate. Qed.

(** No directory stands at the path: none stood there, and no child
    process put one there. *)
Ltac no_directory :=
  repeat first
    [ assumption
    | apply no_directory_written
    | apply no_directory_delete
    | apply no_directory_insert_file
    | match goal with
      | Hs : spares ?eff ?p |- ?eff _ !! ?p <> Some Dir => apply Hs
      end ].

(** The source file was written and no child process removed it, so it
    is a regular file; or no directory stands at the path. *)
Ltac absurd_lookup :=
  exfalso;
  match goal with
  | H : ?m !! ?k = Some Dir |- _ =>
      assert (m !! k <> Some Dir) by no_directory; congruence
  | H : ?m !! ?k = _ |- _ =>
      let Hreg := fresh "Hreg" in
      assert (is_regular (m !! k) = true) as Hreg
        by (repeat match goal with
                   | Hk : keeps ?eff k |- is_regular (?eff _ !! k) = true => apply Hk
                   end;
            rewrite lookup_insert_eq; reflexivity);
      rewrite H in Hreg; discriminate Hreg
  end.

(** The file is not there: it was found missing, or it was removed. *)
Ltac gone :=
  first [ assumption
        | apply lookup_delete_eq
        | apply lookup_delete_None; right; gone ].

Lemma Qle_bool_false (a b : Q) : (b < a)%Q -> Qle_bool a b = false.
Proof.
  intros Hlt. destruct (Qle_bool a b) eqn:Hle; [|reflexivity].
  apply Qle_bool_iff in Hle. exfalso. by eapply Qlt_not_le.
Qed.

(** What the hypothesis that no child process puts a directory at a path
    says of the processes met along the run. *)
Ltac add_spares Hmade :=
  repeat match goal with
         | Hp : popen _ ?argv = ?proc |- _ =>
             lazymatch type of Hmade with
             | no_directory_made _ ?p =>
                 let eff := lazymatch proc with
                            | Runs _ _ _ _ ?e => e
                            | Garbles _ _ ?e => e
                            end in
                 lazymatch goal with
                 | _ : spares eff p |- _ => fail
                 | _ => pose proof (Hmade argv eff ltac:(rewrite Hp; reflexivity))
                 end
             end
         end.

(** The hypotheses on the output path, for the processes met. *)
Ltac free_output Hfree :=
  unfold output_path_is_free in Hfree;
  cbn -[String.append Str.replace] in Hfree;
  try (let Hinit := fresh "Hinit" in
       let Hmade := fresh "Hmade" in
       destruct (Hfree eq_refl) as [Hinit Hmade]; clear Hfree;
       add_spares Hmade).

(** The execute phase ends in time, the source file was left in place
    and no directory stands at the output path: the result is the
    success dict with the outputs and the exit code of the child, both
    files are gone, and each phase started one process. *)
Lemma run_code_completed (h : host) (code language name : string)
    (cfg : language_config) (t : tool_registry)
    (d : Q) (rc : Z) (out err : string)
    (eff : gmap string node -> gmap string node) :
  dict_get language lang_config = Some cfg ->
  named_temporary_file h = TempWritten name ->
  compiles h language cfg (name +:+ ext cfg) ->
  popen h (exec_argv cfg (name +:+ ext cfg)) = Runs d rc out err eff ->
  (d <= 10)%Q ->
  source_is_kept h language cfg (name +:+ ext cfg) ->
  output_path_is_free h cfg t (name +:+ ext cfg) ->
  exists t',
    run_code h code language t = (Return (success_result language out err rc), t')
    /\ fs t' !! (name +:+ ext cfg) = None
    /\ (compile cfg = true -> fs t' !! Str.replace (name +:+ ext cfg) (ext cfg) "" = None)
    /\ spawned t' = spawned t ++ both_phases language cfg (name +:+ ext cfg).
Proof.
  intros Hcfg Htemp Hcompiles Hexec Hd Hkept Hfree. apply Qle_bool_iff in Hd.
  unfold run_code, try_except, run_code_try. rewrite Hcfg.
  unfold compiles, both_phases in *.
  assert (Hkeep : keeps eff (name +:+ ext cfg)).
  { eapply Hkept; [|exact Hexec]. apply list_elem_of_In. simpl. auto. }
  language_cases Hcfg.
  all: unfold compile_argv, exec_argv in *; cbn -[String.append Str.replace] in *.
  4-6: destruct (Hcompiles eq_refl) as (d' & out' & err' & eff' & Hcomp & Hd');
       apply Qle_bool_iff in Hd';
       pose proof (fun Hin => Hkept _ _ _ _ _ _ Hin Hcomp) as Hkeep';
       specialize (Hkeep' ltac:(apply list_elem_of_In; simpl; auto)).
  all: clear Hkept; free_output Hfree.
  all: unfold_run_code; rewrite Htemp.
  all: run_code_cases_with absurd_lookup.
  all: eexists; split; [reflexivity|]; cbn -[String.append Str.replace].
  all: repeat split; try discriminate; try gone.
  all: try (intros _; gone).
  all: by rewrite <- app_assoc.
Qed.

(** The body of the [try] statement, once the temporary file is written,
    by cases on what the host decides.  Whatever the outcome, the
    locals that the [except] clauses read are bound.  When the body
    returns, the source file is gone, and so is the file at the output
    path unless the result is the compilation-error dict; the result
    holds the output of the process of its phase.  When the body raises
    and no child process put a directory at the two paths, no directory
    stands there. *)
Lemma run_code_try_cases (h : host) (code language name : string)
    (cfg : language_config) (t : tool_registry) :
  dict_get language lang_config = Some cfg ->
  named_temporary_file h = TempWritten name ->
  exists o l t1,
    run_code_try h code language (no_locals, t) = (o, (l, t1))
    /\ temp_path l = Some (name +:+ ext cfg)
    /\ config l = Some cfg
    /\ (compile cfg = true ->
        output_path l = Some (Str.replace (name +:+ ext cfg) (ext cfg) ""))
    /\ match o with
       | Return r =>
           fs t1 !! (name +:+ ext cfg) = None
           /\ (compile cfg = true ->
               value_get "status" r <> Some (VStr "compilation_error") ->
               fs t1 !! Str.replace (name +:+ ext cfg) (ext cfg) "" = None)
           /\ (value_get "status" r = Some (VStr "success") ->
               exists d rc out err eff,
                 popen h (exec_argv cfg (name +:+ ext cfg)) = Runs d rc out err eff
                 /\ value_get "stdout" r = Some (VStr out)
                 /\ value_get "stderr" r = Some (VStr err))
           /\ (value_get "status" r = Some (VStr "compilation_error") ->
               exists d rc out err eff,
                 popen h (compile_argv language cfg (name +:+ ext cfg))
                 = Runs d rc out err eff
                 /\ value_get "stderr" r = Some (VStr err))
       | Raise e =>
           no_directory_made h (name +:+ ext cfg) ->
           output_path_is_free h cfg t (name +:+ ext cfg) ->
           fs t1 !! (name +:+ ext cfg) <> Some Dir
           /\ (compile cfg = true ->
               fs t1 !! Str.replace (name +:+ ext cfg) (ext cfg) "" <> Some Dir)
       end.
Proof.
  intros Hcfg Htemp. unfold run_code_try. rewrite Hcfg.
  language_cases Hcfg.
  all: unfold compile_argv, exec_argv; cbn -[String.append Str.replace].
  all: unfold_run_code; rewrite Htemp.
  all: run_code_cases.
  all: eexists _, _, _; split; [reflexivity|]; cbn -[String.append Str.replace].
  all: split; [reflexivity|]; split; [reflexivity|]; split; [by intros|].
  all: try (intros Hmade Hfree; add_spares Hmade; free_output Hfree;
            split; [no_directory|]; intros Hc; try discriminate Hc; no_directory).
  all: split; [gone|].
  all: split; [intros Hc Hstatus; try discriminate Hc;
               first [gone | by exfalso; apply Hstatus]|].
  all: split; intros Hstatus; cbn in Hstatus; try discriminate Hstatus.
  all: eexists _, _, _, _, _; split; [first [eassumption | reflexivity]|].
  all: repeat split.
Qed.

(** [run_code], from the outcome of the body of its [try] statement. *)
Lemma run_code_unfold (h : host) (code language : string) (t : tool_registry) :
  run_code h code language t
  = match run_code_try h code language (no_locals, t) with
    | (Return r, s) => (Return r, snd s)
    | (Raise e, s) =>
        match run_code_cleanup s with
        | (Return _, s') => (Return (except_result language e), snd s')
        | (Raise e', s') => (Raise e', snd s')
        end
    end.
Proof.
  unfold run_code, try_except.
  destruct (run_code_try _ _ _ _) as [[r|e] s]; [reflexivity|].
  unfold run_code_except, except_result, timed_out_result, bind, ret.
  destruct (is_timeout_expired e), (run_code_cleanup s) as [[[]|e'] s']; reflexivity.
Qed.

(** The clean-up of the [except] clauses where a directory stands at
    the path of the source file: [os.path.exists] is true of it, and
    [os.remove] raises. *)
Lemma run_code_cleanup_raises (l : locals) (t : tool_registry) (tp : string) :
  temp_path l = Some tp ->
  fs t !! tp = Some Dir ->
  run_code_cleanup (l, t) = (Raise (IsADirectoryError tp), (l, t)).
Proof.
  intros Htp Hdir. unfold run_code_cleanup. unfold_run_code.
  cbn. rewrite Htp. cbn. rewrite Hdir. cbn. rewrite Hdir. by destruct l.
Qed.

(** The clean-up where no directory stands at the two paths: it
    returns, and the files at the two paths are gone. *)
Lemma run_code_cleanup_returns (l : locals) (t : tool_registry) (tp op : string)
    (cfg : language_config) :
  temp_path l = Some tp ->
  config l = Some cfg ->
  (compile cfg = true -> output_path l = Some op) ->
  fs t !! tp <> Some Dir ->
  (compile cfg = true -> fs t !! op <> Some Dir) ->
  exists t',
    run_code_cleanup (l, t) = (Return tt, (l, t'))
    /\ fs t' !! tp = None
    /\ (compile cfg = true -> fs t' !! op = None)
    /\ spawned t' = spawned t.
Proof.
  intros Htp Hcfg Hop Hnotp Hnoop. unfold run_code_cleanup. unfold_run_code.
  destruct l as [c tpl opl]. cbn in *. subst c tpl.
  destruct (compile cfg) eqn:Hc.
  - rewrite (Hop eq_refl) in *. specialize (Hnoop eq_refl).
    run_code_cases_with ltac:(first [congruence | absurd_lookup]).
    all: eexists; split; [reflexivity|]; cbn.
    all: repeat split; try (intros _); gone.
  - run_code_cases_with ltac:(first [congruence | absurd_lookup]).
    all: eexists; split; [reflexivity|]; cbn.
    all: repeat split; try discriminate; gone.
Qed.

(** The clean-up, when it returns, has removed the files at the two
    paths. *)
Lemma run_code_cleanup_released (l : locals) (t : tool_registry) (tp op : string)
    (cfg : language_config) (s : frame) :
  temp_path l = Some tp ->
  config l = Some cfg ->
  (compile cfg = true -> output_path l = Some op) ->
  run_code_cleanup (l, t) = (Return tt, s) ->
  fs (snd s) !! tp = None /\ (compile cfg = true -> fs (snd s) !! op = None).
Proof.
  intros Htp Hcfg Hop. revert s. unfold run_code_cleanup. unfold_run_code.
  destruct l as [c tpl opl]. cbn in *. subst c tpl.
  destruct (compile cfg) eqn:Hc.
  - rewrite (Hop eq_refl) in *.
    run_code_cases.
    all: intros s; intros [= <-] || discriminate.
    all: cbn; split; try (intros _); gone.
  - run_code_cases.
    all: intros s; intros [= <-] || discriminate.
    all: cbn; split; try discriminate; gone.
Qed.

(** A phase runs out of time: the body of the [try] statement raises
    [TimeoutExpired] with the locals bound, no process was started a
    second time, and the files are as the process that ran out of time
    left them. *)
Lemma run_code_try_timed_out (h : host) (code language name : string)
    (cfg : language_config) (t : tool_registry) (ph : phase) :
  dict_get language lang_config = Some cfg ->
  named_temporary_file h = TempWritten name ->
  times_out h language cfg (name +:+ ext cfg) ph ->
  exists l t1 eff files,
    run_code_try h code language (no_locals, t) = (Raise TimeoutExpired, (l, t1))
    /\ temp_path l = Some (name +:+ ext cfg)
    /\ spawned t1 = spawned t ++ attempted language cfg (name +:+ ext cfg) ph
    /\ effect_of (popen h (overrun_argv language cfg (name +:+ ext cfg) ph)) = Some eff
    /\ fs t1 = eff files.
Proof.
  intros Hcfg Htemp Hout. unfold run_code_try. rewrite Hcfg.
  destruct ph; unfold times_out, attempted, overrun_argv, compiles, both_phases in *.
  - destruct Hout as (Hc & d & rc & out & err & eff & Hcomp & Hd).
    apply Qle_bool_false in Hd. rewrite Hcomp.
    language_cases Hcfg; try discriminate.
    all: unfold compile_argv, exec_argv in *; cbn -[String.append Str.replace] in *.
    all: unfold_run_code; rewrite Htemp.
    all: run_code_cases.
    all: eexists _, _, _, _; split; [reflexivity|]; cbn -[String.append Str.replace].
    all: repeat split.
  - destruct Hout as (Hcompiles & d & rc & out & err & eff & Hexec & Hd).
    apply Qle_bool_false in Hd. rewrite Hexec.
    language_cases Hcfg.
    all: unfold compile_argv, exec_argv in *; cbn -[String.append Str.replace] in *.
    4-6: destruct (Hcompiles eq_refl) as (d' & out' & err' & eff' & Hcomp & Hd');
         apply Qle_bool_iff in Hd'.
    all: unfold_run_code; rewrite Htemp.
    all: run_code_cases.
    all: eexists _, _, _, _; split; [reflexivity|]; cbn -[String.append Str.replace].
    all: repeat split.
    all: by rewrite <- app_assoc.
Qed.

(** A phase runs out of time, and no child process puts a directory at
    the path of the source file or at the output path: the result is the
    time-out dict, both files are gone, and no process was started a
    second time. *)
Lemma run_code_timed_out (h : host) (code language name : string)
    (cfg : language_config) (t : tool_registry) (ph : phase) :
  dict_get language lang_config = Some cfg ->
  named_temporary_file h = TempWritten name ->
  times_out h language cfg (name +:+ ext cfg) ph ->
  no_directory_made h (name +:+ ext cfg) ->
  output_path_is_free h cfg t (name +:+ ext cfg) ->
  exists t',
    run_code h code language t = (Return timed_out_result, t')
    /\ fs t' !! (name +:+ ext cfg) = None
    /\ (compile cfg = true -> fs t' !! Str.replace (name +:+ ext cfg) (ext cfg) "" = None)
    /\ spawned t' = spawned t ++ attempted language cfg (name +:+ ext cfg) ph.
Proof.
  intros Hcfg Htemp Hout Hmade Hfree.
  destruct (run_code_try_timed_out h code language name cfg t ph Hcfg Htemp Hout)
    as (l & t1 & eff & files & Htry & _ & Hspawned & _).
  destruct (run_code_try_cases h code language name cfg t Hcfg Htemp)
    as (o & l' & t1' & Htry' & Htp & Hconfig & Hop & Hcase).
  rewrite Htry in Htry'. injection Htry' as <- <- <-.
  destruct (Hcase Hmade Hfree) as [Hnotp Hnoop].
  destruct (run_code_cleanup_returns l t1 _ _ cfg Htp Hconfig Hop Hnotp Hnoop)
    as (t' & Hclean & Hgone & Hgone' & Hsame).
  exists t'. rewrite run_code_unfold, Htry, Hclean. cbn.
  repeat split; [exact Hgone | exact Hgone' | by rewrite Hsame].
Qed.

(** A phase runs out of time and its process leaves a directory at the
    path of the source file: the clean-up of the [except] clause raises,
    and the exception leaves [run_code]. *)
Lemma run_code_timed_out_on_directory (h : host) (code language name : string)
    (cfg : language_config) (t : tool_registry) (ph : phase) :
  dict_get language lang_config = Some cfg ->
  named_temporary_file h = TempWritten name ->
  times_out h language cfg (name +:+ ext cfg) ph ->
  leaves_directory h (overrun_argv language cfg (name +:+ ext cfg) ph)
    (name +:+ ext cfg) ->
  exists t',
    run_code h code language t = (Raise (IsADirectoryError (name +:+ ext cfg)), t')
    /\ fs t' !! (name +:+ ext cfg) = Some Dir
    /\ spawned t' = spawned t ++ attempted language cfg (name +:+ ext cfg) ph.
Proof.
  intros Hcfg Htemp Hout Hleaves.
  destruct (run_code_try_timed_out h code language name cfg t ph Hcfg Htemp Hout)
    as (l & t1 & eff & files & Htry & Htp & Hspawned & Heff & Hfs).
  assert (Hdir : fs t1 !! (name +:+ ext cfg) = Some Dir).
  { rewrite Hfs. by apply Hleaves. }
  exists t1. rewrite run_code_unfold, Htry.
  rewrite (run_code_cleanup_raises l t1 _ Htp Hdir). done.
Qed.

(** The compiler ends in time with a non-zero exit code and the source
    file was left in place: the result is the compilation-error dict with
    the compiler's standard error, the source file is removed, and
    whatever else the compiler left is still there. *)
Lemma run_code_compile_failed (h : host) (code language name : string)
    (cfg : language_config) (t : tool_registry)
    (d : Q) (rc : Z) (out err : string)
    (eff : gmap string node -> gmap string node) :
  dict_get language lang_config = Some cfg ->
  named_temporary_file h = TempWritten name ->
  compile cfg = true ->
  popen h (compile_argv language cfg (name +:+ ext cfg)) = Runs d rc out err eff ->
  (d <= 30)%Q -> rc <> 0%Z ->
  keeps eff (name +:+ ext cfg) ->
  exists t',
    run_code h code language t = (Return (compilation_error_result language err rc), t')
    /\ fs t' = delete (name +:+ ext cfg) (eff (<[name +:+ ext cfg := File code]> (fs t)))
    /\ spawned t' = spawned t ++ [compile_argv language cfg (name +:+ ext cfg)].
Proof.
  intros Hcfg Htemp Hc Hcomp Hd Hrc Hkeep.
  apply Qle_bool_iff in Hd. apply Z.eqb_neq in Hrc.
  unfold run_code, try_except, run_code_try. rewrite Hcfg.
  language_cases Hcfg; try discriminate.
  all: unfold compile_argv in *; cbn -[String.append Str.replace] in *.
  all: unfold_run_code; rewrite Htemp.
  all: run_code_step; rewrite Hcomp; run_code_step; rewrite Hd; run_code_step.
  all: rewrite Hrc; run_code_step.
  all: destruct (_ !! _) as [[]|] eqn:?; try absurd_lookup.
  all: run_code_step; eauto.
Qed.

(** Once the temporary file is written, a call that returns has removed
    the source file, and the file at the output path of a compiled
    language unless the result is the compilation-error dict; a result
    with a status holds the output of the process of its phase. *)
Lemma run_code_released (h : host) (code language name : string)
    (cfg : language_config) (t t' : tool_registry) (r : value) :
  dict_get language lang_config = Some cfg ->
  named_temporary_file h = TempWritten name ->
  run_code h code language t = (Return r, t') ->
  fs t' !! (name +:+ ext cfg) = None
  /\ (compile cfg = true ->
      value_get "status" r <> Some (VStr "compilation_error") ->
      fs t' !! Str.replace (name +:+ ext cfg) (ext cfg) "" = None)
  /\ (value_get "status" r = Some (VStr "success") ->
      exists d rc out err eff,
        popen h (exec_argv cfg (name +:+ ext cfg)) = Runs d rc out err eff
        /\ value_get "stdout" r = Some (VStr out)
        /\ value_get "stderr" r = Some (VStr err))
  /\ (value_get "status" r = Some (VStr "compilation_error") ->
      exists d rc out err eff,
        popen h (compile_argv language cfg (name +:+ ext cfg)) = Runs d rc out err eff
        /\ value_get "stderr" r = Some (VStr err)).
Proof.
  intros Hcfg Htemp.
  destruct (run_code_try_cases h code language name cfg t Hcfg Htemp)
    as (o & l & t1 & Htry & Htp & Hconfig & Hop & Hcase).
  rewrite run_code_unfold, Htry.
  destruct o as [r'|e].
  - intros [= <- <-]. exact Hcase.
  - destruct (run_code_cleanup (l, t1)) as [[[]|e'] s] eqn:Hclean; [|discriminate].
    intros [= <- <-].
    destruct (run_code_cleanup_released l t1 _ _ cfg s Htp Hconfig Hop Hclean)
      as [Hgone Hgone'].
    split; [exact Hgone|]. split; [intros Hc _; by apply Hgone'|].
    unfold except_result, timed_out_result.
    split; intros Hstatus; destruct (is_timeout_expired e); discriminate Hstatus.
Qed.

(** Once the temporary file is written, the call returns when no child
    process puts a directory at the path of the source file or at the
    output path. *)
Lemma run_code_returns_without_directories (h : host) (code language name : string)
    (cfg : language_config) (t : tool_registry) :
  dict_get language lang_config = Some cfg ->
  named_temporary_file h = TempWritten name ->
  no_directory_made h (name +:+ ext cfg) ->
  output_path_is_free h cfg t (name +:+ ext cfg) ->
  exists r t', run_code h code language t = (Return r, t').
Proof.
  intros Hcfg Htemp Hmade Hfree.
  destruct (run_code_try_cases h code language name cfg t Hcfg Htemp)
    as (o & l & t1 & Htry & Htp & Hconfig & Hop & Hcase).
  rewrite run_code_unfold, Htry.
  destruct o as [r|e]; [eauto|].
  destruct (Hcase Hmade Hfree) as [Hnotp Hnoop].
  destruct (run_code_cleanup_returns l t1 _ _ cfg Htp Hconfig Hop Hnotp Hnoop)
    as (t' & Hclean & _).
  rewrite Hclean. eauto.
Qed.

(** An unsupported language is answered before anything is touched. *)
Lemma run_code_unsupported (h : host) (code language : string) (t : tool_registry) :
  dict_get language lang_config = None ->
  run_code h code language t
  = (Return (VDict [("error",
                     VStr ("unsupported language: " +:+ language
                           +:+ ". Supported: ['python', 'javascript', 'go', 'rust', 'c', 'cpp']"))]),
     t).
Proof.
  intros Hcfg. unfold run_code, try_except, run_code_try. rewrite Hcfg.
  reflexivity.
Qed.

(** The temporary file cannot be written: both [except] clauses read
    [temp_path], which was never bound, so the [UnboundLocalError] of
    that read leaves [run_code].  A file that was created stays. *)
Lemma run_code_temp_fault (h : host) (code language : string)
    (cfg : language_config) (t : tool_registry) :
  dict_get language lang_config = Some cfg ->
  match named_temporary_file h with
  | TempCreateFails e =>
      run_code h code language t = (Raise (UnboundLocalError "temp_path"), t)
  | TempWriteFails name e =>
      run_code h code language t
      = (Raise (UnboundLocalError "temp_path"),
         set_fs (insert (name +:+ ext cfg) (File "")) t)
  | TempWritten _ => True
  end.
Proof.
  intros Hcfg. unfold run_code, try_except, run_code_try. rewrite Hcfg.
  unfold_run_code.
  destruct (named_temporary_file h) as [e|name e|name]; [| |done].
  all: cbn -[String.append]; destruct (is_timeout_expired e); reflexivity.
Qed.

(** *** Structured results *)

Lemma write_file_returns (h : host) (path content : string) (t : tool_registry) :
  exists r t', write_file h path content t = (Return r, t').
Proof.
  unfold write_file, try_except.
  match goal with |- context [?body t] =>
    lazymatch body with
    | bind _ _ => destruct (body t) as [[r|e] t'] eqn:Hbody
    end
  end; unfold ret; eauto.
Qed.

Lemma delete_file_returns (h : host) (path : string) (t : tool_registry) :
  exists r t', delete_file h path t = (Return r, t').
Proof.
  unfold delete_file, try_except.
  match goal with |- context [?body t] =>
    lazymatch body with
    | bind _ _ => destruct (body t) as [[r|e] t'] eqn:Hbody
    end
  end; unfold ret; eauto.
Qed.

(** Where [execute] returns a dict: (1) for a plan that fails
    validation, (2) for a validated plan whose action has no handler,
    (3) for a validated plan whose parameters bind to the handler's
    parameters and whose handler returns.  (4, 5) [write_file] and
    [delete_file] return a dict on every input: each body is one [try]
    statement whose [except] clause builds a dict.  (6) An exception that
    leaves [execute] leaves the safety rules as they were, and the log
    as long as it was. *)
Lemma execute_returns_unless_the_call_raises :
  (forall h p cp,
      _validate_request cp p = false ->
      execute h p cp = (Return (Refused "safety validation failed" p), cp))
  /\ (forall h p cp,
        _validate_request cp p = true ->
        action p ≫= (fun a => tool_map !! a) = None ->
        exists e cp', execute h p cp = (Return e, cp'))
  /\ (forall h p cp f r t',
        _validate_request cp p = true ->
        action p ≫= (fun a => tool_map !! a) = Some f ->
        binds f (default ∅ (parameters p)) = true ->
        tool_body h f (default ∅ (parameters p))
          (add_dispatched (Tool.name f, default ∅ (parameters p)) (tools cp))
        = (Return r, t') ->
        exists e cp', execute h p cp = (Return e, cp'))
  /\ (forall h path content t,
        exists r t', write_file h path content t = (Return r, t'))
  /\ (forall h path t, exists r t', delete_file h path t = (Return r, t'))
  /\ (forall h p cp e cp',
        execute h p cp = (Raise e, cp') ->
        length (execution_log cp') = length (execution_log cp)
        /\ safety_rules cp' = safety_rules cp).
Proof.
  split; [intros h p cp; apply execute_invalid|].
  split.
  { intros h p cp Hvalid Hnone. rewrite execute_unfold, Hvalid.
    unfold _route_and_execute. rewrite Hnone. simpl. eauto. }
  split.
  { intros h p cp f r t' Hvalid Hf Hbinds Hbody. rewrite execute_unfold, Hvalid.
    unfold _route_and_execute. rewrite Hf.
    unfold call, bind, modify. rewrite Hbinds, Hbody. cbv zeta. eauto. }
  split; [apply write_file_returns|].
  split; [apply delete_file_returns|].
  intros h p cp e cp'. rewrite execute_unfold.
  destruct (_validate_request cp p); [|discriminate].
  destruct (_route_and_execute _ _ _ _) as [[result|e'] t'']; [discriminate|].
  intros [= <- <-]. split; [by rewrite retouch_log_length | by rewrite retouch_rules].
Qed.

(** C3 on the plan that [verify_fix.py] sends. [set_assignment] has the
    parameters [description] and [language].  A plan for it that also
    gives a [session_id] passes validation; the keyword call does not
    bind; and the [TypeError] leaves [execute], which has no [try]
    statement: no dict is returned, and no entry is logged. *)
Theorem session_id_makes_set_assignment_raise (h : host) (cp : control_plane)
    (description language session_id : value) :
  "set_assignment" ∈ allowed_tools (safety_rules cp) ->
  _validate_request cp
    (plan_of (Some "set_assignment")
       [("description", description); ("language", language);
        ("session_id", session_id)]) = true
  /\ exists msg cp',
       execute h
         (plan_of (Some "set_assignment")
            [("description", description); ("language", language);
             ("session_id", session_id)]) cp
       = (Raise (TypeError msg), cp')
       /\ execution_log cp' = execution_log cp.
Proof.
  intros Hallowed.
  assert (Hvalid : _validate_request cp
            (plan_of (Some "set_assignment")
               [("description", description); ("language", language);
                ("session_id", session_id)]) = true).
  { unfold _validate_request. cbn [action plan_of].
    rewrite (bool_decide_true _ Hallowed). reflexivity. }
  split; [exact Hvalid|].
  rewrite execute_unfold, Hvalid. eexists _, _. split; reflexivity.
Qed.

(** The plan of [verify_fix.py] on the control plane as the application
    builds it. *)
Lemma session_id_makes_set_assignment_raise_witness :
  _validate_request fresh_plane
    (plan_of (Some "set_assignment")
       [("description", VStr "Test assignment"); ("language", VStr "python");
        ("session_id", VStr "test_session_123")]) = true
  /\ exists msg cp',
       execute quiet_host
         (plan_of (Some "set_assignment")
            [("description", VStr "Test assignment"); ("language", VStr "python");
             ("session_id", VStr "test_session_123")]) fresh_plane
       = (Raise (TypeError msg), cp')
       /\ execution_log cp' = execution_log fresh_plane.
Proof.
  apply (session_id_makes_set_assignment_raise quiet_host fresh_plane
           (VStr "Test assignment") (VStr "python") (VStr "test_session_123")).
  vm_compute. set_solver.
Defined.

(** *** Release of the temporary files *)

(** C4 where the source text cannot be written. The temporary file is
    created and kept ([delete=False]); the write raises before
    [temp_path] is bound; the [except] clause starts its clean-up by
    reading [temp_path], so the call ends with [UnboundLocalError] and
    the file is still on the host. *)
Theorem write_fault_leaves_the_temporary_file (h : host) (code language name : string)
    (cfg : language_config) (e : exn) (t : tool_registry) :
  dict_get language lang_config = Some cfg ->
  named_temporary_file h = TempWriteFails name e ->
  exists t',
    run_code h code language t = (Raise (UnboundLocalError "temp_path"), t')
    /\ fs t' !! (name +:+ ext cfg) = Some (File "").
Proof.
  intros Hcfg Htemp.
  pose proof (run_code_temp_fault h code language cfg t Hcfg) as Hfault.
  rewrite Htemp in Hfault. eexists. split; [exact Hfault|].
  simpl. apply lookup_insert_eq.
Qed.

(** A Python job whose text the host cannot encode. *)
Lemma write_fault_leaves_the_temporary_file_witness :
  exists t',
    run_code write_fault_host "print(1)" "python" (ToolRegistry_init ∅)
    = (Raise (UnboundLocalError "temp_path"), t')
    /\ fs t' !! "/tmp/tmpab12cd34.py" = Some (File "").
Proof.
  apply (write_fault_leaves_the_temporary_file write_fault_host "print(1)" "python"
           "/tmp/tmpab12cd34"
           {| ext := ".py"; cmd := Some ["python3"]; compile := false; compiler := None |}
           (HostError "'utf-8' codec can't encode character '\ud800' in position 0: surrogates not allowed")
           (ToolRegistry_init ∅)).
  - reflexivity.
  - reflexivity.
Defined.

(** The branch for a compiler that exits non-zero removes the source
    file only: an output file that the compiler left is still there,
    where the other branches would remove it. *)
Lemma failed_compile_output_is_left :
  exists t',
    run_code leaky_compiler_host "int main(){}" "c" (ToolRegistry_init ∅)
    = (Return (compilation_error_result "c" "ld: cannot find -lm" 1), t')
    /\ fs t' !! "/tmp/tmpab12cd34.c" = None
    /\ fs t' !! "/tmp/tmpab12cd34" = Some (File "ELF").
Proof. eexists. split; [vm_compute; reflexivity|]. split; vm_compute; reflexivity. Qed.

(** *** Success, time-out and the captured output *)

(** C6 where the program removes its own source file. The execute phase
    ends in time, but the [os.remove(temp_path)] that follows it has no
    [os.path.exists] guard, unlike the one of the [except] clauses: its
    [FileNotFoundError] is caught, and the call is answered with the
    failed-to-run dict, which has no status, exit code or output. *)
Theorem removed_source_turns_success_into_error (h : host) (code language name : string)
    (cfg : language_config) (t : tool_registry)
    (d : Q) (rc : Z) (out err : string)
    (eff : gmap string node -> gmap string node) :
  dict_get language lang_config = Some cfg ->
  compile cfg = false ->
  named_temporary_file h = TempWritten name ->
  popen h (exec_argv cfg (name +:+ ext cfg)) = Runs d rc out err eff ->
  (d <= 10)%Q ->
  eff (<[name +:+ ext cfg := File code]> (fs t)) !! (name +:+ ext cfg) = None ->
  exists t',
    run_code h code language t
    = (Return (VDict [("error",
                       VStr ("failed to run " +:+ language +:+ " code: "
                             +:+ "[Errno 2] No such file or directory: "
                             +:+ Str.repr (name +:+ ext cfg)))]), t').
Proof.
  intros Hcfg Hc Htemp Hexec Hd Hgone. apply Qle_bool_iff in Hd.
  unfold run_code, try_except, run_code_try. rewrite Hcfg.
  language_cases Hcfg; try discriminate.
  all: unfold exec_argv in *; cbn -[String.append Str.replace] in *.
  all: unfold_run_code; rewrite Htemp.
  all: run_code_step; rewrite Hexec; run_code_step; rewrite Hd; run_code_step.
  all: rewrite Hgone; run_code_step; rewrite Hgone; run_code_step.
  all: eauto.
Qed.

(** The Python job [import os; os.remove(__file__); print('done')]. *)
Lemma removed_source_turns_success_into_error_witness :
  exists t',
    run_code self_removing_host "import os; os.remove(__file__); print('done')" "python"
      (ToolRegistry_init ∅)
    = (Return (VDict [("error",
                       VStr "failed to run python code: [Errno 2] No such file or directory: '/tmp/tmpab12cd34.py'")]),
       t').
Proof.
  apply (removed_source_turns_success_into_error self_removing_host
           "import os; os.remove(__file__); print('done')" "python" "/tmp/tmpab12cd34"
           {| ext := ".py"; cmd := Some ["python3"]; compile := false; compiler := None |}
           (ToolRegistry_init ∅) 0.1 0 "done" ""
           (fun files => foldr delete files ["python3"; "/tmp/tmpab12cd34.py"])).
  - reflexivity.
  - reflexivity.
  - reflexivity.
  - reflexivity.
  - vm_compute. discriminate.
  - vm_compute. reflexivity.
Defined.

(** When no child process removes the source file, and no directory
    stands at the output path of a compiled language, an execute phase
    that ends in time gives the status [success] whatever the exit code
    and the standard error of the program, and both are reported.  The
    Python job [print(1/0)] is the example. *)
Lemma completed_execution_is_success (h : host) (code language name : string)
    (cfg : language_config) (t : tool_registry)
    (d : Q) (rc : Z) (out err : string)
    (eff : gmap string node -> gmap string node) :
  dict_get language lang_config = Some cfg ->
  named_temporary_file h = TempWritten name ->
  compiles h language cfg (name +:+ ext cfg) ->
  popen h (exec_argv cfg (name +:+ ext cfg)) = Runs d rc out err eff ->
  (d <= 10)%Q ->
  source_is_kept h language cfg (name +:+ ext cfg) ->
  output_path_is_free h cfg t (name +:+ ext cfg) ->
  exists t',
    run_code h code language t
    = (Return (VDict [("tool", VStr "run_code");
                      ("status", VStr "success");
                      ("language", VStr language);
                      ("stdout", VStr out);
                      ("stderr", VStr err);
                      ("return_code", VInt rc)]), t').
Proof.
  intros Hcfg Htemp Hcompiles Hexec Hd Hkept Hfree.
  destruct (run_code_completed h code language name cfg t d rc out err eff
              Hcfg Htemp Hcompiles Hexec Hd Hkept Hfree) as (t' & Hrun & _).
  by exists t'.
Qed.

Lemma division_by_zero_is_success :
  run_code failing_script_host "print(1/0)" "python" (ToolRegistry_init ∅)
  = (Return (VDict [("tool", VStr "run_code");
                    ("status", VStr "success");
                    ("language", VStr "python");
                    ("stdout", VStr "");
                    ("stderr", VStr "Traceback (most recent call last): ZeroDivisionError: division by zero");
                    ("return_code", VInt 1)]),
     add_spawned ["python3"; "/tmp/tmpab12cd34.py"] (ToolRegistry_init ∅)).
Proof. vm_compute. reflexivity. Qed.

(** C7, as the code has it. The compile phase runs longer than 30
    seconds, or the execute phase longer than 10.  (1) When no child
    process puts a directory at the path of the source file or at the
    output path, the call returns the dict whose [error] says that the
    execution timed out, and each phase it reached started its process
    once: nothing is run again.  (2) When the process that ran out of
    time leaves a directory at the path of the source file, the
    [os.remove] of the [except] clause raises [IsADirectoryError], and
    the exception leaves [run_code]: no time-out is reported. *)
Theorem timeout_is_reported_unless_the_cleanup_raises (h : host)
    (code language name : string) (cfg : language_config) (t : tool_registry)
    (ph : phase) :
  dict_get language lang_config = Some cfg ->
  named_temporary_file h = TempWritten name ->
  times_out h language cfg (name +:+ ext cfg) ph ->
  (no_directory_made h (name +:+ ext cfg) ->
   output_path_is_free h cfg t (name +:+ ext cfg) ->
   exists t',
     run_code h code language t
     = (Return (VDict [("error",
                        VStr "code execution timed out (10s limit for execution, 30s for compilation)")]),
        t')
     /\ spawned t' = spawned t ++ attempted language cfg (name +:+ ext cfg) ph)
  /\ (leaves_directory h (overrun_argv language cfg (name +:+ ext cfg) ph)
        (name +:+ ext cfg) ->
      exists t',
        run_code h code language t
        = (Raise (IsADirectoryError (name +:+ ext cfg)), t')
        /\ spawned t' = spawned t ++ attempted language cfg (name +:+ ext cfg) ph).
Proof.
  intros Hcfg Htemp Hout. split.
  - intros Hmade Hfree.
    destruct (run_code_timed_out h code language name cfg t ph Hcfg Htemp Hout
                Hmade Hfree) as (t' & Hrun & _ & _ & Hspawned).
    by exists t'.
  - intros Hleaves.
    destruct (run_code_timed_out_on_directory h code language name cfg t ph
                Hcfg Htemp Hout Hleaves) as (t' & Hrun & _ & Hspawned).
    by exists t'.
Qed.

(** Part (1) on a Python job that sleeps for a minute, and part (2) on
    the Python job [import os, time; os.remove(__file__);
    os.mkdir(__file__); time.sleep(60)]. *)
Lemma timeout_is_reported_unless_the_cleanup_raises_witness :
  (exists t',
     run_code sleeping_host "import time; time.sleep(60)" "python" (ToolRegistry_init ∅)
     = (Return (VDict [("error",
                        VStr "code execution timed out (10s limit for execution, 30s for compilation)")]),
        t')
     /\ spawned t' = [["python3"; "/tmp/tmpab12cd34.py"]])
  /\ (exists t',
        run_code swapping_host
          "import os, time; os.remove(__file__); os.mkdir(__file__); time.sleep(60)"
          "python" (ToolRegistry_init ∅)
        = (Raise (IsADirectoryError "/tmp/tmpab12cd34.py"), t')
        /\ spawned t' = [["python3"; "/tmp/tmpab12cd34.py"]]).
Proof.
  split.
  - apply (timeout_is_reported_unless_the_cleanup_raises sleeping_host
             "import time; time.sleep(60)" "python" "/tmp/tmpab12cd34"
             {| ext := ".py"; cmd := Some ["python3"]; compile := false;
                compiler := None |}
             (ToolRegistry_init ∅) ExecutePhase).
    + reflexivity.
    + reflexivity.
    + split.
      * intros Hc. discriminate Hc.
      * exists 60%Q, 0%Z, "", "", id. split; [reflexivity|]. vm_compute. reflexivity.
    + intros argv effect [= <-] files Hno. exact Hno.
    + intros Hc. discriminate Hc.
  - apply (timeout_is_reported_unless_the_cleanup_raises swapping_host
             "import os, time; os.remove(__file__); os.mkdir(__file__); time.sleep(60)"
             "python" "/tmp/tmpab12cd34"
             {| ext := ".py"; cmd := Some ["python3"]; compile := false;
                compiler := None |}
             (ToolRegistry_init ∅) ExecutePhase).
    + reflexivity.
    + reflexivity.
    + split.
      * intros Hc. discriminate Hc.
      * eexists 60%Q, 0%Z, "", "", _. split; [reflexivity|]. vm_compute. reflexivity.
    + intros effect files [= <-]. apply lookup_insert_eq.
Defined.

(** C8, as the code has it. [run_code] puts no bound on what it returns.
    A result with the status [success] holds the standard output and the
    standard error of the executed program as captured, and a result with
    the status [compilation_error] holds the standard error of the
    compiler as captured, whatever their length. *)
Theorem captured_output_is_returned_whole (h : host) (code language name : string)
    (cfg : language_config) (t t' : tool_registry) (r : value) :
  dict_get language lang_config = Some cfg ->
  named_temporary_file h = TempWritten name ->
  run_code h code language t = (Return r, t') ->
  (value_get "status" r = Some (VStr "success") ->
   exists d rc out err eff,
     popen h (exec_argv cfg (name +:+ ext cfg)) = Runs d rc out err eff
     /\ value_get "stdout" r = Some (VStr out)
     /\ value_get "stderr" r = Some (VStr err))
  /\ (value_get "status" r = Some (VStr "compilation_error") ->
      exists d rc out err eff,
        popen h (compile_argv language cfg (name +:+ ext cfg)) = Runs d rc out err eff
        /\ value_get "stderr" r = Some (VStr err)).
Proof.
  intros Hcfg Htemp Hrun.
  destruct (run_code_released h code language name cfg t t' r Hcfg Htemp Hrun)
    as (_ & _ & Hsuccess & Hcompile).
  by split.
Qed.

Lemma captured_output_is_returned_whole_witness :
  (value_get "status" (success_result "python" "" "" 0) = Some (VStr "success") ->
   exists d rc out err eff,
     popen quiet_host ["python3"; "/tmp/tmpab12cd34.py"] = Runs d rc out err eff
     /\ value_get "stdout" (success_result "python" "" "" 0) = Some (VStr out)
     /\ value_get "stderr" (success_result "python" "" "" 0) = Some (VStr err))
  /\ (value_get "status" (success_result "python" "" "" 0)
      = Some (VStr "compilation_error") ->
      exists d rc out err eff,
        popen quiet_host ["python3"; "/tmp/tmpab12cd34.py"; "-o"; "/tmp/tmpab12cd34"]
        = Runs d rc out err eff
        /\ value_get "stderr" (success_result "python" "" "" 0) = Some (VStr err)).
Proof.
  apply (captured_output_is_returned_whole quiet_host "print(2+2)" "python"
           "/tmp/tmpab12cd34"
           {| ext := ".py"; cmd := Some ["python3"]; compile := false; compiler := None |}
           (ToolRegistry_init ∅)
           (add_spawned ["python3"; "/tmp/tmpab12cd34.py"] (ToolRegistry_init ∅))
           (success_result "python" "" "" 0)).
  - reflexivity.
  - reflexivity.
  - vm_compute. reflexivity.
Defined.

(** C8 fails on a program that prints 100000 characters on each stream,
    and on a compiler that does: all of them are in the result. *)
Lemma long_output_is_not_truncated :
  N.of_nat (String.length long_output) = 100000%N
  /\ (exists t',
        run_code noisy_host "print('x' * 100000)" "python" (ToolRegistry_init ∅)
        = (Return (success_result "python" long_output long_output 0), t'))
  /\ (exists t',
        run_code noisy_host "int main( { }" "c" (ToolRegistry_init ∅)
        = (Return (compilation_error_result "c" long_output 1), t')).
Proof.
  split; [vm_compute; reflexivity|]. split.
  - destruct (run_code_completed noisy_host "print('x' * 100000)" "python"
                "/tmp/tmpab12cd34"
                {| ext := ".py"; cmd := Some ["python3"]; compile := false;
                   compiler := None |}
                (ToolRegistry_init ∅) 1 0 long_output long_output id)
      as (t' & Hrun & _); try reflexivity.
    + intros Hc. discriminate Hc.
    + vm_compute. discriminate.
    + intros argv d rc out err eff _ [= _ _ _ _ <-] files Hfile. exact Hfile.
    + intros Hc. discriminate Hc.
    + by exists t'.
  - destruct (run_code_compile_failed noisy_host "int main( { }" "c"
                "/tmp/tmpab12cd34"
                {| ext := ".c"; cmd := None; compile := true; compiler := Some "gcc" |}
                (ToolRegistry_init ∅) 1 1 long_output long_output id)
      as (t' & Hrun & _); try reflexivity.
    + vm_compute. discriminate.
    + discriminate.
    + intros files Hfile. exact Hfile.
    + by exists t'.
Qed.
(** ** Further properties *)

(** *** The control plane *)

(** The handlers of [tool_map] are the names of the allow-list. *)
Lemma tool_map_lookup (a : string) (f : Tool.t) :
  tool_map !! a = Some f -> a = Tool.name f.
Proof.
  intros Hf. apply elem_of_list_to_map_2 in Hf.
  repeat (apply elem_of_cons in Hf as [[= -> ->] | Hf]; [reflexivity|]).
  by apply elem_of_nil in Hf.
Qed.

(** X6. A name is in the shipped allow-list exactly when [tool_map] has a
    handler for it. *)
Theorem allowed_tools_are_the_routed_tools (a : string) :
  a ∈ allowed_tools (safety_rules fresh_plane) <-> is_Some (tool_map !! a).
Proof.
  split.
  - simpl. intros Hin.
    repeat (apply elem_of_cons in Hin as [-> | Hin]; [by vm_compute; eauto|]).
    by apply elem_of_nil in Hin.
  - intros [f Hf]. apply tool_map_lookup in Hf as ->.
    destruct f; vm_compute; set_solver.
Qed.

Lemma contains_paren_not_routed (a : string) :
  Str.contains "(" a = true -> tool_map !! a = None.
Proof.
  intros Hparen. destruct (tool_map !! a) as [f|] eqn:Hf; [|reflexivity].
  apply tool_map_lookup in Hf as ->. destruct f; discriminate Hparen.
Qed.

(** X1. An action with an argument suffix whose base name is in the
    allow-list passes validation, but the router looks the handler up
    under the full string: no handler is called, the result is the
    unknown-action dict, and the call is logged and returned with
    [success: True]. *)
Theorem suffixed_action_is_validated_but_not_routed
    (h : host) (cp : control_plane) (p : plan) (a : string) :
  action p = Some a ->
  Str.contains "(" a = true ->
  base_action a ∈ allowed_tools (safety_rules cp) ->
  parameter_count p <= 10 ->
  execute h p cp
  = (Return (Executed (Some a) (VDict [("error", VStr ("unknown action: " +:+ a))])
               {| execution_count := S (length (execution_log cp));
                  safety_checks_passed := true |}),
     append_log {| timestamp := now h; entry_plan := p;
                   entry_result := VDict [("error", VStr ("unknown action: " +:+ a))] |}
                cp).
Proof.
  intros Hact Hparen Hbase Hcount.
  assert (Hvalid : _validate_request cp p = true).
  { unfold _validate_request. rewrite Hact.
    rewrite (bool_decide_eq_true_2 _ Hbase), !andb_false_r.
    apply Nat.ltb_ge in Hcount. by rewrite Hcount. }
  rewrite execute_unfold, Hvalid. unfold _route_and_execute, shared_by.
  rewrite Hact. cbn [mbind option_bind].
  rewrite (contains_paren_not_routed a Hparen). cbv zeta.
  unfold ret, retouch, plan_after, set_tools. cbn [execution_log].
  rewrite length_app, Nat.add_1_r. destruct cp; reflexivity.
Qed.

Lemma suffixed_action_witness :
  execute quiet_host (plan_of (Some "run_code(print(1))") []) fresh_plane
  = (Return (Executed (Some "run_code(print(1))")
               (VDict [("error", VStr "unknown action: run_code(print(1))")])
               {| execution_count := 1; safety_checks_passed := true |}),
     append_log {| timestamp := now quiet_host;
                   entry_plan := plan_of (Some "run_code(print(1))") [];
                   entry_result :=
                     VDict [("error", VStr "unknown action: run_code(print(1))")] |}
                fresh_plane).
Proof.
  apply (suffixed_action_is_validated_but_not_routed quiet_host fresh_plane
           (plan_of (Some "run_code(print(1))") []) "run_code(print(1))").
  - reflexivity.
  - reflexivity.
  - vm_compute. set_solver.
  - vm_compute. lia.
Defined.

(** X2. For a plan whose action is in the allow-list, validation passes
    exactly when the plan has at most ten parameters: ten pass, eleven
    are refused. *)
Theorem allowed_action_validates_up_to_ten_parameters
    (cp : control_plane) (p : plan) (a : string) :
  action p = Some a ->
  a ∈ allowed_tools (safety_rules cp) ->
  (_validate_request cp p = true <-> parameter_count p <= 10).
Proof.
  intros Hact Hin. unfold _validate_request. rewrite Hact.
  rewrite (bool_decide_eq_true_2 _ Hin), andb_false_r. simpl.
  destruct (10 <? parameter_count p)%nat eqn:Hlt.
  - apply Nat.ltb_lt in Hlt. split; [discriminate | lia].
  - apply Nat.ltb_ge in Hlt. split; [lia | reflexivity].
Qed.

Lemma ten_parameters_witness :
  _validate_request fresh_plane
    (plan_of (Some "search_knowledge")
       [("p0", VNone); ("p1", VNone); ("p2", VNone); ("p3", VNone); ("p4", VNone);
        ("p5", VNone); ("p6", VNone); ("p7", VNone); ("p8", VNone); ("p9", VNone)])
  = true
  <-> parameter_count
        (plan_of (Some "search_knowledge")
           [("p0", VNone); ("p1", VNone); ("p2", VNone); ("p3", VNone); ("p4", VNone);
            ("p5", VNone); ("p6", VNone); ("p7", VNone); ("p8", VNone); ("p9", VNone)])
      <= 10.
Proof.
  apply (allowed_action_validates_up_to_ten_parameters fresh_plane _ "search_knowledge").
  - reflexivity.
  - vm_compute. set_solver.
Defined.

Lemma run_cons (h : host) (p : plan) (calls : list (host * plan)) (cp : control_plane) :
  run ((h, p) :: calls) cp
  = ((execute h p cp).1 :: (run calls (execute h p cp).2).1,
     (run calls (execute h p cp).2).2).
Proof.
  simpl. destruct (execute h p cp) as [r cp1]. simpl.
  by destruct (run calls cp1).
Qed.

(** X3. The counts returned by the calls of a sequence that succeed are
    consecutive, starting one above the length of the log before the
    sequence: no two calls report the same count. *)
Theorem execution_counts_are_consecutive
    (calls : list (host * plan)) (cp : control_plane) :
  counts (run calls cp).1
  = seq (S (length (execution_log cp))) (successes (run calls cp).1).
Proof.
  revert cp. induction calls as [|[h p] calls IH]; intros cp; [reflexivity|].
  rewrite run_cons. cbn [fst snd]. specialize (IH (execute h p cp).2).
  pose proof (execute_log_length h p cp) as Hlen.
  revert IH Hlen. rewrite execute_unfold.
  destruct (_validate_request cp p); cbn [fst snd].
  - destruct (_route_and_execute _ _ _ _) as [[result|e] t']; cbv zeta; cbn [fst snd].
    + intros IH Hlen. cbn in Hlen.
      change (counts (Return (Executed ?a ?r ?m) :: ?rs))
        with (execution_count m :: counts rs).
      change (successes (Return (Executed ?a ?r ?m) :: ?rs)) with (S (successes rs)).
      cbn [execution_count seq]. rewrite IH. cbn [append_log execution_log].
      rewrite Hlen, Nat.add_1_r. reflexivity.
    + intros IH Hlen. cbn in Hlen. rewrite Nat.add_0_r in Hlen.
      change (counts (Raise ?x :: ?rs)) with (counts rs).
      change (successes (Raise ?x :: ?rs)) with (successes rs).
      rewrite IH, Hlen. reflexivity.
  - intros IH _.
    change (counts (Return (Refused ?a ?b) :: ?rs)) with (counts rs).
    change (successes (Return (Refused ?a ?b) :: ?rs)) with (successes rs).
    exact IH.
Qed.

Lemma run_log_times (calls : list (host * plan)) (cp : control_plane) :
  timestamp <$> execution_log (run calls cp).2
  = (timestamp <$> execution_log cp) ++ logged_times calls (run calls cp).1.
Proof.
  revert cp. induction calls as [|[h p] calls IH]; intros cp.
  - simpl. by rewrite app_nil_r.
  - rewrite run_cons. cbn [fst snd]. rewrite IH. clear IH.
    rewrite execute_unfold.
    destruct (_validate_request cp p); cbn [fst snd].
    + destruct (_route_and_execute _ _ _ _) as [[result|e] t']; cbv zeta;
        cbn [fst snd append_log execution_log logged_times].
      * rewrite fmap_app, retouch_log_times, <- app_assoc. reflexivity.
      * rewrite retouch_log_times. reflexivity.
    + reflexivity.
Qed.

(** X4. After a sequence of calls the times of the log are the times
    before it followed by the time of each call that returned
    [success: True], in the order of the calls.  When no call of the
    sequence changes in place what the log refers to, the log is the log
    before it followed by one entry for each of these calls, holding the
    time, the plan and the result of that call. *)
Theorem audit_log_holds_the_executed_calls
    (calls : list (host * plan)) (cp : control_plane) :
  timestamp <$> execution_log (run calls cp).2
  = (timestamp <$> execution_log cp) ++ logged_times calls (run calls cp).1
  /\ (Forall shares_nothing calls ->
      execution_log (run calls cp).2
      = execution_log cp ++ logged calls (run calls cp).1).
Proof.
  split; [apply run_log_times|].
  revert cp. induction calls as [|[h p] calls IH]; intros cp Hall.
  - simpl. by rewrite app_nil_r.
  - apply Forall_cons in Hall as [Hnone Hall]. unfold shares_nothing in Hnone.
    cbn [fst snd] in Hnone.
    rewrite run_cons. cbn [fst snd]. rewrite IH by exact Hall. clear IH.
    rewrite execute_unfold, Hnone.
    destruct (_validate_request cp p); cbn [fst snd].
    + destruct (_route_and_execute _ _ _ _) as [[result|e] t']; cbn.
      * by rewrite <- app_assoc.
      * reflexivity.
    + cbn. reflexivity.
Qed.

(** A refused write, a job that runs and an action without a handler. *)
Lemma audit_log_holds_witness :
  execution_log
    (run [(quiet_host, plan_of (Some "write_file")
                         [("path", VStr "output.txt"); ("content", VStr "notes")]);
          (quiet_host, plan_of (Some "run_code") [("code", VStr "print(2+2)")]);
          (quiet_host, plan_of (Some "run_code") []);
          (quiet_host, plan_of (Some "run_code(print(1))") [])]
       fresh_plane).2
  = execution_log fresh_plane
    ++ logged
         [(quiet_host, plan_of (Some "write_file")
                         [("path", VStr "output.txt"); ("content", VStr "notes")]);
          (quiet_host, plan_of (Some "run_code") [("code", VStr "print(2+2)")]);
          (quiet_host, plan_of (Some "run_code") []);
          (quiet_host, plan_of (Some "run_code(print(1))") [])]
         (run [(quiet_host, plan_of (Some "write_file")
                              [("path", VStr "output.txt"); ("content", VStr "notes")]);
               (quiet_host, plan_of (Some "run_code") [("code", VStr "print(2+2)")]);
               (quiet_host, plan_of (Some "run_code") []);
               (quiet_host, plan_of (Some "run_code(print(1))") [])]
            fresh_plane).1.
Proof.
  apply (audit_log_holds_the_executed_calls
           [(quiet_host, plan_of (Some "write_file")
                           [("path", VStr "output.txt"); ("content", VStr "notes")]);
            (quiet_host, plan_of (Some "run_code") [("code", VStr "print(2+2)")]);
            (quiet_host, plan_of (Some "run_code") []);
            (quiet_host, plan_of (Some "run_code(print(1))") [])]
           fresh_plane).
  repeat constructor.
Defined.

Lemma write_file_refused (h : host) (t : tool_registry) (path content : string) :
  is_safe t (Path.abspath (getcwd h) path) = false ->
  write_file h path content t
  = (Return (VDict [("error", VStr ("permission denied: can only write to "
                                     +:+ Str.repr_list (safe_write_directories t)));
                    ("path", VStr path)]), t).
Proof.
  intros Hsafe. unfold write_file, try_except, bind, gets, ret.
  rewrite Hsafe. reflexivity.
Qed.

(** X5. A refusal by the tool is still an executed call for the control
    plane: a [write_file] plan whose target is outside the safe write
    directories comes back with [success: True] around the
    permission-denied dict, and is logged; no file is written. *)
Theorem refused_write_is_an_executed_call
    (h : host) (cp : control_plane) (path content : string) :
  safety_rules cp = safety_rules fresh_plane ->
  (forall root, root ∈ safe_write_directories (tools cp) ->
                ~ prefixed_by root (Path.abspath (getcwd h) path)) ->
  exists cp',
    execute h (plan_of (Some "write_file")
                 [("path", VStr path); ("content", VStr content)]) cp
    = (Return (Executed (Some "write_file")
                 (VDict [("error",
                          VStr ("permission denied: can only write to "
                                +:+ Str.repr_list (safe_write_directories (tools cp))));
                         ("path", VStr path)])
                 {| execution_count := S (length (execution_log cp));
                    safety_checks_passed := true |}), cp')
    /\ fs (tools cp') = fs (tools cp)
    /\ length (execution_log cp') = S (length (execution_log cp)).
Proof.
  intros Hrules Hroots.
  rewrite execute_unfold.
  assert (Hvalid : _validate_request cp
            (plan_of (Some "write_file") [("path", VStr path); ("content", VStr content)])
          = true).
  { unfold _validate_request. rewrite Hrules. vm_compute. reflexivity. }
  rewrite Hvalid.
  assert (Hshare : shared_by h
            (action (plan_of (Some "write_file")
                       [("path", VStr path); ("content", VStr content)]))
            (default ∅ (parameters (plan_of (Some "write_file")
                       [("path", VStr path); ("content", VStr content)])))
          = None) by reflexivity.
  assert (Hroute : _route_and_execute h
            (action (plan_of (Some "write_file")
                       [("path", VStr path); ("content", VStr content)]))
            (default ∅ (parameters (plan_of (Some "write_file")
                       [("path", VStr path); ("content", VStr content)])))
            (tools cp)
          = write_file h path content
              (add_dispatched
                 ("write_file",
                  default ∅ (parameters (plan_of (Some "write_file")
                       [("path", VStr path); ("content", VStr content)])))
                 (tools cp))) by reflexivity.
  rewrite Hshare, Hroute. clear Hshare Hroute.
  apply is_safe_false in Hroots.
  rewrite write_file_refused by exact Hroots.
  cbv zeta. unfold retouch, plan_after.
  eexists. split; [|split].
  - rewrite length_app, Nat.add_1_r. reflexivity.
  - reflexivity.
  - simpl. rewrite length_app. simpl. lia.
Qed.

Lemma refused_write_witness :
  exists cp',
    execute quiet_host (plan_of (Some "write_file")
                          [("path", VStr "output.txt"); ("content", VStr "notes")])
      fresh_plane
    = (Return (Executed (Some "write_file")
                 (VDict [("error",
                          VStr "permission denied: can only write to ['/app/uploads', '/tmp']");
                         ("path", VStr "output.txt")])
                 {| execution_count := 1; safety_checks_passed := true |}), cp')
    /\ fs (tools cp') = fs (tools fresh_plane)
    /\ length (execution_log cp') = 1.
Proof.
  apply (refused_write_is_an_executed_call quiet_host fresh_plane "output.txt" "notes").
  - reflexivity.
  - apply is_safe_false. vm_compute. reflexivity.
Defined.

(** *** [run_code] *)

(** X7. Once the temporary file is written, a [run_code] call that
    returns has removed the source file, and the file at the output path
    of a compiled language unless the result is the compilation-error
    dict; and the call does return, whatever the child processes do,
    when none of them puts a directory at one of the two paths. *)
Theorem written_source_is_always_released (h : host) (code language name : string)
    (cfg : language_config) (t : tool_registry) :
  dict_get language lang_config = Some cfg ->
  named_temporary_file h = TempWritten name ->
  (forall r t',
      run_code h code language t = (Return r, t') ->
      fs t' !! (name +:+ ext cfg) = None
      /\ (compile cfg = true ->
          value_get "status" r <> Some (VStr "compilation_error") ->
          fs t' !! Str.replace (name +:+ ext cfg) (ext cfg) "" = None))
  /\ (no_directory_made h (name +:+ ext cfg) ->
      output_path_is_free h cfg t (name +:+ ext cfg) ->
      exists r t', run_code h code language t = (Return r, t')).
Proof.
  intros Hcfg Htemp. split.
  - intros r t' Hrun.
    destruct (run_code_released h code language name cfg t t' r Hcfg Htemp Hrun)
      as (Hgone & Hgone' & _).
    by split.
  - by apply run_code_returns_without_directories.
Qed.

(** A C job that does not end. *)
Lemma written_source_is_always_released_witness :
  exists r t',
    run_code sleeping_host "int main(){for(;;);}" "c" (ToolRegistry_init ∅) = (Return r, t')
    /\ fs t' !! "/tmp/tmpab12cd34.c" = None
    /\ (true = true ->
        value_get "status" r <> Some (VStr "compilation_error") ->
        fs t' !! "/tmp/tmpab12cd34" = None).
Proof.
  destruct (written_source_is_always_released sleeping_host "int main(){for(;;);}" "c"
              "/tmp/tmpab12cd34"
              {| ext := ".c"; cmd := None; compile := true; compiler := Some "gcc" |}
              (ToolRegistry_init ∅) eq_refl eq_refl) as [Hreleased Hreturns].
  destruct Hreturns as (r & t' & Hrun).
  - intros argv effect [= <-] files Hno. exact Hno.
  - intros _. split.
    + vm_compute. discriminate.
    + intros argv effect [= <-] files Hno. exact Hno.
  - exists r, t'. split; [exact Hrun|]. exact (Hreleased r t' Hrun).
Defined.

Lemma dict_get_lang_config_None (language : string) :
  language ∉ (lang_config.*1) -> dict_get language lang_config = None.
Proof.
  intros Hnot. destruct (dict_get language lang_config) as [cfg|] eqn:Hcfg; [|done].
  exfalso. apply Hnot. apply lang_config_cases in Hcfg.
  apply list_elem_of_fmap. by exists (language, cfg).
Qed.

(** X8. A language that is not a key of [lang_config] is answered with
    the unsupported-language dict, which lists the six supported ones;
    no file is created and no process is started. *)
Theorem unsupported_language_touches_nothing (h : host) (code language : string)
    (t : tool_registry) :
  language ∉ ["python"; "javascript"; "go"; "rust"; "c"; "cpp"] ->
  run_code h code language t
  = (Return (VDict [("error",
                     VStr ("unsupported language: " +:+ language
                           +:+ ". Supported: ['python', 'javascript', 'go', 'rust', 'c', 'cpp']"))]),
     t).
Proof.
  intros Hnot. apply run_code_unsupported. by apply dict_get_lang_config_None.
Qed.

Lemma unsupported_language_witness :
  run_code quiet_host "puts 1" "ruby" (ToolRegistry_init ∅)
  = (Return (VDict [("error",
                     VStr "unsupported language: ruby. Supported: ['python', 'javascript', 'go', 'rust', 'c', 'cpp']")]),
     ToolRegistry_init ∅).
Proof.
  apply (unsupported_language_touches_nothing quiet_host "puts 1" "ruby"
           (ToolRegistry_init ∅)).
  intros Hin.
  repeat (apply elem_of_cons in Hin as [Hin | Hin]; [discriminate Hin|]).
  by apply elem_of_nil in Hin.
Defined.

(** X9. When the first child process of the call cannot be started (the
    interpreter or the compiler is not installed), the source file is
    removed and no other process is started; the call returns the
    failed-to-run dict with the text of the error, unless the language is
    compiled and a directory stands at the output path: then the
    [os.remove] of the [except] clause raises, and the exception leaves
    the call. *)
Theorem missing_toolchain_is_reported (h : host) (code language name : string)
    (cfg : language_config) (t : tool_registry) (e : exn) :
  dict_get language lang_config = Some cfg ->
  named_temporary_file h = TempWritten name ->
  popen h (first_argv language cfg (name +:+ ext cfg)) = SpawnFails e ->
  is_timeout_expired e = false ->
  exists t',
    run_code h code language t
    = (if compile cfg
          && is_dir (delete (name +:+ ext cfg) (fs t)
                     !! Str.replace (name +:+ ext cfg) (ext cfg) "")
       then Raise (IsADirectoryError (Str.replace (name +:+ ext cfg) (ext cfg) ""))
       else Return (VDict [("error",
                            VStr ("failed to run " +:+ language +:+ " code: "
                                  +:+ exn_str e))]),
       t')
    /\ fs t' !! (name +:+ ext cfg) = None
    /\ spawned t' = spawned t ++ [first_argv language cfg (name +:+ ext cfg)].
Proof.
  intros Hcfg Htemp Hspawn He.
  rewrite <- (delete_insert_eq (fs t) (name +:+ ext cfg) (File code)).
  unfold run_code, try_except, run_code_try. rewrite Hcfg.
  language_cases Hcfg.
  all: unfold first_argv, compile_argv, exec_argv in *;
    cbn -[String.append Str.replace] in *.
  all: unfold_run_code; rewrite Htemp.
  all: run_code_step; rewrite Hspawn; run_code_step; rewrite He.
  all: run_code_cases_with absurd_lookup.
  all: eexists; split; [reflexivity|]; cbn -[String.append Str.replace].
  all: split; [gone | reflexivity].
Qed.

Lemma missing_toolchain_witness :
  exists t',
    run_code bare_host "fn main() {}" "rust" (ToolRegistry_init ∅)
    = (Return (VDict [("error",
                       VStr "failed to run rust code: [Errno 2] No such file or directory: 'rustc'")]),
       t')
    /\ fs t' !! "/tmp/tmpab12cd34.rs" = None
    /\ spawned t' = [["rustc"; "/tmp/tmpab12cd34.rs"; "-o"; "/tmp/tmpab12cd34"]].
Proof.
  exact (missing_toolchain_is_reported bare_host "fn main() {}" "rust" "/tmp/tmpab12cd34"
           {| ext := ".rs"; cmd := None; compile := true; compiler := None |}
           (ToolRegistry_init ∅)
           (HostError "[Errno 2] No such file or directory: 'rustc'")
           eq_refl eq_refl eq_refl eq_refl).
Defined.

Lemma append_empty_r (s : string) : s +:+ "" = s.
Proof.
  induction s as [|a s IH]; [reflexivity|].
  change (String a s +:+ "") with (String a (s +:+ "")). by rewrite IH.
Qed.

Lemma replace_from_no_dot (ext : string) (ext' : string) (name : string) :
  ext = String "." ext' ->
  Str.contains "." name = false ->
  Str.replace_from ext "" 0 (name +:+ ext) = name +:+ Str.replace_from ext "" 0 ext.
Proof.
  intros -> Hname. induction name as [|a name IH]; [reflexivity|].
  simpl in Hname. destruct (Ascii.eqb a ".") eqn:Ha; [discriminate|].
  change (String a name +:+ String "." ext') with (String a (name +:+ String "." ext')).
  cbn [Str.replace_from String.prefix].
  destruct (ascii_dec "." a) as [<-|_]; [discriminate Ha|].
  rewrite IH by done. reflexivity.
Qed.

(** X10. For the three compiled languages, when the name of the
    temporary file has no dot before its suffix, the output path that
    [temp_path.replace(ext, "")] computes is that name without the
    suffix. *)
Theorem output_path_is_the_name_without_suffix (language name : string)
    (cfg : language_config) :
  dict_get language lang_config = Some cfg ->
  compile cfg = true ->
  Str.contains "." name = false ->
  Str.replace (name +:+ ext cfg) (ext cfg) "" = name.
Proof.
  intros Hcfg Hc Hname. unfold Str.replace.
  language_cases Hcfg; try discriminate Hc.
  all: cbn [ext]; erewrite replace_from_no_dot by (reflexivity || exact Hname).
  all: match goal with
       | |- context [Str.replace_from ?e "" 0 ?e] =>
           change (Str.replace_from e "" 0 e) with ""
       end.
  all: apply append_empty_r.
Qed.

Lemma output_path_witness :
  Str.replace ("/tmp/tmpab12cd34" +:+ ".cpp") ".cpp" "" = "/tmp/tmpab12cd34".
Proof.
  apply (output_path_is_the_name_without_suffix "cpp" "/tmp/tmpab12cd34"
           {| ext := ".cpp"; cmd := None; compile := true; compiler := Some "g++" |}).
  - reflexivity.
  - reflexivity.
  - reflexivity.
Defined.

(** X11. After a compiler that ends in time with a non-zero exit code
    (and leaves the source file in place), the result is the
    compilation-error dict with the compiler's standard error and exit
    code, and the compiler is the only process the call started: the
    execute phase is never reached. *)
Theorem failed_compile_is_not_executed (h : host) (code language name : string)
    (cfg : language_config) (t : tool_registry)
    (d : Q) (rc : Z) (out err : string)
    (eff : gmap string node -> gmap string node) :
  dict_get language lang_config = Some cfg ->
  named_temporary_file h = TempWritten name ->
  compile cfg = true ->
  popen h (compile_argv language cfg (name +:+ ext cfg)) = Runs d rc out err eff ->
  (d <= 30)%Q -> rc <> 0%Z ->
  keeps eff (name +:+ ext cfg) ->
  exists t',
    run_code h code language t
    = (Return (VDict [("tool", VStr "run_code");
                      ("status", VStr "compilation_error");
                      ("language", VStr language);
                      ("stderr", VStr err);
                      ("return_code", VInt rc)]), t')
    /\ fs t' !! (name +:+ ext cfg) = None
    /\ spawned t' = spawned t ++ [compile_argv language cfg (name +:+ ext cfg)].
Proof.
  intros Hcfg Htemp Hc Hcomp Hd Hrc Hkeep.
  destruct (run_code_compile_failed h code language name cfg t d rc out err eff
              Hcfg Htemp Hc Hcomp Hd Hrc Hkeep) as (t' & Hrun & Hfs & Hspawned).
  exists t'. split; [exact Hrun|]. split; [|exact Hspawned].
  rewrite Hfs. apply lookup_delete_eq.
Qed.

Lemma failed_compile_witness :
  exists t',
    run_code leaky_compiler_host "int main(){}" "c" (ToolRegistry_init ∅)
    = (Return (VDict [("tool", VStr "run_code");
                      ("status", VStr "compilation_error");
                      ("language", VStr "c");
                      ("stderr", VStr "ld: cannot find -lm");
                      ("return_code", VInt 1)]), t')
    /\ fs t' !! "/tmp/tmpab12cd34.c" = None
    /\ spawned t' = [["gcc"; "/tmp/tmpab12cd34.c"; "-o"; "/tmp/tmpab12cd34"]].
Proof.
  apply (failed_compile_is_not_executed leaky_compiler_host "int main(){}" "c"
           "/tmp/tmpab12cd34"
           {| ext := ".c"; cmd := None; compile := true; compiler := Some "gcc" |}
           (ToolRegistry_init ∅) 2 1 "" "ld: cannot find -lm"
           (insert "/tmp/tmpab12cd34" (File "ELF"))).
  - reflexivity.
  - reflexivity.
  - reflexivity.
  - reflexivity.
  - vm_compute. discriminate.
  - discriminate.
  - intros files Hfile. rewrite lookup_insert_ne by discriminate. exact Hfile.
Defined.


(** *** Reading, writing and deleting files *)

Lemma slice_to_length (n : nat) (s : string) :
  String.length (slice_to n s) = Nat.min n (String.length s).
Proof.
  revert s. induction n as [|n IH]; intros [|a s]; simpl; try reflexivity.
  by rewrite IH.
Qed.


Lemma slice_to_prefix (n : nat) (s : string) : prefixed_by (slice_to n s) s.
Proof.
  revert s. induction n as [|n IH]; intros [|a s]; simpl.
  - by exists "".
  - by exists (String a s).
  - by exists "".
  - destruct (IH s) as [rest Hrest]. exists rest.
    change (String a (slice_to n s) +:+ rest) with (String a (slice_to n s +:+ rest)).
    by rewrite <- Hrest.
Qed.


Lemma is_safe_true (t : tool_registry) (abs_path : string) :
  is_safe t abs_path = true <->
  exists root, root ∈ safe_write_directories t /\ prefixed_by root abs_path.
Proof.
  unfold is_safe. rewrite existsb_exists. split.
  - intros (root & Hin & Hpre). exists root. split.
    + by apply list_elem_of_In.
    + by apply startswith_prefixed_by.
  - intros (root & Hin & Hpre). exists root. split.
    + by apply list_elem_of_In.
    + by apply startswith_prefixed_by.
Qed.

(** The walk keeps to the components that [normpath] keeps. *)
Lemma walk_normpath (files : gmap string node) (root : string) (init : nat)
    (comps rev_new rev_comps : list string) :
  init <> 0 ->
  Forall (fun c => c <> "..") rev_new ->
  walk files root comps rev_new = Some rev_comps ->
  Path.normpath_comps init comps rev_new = rev rev_comps.
Proof.
  intros Hinit. revert rev_new.
  induction comps as [|comp comps IH]; intros rev_new Hnew; cbn [walk Path.normpath_comps].
  - by intros [= ->].
  - destruct (files !! place root rev_new) as [[]|]; try discriminate.
    destruct (String.eqb comp "" || String.eqb comp ".") eqn:Hdot; [by apply IH|].
    destruct (String.eqb_spec comp "..") as [->|Hne]; cbn [negb orb].
    + assert (Hzero : (init =? 0)%nat = false) by by apply Nat.eqb_neq.
      rewrite Hzero. cbn [andb orb].
      destruct rev_new as [|x rev_new]; [by apply IH|].
      apply Forall_cons in Hnew as [Hx Hnew].
      destruct (String.eqb_spec x "..") as [->|_]; [done|].
      by apply IH.
    + apply IH. by constructor.
Qed.

(** Where a path leads is where [os.path.abspath] says. *)
Lemma os_walk_abspath (h : host) (files : gmap string node) (path k : string) :
  os_walk h files path = Some k -> k = Path.abspath (getcwd h) path.
Proof.
  unfold os_walk, Path.abspath.
  destruct (String.eqb path ""); [discriminate|].
  set (full := if Path.isabs path then path else Path.join (getcwd h) path).
  destruct (Path.isabs full) eqn:Habs; [|discriminate]. cbn [negb].
  destruct (walk files (root_of full) (Str.split "/" full) []) as [rev_comps|] eqn:Hwalk;
    [|discriminate].
  intros [= <-]. unfold Path.normpath, Path.isabs in *.
  destruct full as [|a full']; [discriminate Habs|].
  cbn [String.eqb]. rewrite Habs. unfold root_of in *.
  destruct (Str.startswith (String a full') "//"
            && negb (Str.startswith (String a full') "///")).
  - rewrite (walk_normpath files "//" 2 _ [] rev_comps) by (done || constructor).
    reflexivity.
  - rewrite (walk_normpath files "/" 1 _ [] rev_comps) by (done || constructor).
    reflexivity.
Qed.












Lemma read_file_missing (h : host) (t : tool_registry) (path : string) :
  os_locate h t path = None ->
  read_file h path t
  = (Return (VDict [("error", VStr ("file not found: " +:+ path))]), t).
Proof.
  intros Hlocate.
  unfold read_file, try_except, bind, os_path_exists_at, gets, ret.
  rewrite Hlocate. reflexivity.
Qed.





(** X15. [delete_file] of a file under a safe write directory removes
    that file and nothing else, and [read_file] then answers that the
    file is not found. *)
Theorem safe_delete_removes_only_its_target
    (h : host) (t : tool_registry) (path content : string) :
  (exists root, root ∈ safe_write_directories t
                /\ prefixed_by root (Path.abspath (getcwd h) path)) ->
  fs t !! Path.abspath (getcwd h) path = Some (File content) ->
  exists t',
    delete_file h path t
    = (Return (VDict [("tool", VStr "delete_file");
                      ("status", VStr "success");
                      ("path", VStr (Path.abspath (getcwd h) path))]), t')
    /\ fs t' = delete (Path.abspath (getcwd h) path) (fs t)
    /\ read_file h path t'
       = (Return (VDict [("error", VStr ("file not found: " +:+ path))]), t').
Proof.
  intros Hsafe Hfile. apply is_safe_true in Hsafe.
  unfold delete_file, try_except, bind, os_path_exists, os_remove, gets, ret.
  cbv beta iota. rewrite Hsafe. cbv beta iota delta [negb]. rewrite Hfile.
  change (bool_decide (is_Some (Some (File content)))) with true.
  cbv beta iota delta [negb]. rewrite Hfile. eexists. split; [reflexivity|].
  split; [reflexivity|].
  apply read_file_missing. unfold os_locate. cbn [fs set_fs].
  destruct (os_walk h (delete (Path.abspath (getcwd h) path) (fs t)) path)
    as [k|] eqn:Hwalk; [|reflexivity].
  apply os_walk_abspath in Hwalk as ->. by rewrite lookup_delete_eq.
Qed.

Lemma safe_delete_witness :
  exists t',
    delete_file quiet_host "/tmp/a.txt"
      (ToolRegistry_init (scratch [("/tmp/a.txt", File "hello")]))
    = (Return (VDict [("tool", VStr "delete_file");
                      ("status", VStr "success");
                      ("path", VStr "/tmp/a.txt")]), t')
    /\ fs t' = delete "/tmp/a.txt" (scratch [("/tmp/a.txt", File "hello")])
    /\ read_file quiet_host "/tmp/a.txt" t'
       = (Return (VDict [("error", VStr "file not found: /tmp/a.txt")]), t').
Proof.
  refine (safe_delete_removes_only_its_target quiet_host
            (ToolRegistry_init (scratch [("/tmp/a.txt", File "hello")]))
            "/tmp/a.txt" "hello" _ _).
  - exists "/tmp". split; [by apply list_elem_of_In; simpl; auto|].
    by exists "/a.txt".
  - vm_compute. reflexivity.
Defined.
(** *** [execute_command] *)

(** X16. A command that is not in the whitelist is refused with the
    command-not-allowed dict; no process is started and the registry is
    left as it was, whatever the arguments. *)
Theorem unlisted_command_is_not_started
    (h : host) (t : tool_registry) (command : string) (args : option (list string)) :
  command ∉ command_whitelist t ->
  execute_command h command args t
  = (Return (VDict [("error", VStr ("command not allowed. whitelist: "
                                     +:+ Str.repr_list (command_whitelist t)));
                    ("command", VStr command)]), t).
Proof.
  intros Hnot. unfold execute_command, try_except, bind, gets, ret. cbv beta iota.
  rewrite (bool_decide_eq_false_2 _ Hnot). reflexivity.
Qed.

Lemma unlisted_command_witness :
  execute_command quiet_host "rm" (Some ["-rf"; "/"]) (ToolRegistry_init ∅)
  = (Return (VDict [("error",
                     VStr "command not allowed. whitelist: ['ls', 'pwd', 'cat', 'grep', 'find', 'wc', 'head', 'tail']");
                    ("command", VStr "rm")]), ToolRegistry_init ∅).
Proof.
  refine (unlisted_command_is_not_started quiet_host (ToolRegistry_init ∅) "rm"
            (Some ["-rf"; "/"]) _).
  intros Hin.
  repeat (apply elem_of_cons in Hin as [Hin | Hin]; [discriminate Hin|]).
  by apply elem_of_nil in Hin.
Defined.

Lemma command_argv_eq (command : string) (args : option (list string)) :
  match args with
  | Some (a :: args') => [command] ++ a :: args'
  | _ => [command]
  end = command_argv command args.
Proof. by destruct args as [[|a args']|]. Qed.

(** X17. A whitelisted command always comes back with a dict: the call
    starts one process, from the command followed by its arguments as
    they are, and a failure to start it and a time-out are answered with
    an error dict. *)
Theorem listed_command_is_started_once
    (h : host) (t : tool_registry) (command : string) (args : option (list string)) :
  command ∈ command_whitelist t ->
  exists r t',
    execute_command h command args t = (Return r, t')
    /\ spawned t' = spawned t ++ [command_argv command args]
    /\ (forall e, popen h (command_argv command args) = SpawnFails e ->
                  is_timeout_expired e = false ->
                  r = VDict [("error", VStr ("failed to execute command: " +:+ exn_str e))])
    /\ (forall d rc out err eff,
          popen h (command_argv command args) = Runs d rc out err eff -> (10 < d)%Q ->
          r = VDict [("error", VStr "command timed out (10s limit)")]).
Proof.
  intros Hin.
  unfold execute_command, try_except, bind, gets, ret, subprocess_run. cbv beta iota.
  rewrite (bool_decide_eq_true_2 _ Hin). cbv beta iota delta [negb].
  rewrite command_argv_eq.
  destruct (popen h (command_argv command args)) as [e|d rc out err eff|d msg eff] eqn:Hp.
  - destruct (is_timeout_expired e) eqn:He; eexists _, _;
      (split; [reflexivity|]); (split; [reflexivity|]); split.
    + intros e' [= <-]. congruence.
    + intros; discriminate.
    + intros e' [= <-] _. reflexivity.
    + intros; discriminate.
  - destruct (Qle_bool d 10) eqn:Hd; cbn [is_timeout_expired];
      eexists _, _; (split; [reflexivity|]); (split; [reflexivity|]); split.
    + intros; discriminate.
    + intros d' rc' out' err' eff' [= <- _ _ _ _] Hlt.
      apply Qle_bool_false in Hlt. congruence.
    + intros; discriminate.
    + reflexivity.
  - destruct (Qle_bool d 10) eqn:Hd; cbn [is_timeout_expired];
      eexists _, _; (split; [reflexivity|]); (split; [reflexivity|]);
      split; intros; discriminate.
Qed.

Lemma listed_command_witness :
  exists r t',
    execute_command sleeping_host "find" (Some ["/"; "-name"; "*.py"]) (ToolRegistry_init ∅)
    = (Return r, t')
    /\ spawned t' = [["find"; "/"; "-name"; "*.py"]]
    /\ (forall e, popen sleeping_host ["find"; "/"; "-name"; "*.py"] = SpawnFails e ->
                  is_timeout_expired e = false ->
                  r = VDict [("error", VStr ("failed to execute command: " +:+ exn_str e))])
    /\ (forall d rc out err eff,
          popen sleeping_host ["find"; "/"; "-name"; "*.py"] = Runs d rc out err eff ->
          (10 < d)%Q ->
          r = VDict [("error", VStr "command timed out (10s limit)")]).
Proof.
  refine (listed_command_is_started_once sleeping_host (ToolRegistry_init ∅) "find"
            (Some ["/"; "-name"; "*.py"]) _).
  apply list_elem_of_In. simpl. auto 10.
Defined.

(** X18. The process of a whitelisted command ends within 10 seconds.
    (1) When its output decodes, the result reports its exit code, the
    command line joined by spaces, and of each output stream the first
    1000 characters at most.  (2) When its output does not decode, the
    result is the failed-to-execute dict with the text of the decoding
    error. *)
Theorem command_output_is_cut_at_1000
    (h : host) (t : tool_registry) (command : string) (args : option (list string)) :
  command ∈ command_whitelist t ->
  (forall d rc out err eff,
      popen h (command_argv command args) = Runs d rc out err eff ->
      (d <= 10)%Q ->
      exists shown_out shown_err t',
        execute_command h command args t
        = (Return (VDict [("tool", VStr "execute_command");
                          ("status", VStr "success");
                          ("command", VStr (Str.join " " (command_argv command args)));
                          ("stdout", VStr shown_out);
                          ("stderr", VStr shown_err);
                          ("return_code", VInt rc)]), t')
        /\ String.length shown_out = Nat.min 1000 (String.length out)
        /\ String.length shown_err = Nat.min 1000 (String.length err)
        /\ prefixed_by shown_out out
        /\ prefixed_by shown_err err)
  /\ (forall d msg eff,
        popen h (command_argv command args) = Garbles d msg eff ->
        (d <= 10)%Q ->
        exists t',
          execute_command h command args t
          = (Return (VDict [("error", VStr ("failed to execute command: " +:+ msg))]),
             t')).
Proof.
  intros Hin. split.
  - intros d rc out err eff Hp Hd. apply Qle_bool_iff in Hd.
    unfold execute_command, try_except, bind, gets, ret, subprocess_run. cbv beta iota.
    rewrite (bool_decide_eq_true_2 _ Hin). cbv beta iota delta [negb].
    rewrite command_argv_eq, Hp, Hd. cbn [stdout stderr returncode].
    eexists _, _, _. split; [reflexivity|].
    split; [apply slice_to_length|]. split; [apply slice_to_length|].
    split; apply slice_to_prefix.
  - intros d msg eff Hp Hd. apply Qle_bool_iff in Hd.
    unfold execute_command, try_except, bind, gets, ret, subprocess_run. cbv beta iota.
    rewrite (bool_decide_eq_true_2 _ Hin). cbv beta iota delta [negb].
    rewrite command_argv_eq, Hp, Hd. eexists. reflexivity.
Qed.

(** Part (1) on [ls -R /], and part (2) on [cat] of a file that is not
    text. *)
Lemma command_output_witness :
  (exists shown_out shown_err t',
     execute_command listing_host "ls" (Some ["-R"; "/"]) (ToolRegistry_init ∅)
     = (Return (VDict [("tool", VStr "execute_command");
                       ("status", VStr "success");
                       ("command", VStr "ls -R /");
                       ("stdout", VStr shown_out);
                       ("stderr", VStr shown_err);
                       ("return_code", VInt 0)]), t')
     /\ String.length shown_out = Nat.min 1000 (String.length long_output)
     /\ String.length shown_err = Nat.min 1000 (String.length "")
     /\ prefixed_by shown_out long_output
     /\ prefixed_by shown_err "")
  /\ (exists t',
        execute_command binary_host "cat" (Some ["/bin/ls"]) (ToolRegistry_init ∅)
        = (Return (VDict [("error",
                           VStr "failed to execute command: 'utf-8' codec can't decode byte 0xff in position 0: invalid start byte")]),
           t')).
Proof.
  split.
  - refine (proj1 (command_output_is_cut_at_1000 listing_host (ToolRegistry_init ∅) "ls"
                     (Some ["-R"; "/"]) _) 1%Q 0%Z long_output "" id _ _).
    + apply list_elem_of_In. simpl. auto.
    + reflexivity.
    + vm_compute. discriminate.
  - refine (proj2 (command_output_is_cut_at_1000 binary_host (ToolRegistry_init ∅) "cat"
                     (Some ["/bin/ls"]) _) 1%Q _ id _ _).
    + apply list_elem_of_In. simpl. auto.
    + reflexivity.
    + vm_compute. discriminate.
Defined.

(** *** The learner's state *)

Lemma log_interaction_memory (h : host) (ev : string) (det : value)
    (r : learner_registry) :
  db r = None ->
  log_interaction h ev det r
  = (Return (VDict [("tool", VStr "log_interaction");
                    ("status", VStr "logged");
                    ("entry_id", VInt (Z.of_nat (S (length (interaction_log r)))))]),
     {| db := None;
        interaction_log := interaction_log r
          ++ [{| interaction_timestamp := now h; event := ev; details := det |}];
        user_state := user_state r |}).
Proof.
  intros Hdb. unfold log_interaction. rewrite Hdb. cbn.
  rewrite length_app, Nat.add_1_r. reflexivity.
Qed.

(** X19. Without a database, successive [log_interaction] calls all
    return, append one entry each to the in-memory log in the order of
    the calls, and report as [entry_id] the consecutive numbers that
    start one above the length of the log before them. *)
Theorem in_memory_entry_ids_are_consecutive
    (calls : list (host * string * value)) (r : learner_registry) :
  db r = None ->
  exists rs r',
    log_all calls r = (Return rs, r')
    /\ entry_ids rs
       = Z.of_nat <$> seq (S (length (interaction_log r))) (length calls)
    /\ interaction_log r'
       = interaction_log r
         ++ ((fun c => {| interaction_timestamp := now c.1.1;
                          event := c.1.2; details := c.2 |}) <$> calls)
    /\ user_state r' = user_state r.
Proof.
  revert r. induction calls as [|[[h ev] det] calls IH]; intros r Hdb.
  - exists [], r. cbn. by rewrite app_nil_r.
  - cbn [log_all]. unfold bind at 1. rewrite log_interaction_memory by exact Hdb.
    destruct (IH {| db := None;
                    interaction_log := interaction_log r
                      ++ [{| interaction_timestamp := now h; event := ev;
                             details := det |}];
                    user_state := user_state r |} eq_refl)
      as (rs & r' & Hrun & Hids & Hlog & Hstate).
    unfold bind at 1. rewrite Hrun. eexists _, _. split; [reflexivity|].
    cbn [interaction_log user_state] in *. split; [|split].
    + change (entry_ids (?v :: rs)) with
        (match value_get "entry_id" v with
         | Some (VInt n) => n :: entry_ids rs
         | _ => entry_ids rs
         end).
      rewrite Hids, length_app, Nat.add_1_r. reflexivity.
    + rewrite Hlog, <- app_assoc. reflexivity.
    + exact Hstate.
Qed.

Lemma in_memory_entry_ids_witness :
  exists rs r',
    log_all [(quiet_host, "question", VStr "loops"); (quiet_host, "answer", VNone)]
      (learner_init None)
    = (Return rs, r')
    /\ entry_ids rs = [1%Z; 2%Z]
    /\ interaction_log r'
       = [{| interaction_timestamp := now quiet_host; event := "question";
             details := VStr "loops" |};
          {| interaction_timestamp := now quiet_host; event := "answer";
             details := VNone |}]
    /\ user_state r' = user_state (learner_init None).
Proof.
  refine (in_memory_entry_ids_are_consecutive
            [(quiet_host, "question", VStr "loops"); (quiet_host, "answer", VNone)]
            (learner_init None) _).
  reflexivity.
Defined.

(** X20. Without a database, [update_learner_profile] sets the
    proficiency, keeps the topics already covered in their order, adds
    the topic at the end unless it is already there, so a list of topics
    without repetition stays without repetition; a second call with the
    same arguments changes nothing. *)
Theorem in_memory_profile_update_is_idempotent
    (topic prof : string) (r : learner_registry) :
  db r = None ->
  NoDup (topics_covered (user_state r)) ->
  exists v r',
    update_learner_profile topic prof r = (Return v, r')
    /\ proficiency (user_state r') = prof
    /\ topic ∈ topics_covered (user_state r')
    /\ topics_covered (user_state r) `prefix_of` topics_covered (user_state r')
    /\ NoDup (topics_covered (user_state r'))
    /\ interaction_log r' = interaction_log r
    /\ update_learner_profile topic prof r' = (Return v, r').
Proof.
  intros Hdb Hnodup. unfold update_learner_profile. rewrite Hdb.
  eexists _, _. split; [reflexivity|]. cbn [user_state proficiency topics_covered db].
  destruct (decide (topic ∈ topics_covered (user_state r))) as [Hin|Hnot].
  - rewrite (bool_decide_eq_true_2 _ Hin).
    repeat split; try done.
    rewrite (bool_decide_eq_true_2 _ Hin). reflexivity.
  - rewrite (bool_decide_eq_false_2 _ Hnot).
    assert (Hnow : topic ∈ topics_covered (user_state r) ++ [topic]) by set_solver.
    repeat split; try done.
    + by apply prefix_app_r.
    + apply NoDup_app. repeat split; [done| |apply NoDup_singleton].
      intros x Hx Hx'. apply list_elem_of_singleton in Hx' as ->. done.
    + rewrite (bool_decide_eq_true_2 _ Hnow). reflexivity.
Qed.

Lemma in_memory_profile_update_witness :
  exists v r',
    update_learner_profile "python" "intermediate" (learner_init None) = (Return v, r')
    /\ proficiency (user_state r') = "intermediate"
    /\ "python" ∈ topics_covered (user_state r')
    /\ topics_covered (user_state (learner_init None)) `prefix_of` topics_covered (user_state r')
    /\ NoDup (topics_covered (user_state r'))
    /\ interaction_log r' = interaction_log (learner_init None)
    /\ update_learner_profile "python" "intermediate" r' = (Return v, r').
Proof.
  refine (in_memory_profile_update_is_idempotent "python" "intermediate"
            (learner_init None) _ _).
  - reflexivity.
  - apply NoDup_nil_2.
Defined.

(** *** [TutorAgent] *)

Lemma rstrip_idempotent (s : string) : Str.rstrip (Str.rstrip s) = Str.rstrip s.
Proof.
  induction s as [|a s IH]; [reflexivity|]. cbn [Str.rstrip].
  destruct (Str.rstrip s) as [|b r] eqn:Hr.
  - destruct (Str.isspace a) eqn:Ha; [reflexivity|].
    cbn [Str.rstrip]. rewrite Ha. reflexivity.
  - cbn [Str.rstrip]. cbn [Str.rstrip] in IH.
    destruct (match Str.rstrip r with
              | "" => if Str.isspace b then "" else String b ""
              | String a0 s0 => String b (String a0 s0)
              end) as [|c r'] eqn:Hm; [discriminate IH|].
    rewrite IH. reflexivity.
Qed.

Lemma lstrip_rstrip (s : string) :
  Str.lstrip s = s -> Str.lstrip (Str.rstrip s) = Str.rstrip s.
Proof.
  destruct s as [|a s]; [reflexivity|]. cbn [Str.lstrip Str.rstrip].
  destruct (Str.isspace a) eqn:Ha.
  - intros Heq. exfalso.
    assert (Hlen : forall u, String.length (Str.lstrip u) <= String.length u).
    { induction u as [|b u IHu]; cbn [Str.lstrip]; [lia|].
      destruct (Str.isspace b); cbn [String.length]; lia. }
    specialize (Hlen s). rewrite Heq in Hlen. cbn [String.length] in Hlen. lia.
  - intros _. destruct (Str.rstrip s) as [|b r]; cbn [Str.lstrip]; rewrite Ha; reflexivity.
Qed.

Lemma lstrip_idempotent (s : string) : Str.lstrip (Str.lstrip s) = Str.lstrip s.
Proof.
  induction s as [|a s IH]; [reflexivity|]. cbn [Str.lstrip].
  destruct (Str.isspace a) eqn:Ha; [exact IH|].
  cbn [Str.lstrip]. rewrite Ha. reflexivity.
Qed.

Lemma strip_idempotent (s : string) : Str.strip (Str.strip s) = Str.strip s.
Proof.
  unfold Str.strip.
  rewrite (lstrip_rstrip (Str.lstrip s) (lstrip_idempotent s)).
  apply rstrip_idempotent.
Qed.

Lemma split_not_nil (c : ascii) (s : string) : Str.split c s <> [].
Proof.
  destruct s as [|a s]; cbn [Str.split]; [done|].
  destruct (Ascii.eqb a c); [done|]. by destruct (Str.split c s).
Qed.

(** The lines of a text, joined by the separator, are the text. *)
Lemma join_split (c : ascii) (s : string) :
  Str.join (String c "") (Str.split c s) = s.
Proof.
  induction s as [|a s IH]; [reflexivity|]. cbn [Str.split].
  pose proof (split_not_nil c s) as Hne.
  destruct (Ascii.eqb_spec a c) as [->|_].
  - destruct (Str.split c s) as [|x l]; [done|].
    change (Str.join (String c "") ("" :: x :: l))
      with (String c (Str.join (String c "") (x :: l))).
    by rewrite IH.
  - destruct (Str.split c s) as [|x [|y l]]; [done| |].
    + cbn [Str.join] in *. by rewrite IH.
    + change (Str.join (String c "") (String a x :: y :: l))
        with (String a (Str.join (String c "") (x :: y :: l))).
      by rewrite IH.
Qed.

(** No line holds the separator. *)
Lemma split_lines (c : ascii) (s : string) :
  Forall (fun line => Str.contains c line = false) (Str.split c s).
Proof.
  induction s as [|a s IH]; cbn [Str.split]; [by repeat constructor|].
  destruct (Ascii.eqb a c) eqn:Ha; [by constructor|].
  destruct (Str.split c s) as [|x l]; [by repeat constructor; cbn; rewrite Ha|].
  apply Forall_cons in IH as [Hx Hl]. constructor; [|exact Hl].
  cbn [Str.contains]. by rewrite Ha.
Qed.

(** X21. The plan of [_plan_actions] has at most five actions, none of
    them empty and none with white space around it.  When the model
    answers, the plan is made of the lines of its answer, stripped, in
    their order and without the empty ones: the first five of them, or
    all when they are fewer.  When the model's call raises, the plan is
    the one action [search_knowledge]. *)
Theorem plan_has_at_most_five_stripped_actions (lm : language_model) :
  length (_plan_actions lm) <= 5
  /\ Forall (fun a => a <> "" /\ Str.strip a = a) (_plan_actions lm)
  /\ (forall e, planning lm = Raise e -> _plan_actions lm = ["search_knowledge"])
  /\ (forall text,
        planning lm = Return text ->
        exists lines,
          Str.join (String newline "") lines = text
          /\ Forall (fun line => Str.contains newline line = false) lines
          /\ _plan_actions lm
             `prefix_of` List.filter (fun a => negb (String.eqb a ""))
                           (Str.strip <$> lines)
          /\ length (_plan_actions lm)
             = Nat.min 5 (length (List.filter (fun a => negb (String.eqb a ""))
                                    (Str.strip <$> lines)))).
Proof.
  unfold _plan_actions. destruct (planning lm) as [text|e].
  - split; [|split; [|split]].
    + rewrite length_take. lia.
    + apply Forall_take. apply List.Forall_forall. intros a Ha.
      apply List.filter_In in Ha as [Ha Hne].
      apply list_elem_of_In, list_elem_of_fmap in Ha as (line & -> & _).
      split; [|apply strip_idempotent].
      intros Heq. rewrite Heq in Hne. discriminate Hne.
    + intros e [=].
    + intros text' [= <-]. exists (Str.split newline text).
      split; [apply join_split|]. split; [apply split_lines|].
      split; [|apply length_take].
      eexists (drop 5 _). by rewrite take_drop.
  - split; [|split; [|split]].
    + simpl. lia.
    + repeat constructor; discriminate.
    + reflexivity.
    + intros text [=].
Qed.

(** The plan made of an answer of four lines, one of them empty. *)
Lemma three_line_plan :
  _plan_actions three_line_model = ["search_knowledge"; "run_code"; "set_assignment"].
Proof. reflexivity. Qed.

Lemma execute_keeps_rules (h : host) (p : plan) (cp : control_plane) :
  safety_rules (execute h p cp).2 = safety_rules cp.
Proof.
  rewrite execute_unfold. destruct (_validate_request cp p); [|reflexivity].
  destruct (_route_and_execute _ _ _ _) as [[result|e] t']; cbv zeta;
    cbn [snd append_log safety_rules]; by rewrite retouch_rules.
Qed.

Lemma tool_name_stripped (f : Tool.t) : Str.strip (Tool.name f) = Tool.name f.
Proof. destruct f; reflexivity. Qed.

Lemma tool_map_name (f : Tool.t) : tool_map !! Tool.name f = Some f.
Proof. destruct f; reflexivity. Qed.

Lemma teach_plan_is_valid (cp : control_plane) (sid : option string) (f : Tool.t)
    (q : string) :
  safety_rules cp = safety_rules fresh_plane ->
  _validate_request cp (action_plan sid (Tool.name f) q) = true.
Proof.
  intros Hrules. unfold _validate_request. rewrite Hrules.
  destruct f, sid as [[|a s]|]; vm_compute; reflexivity.
Qed.

(** X22. The keyword call that [teach] plans for a tool binds to the
    tool's parameters for every tool but six, whose parameters the
    default [query] does not name, and but [set_assignment] when a
    session id is given, which that tool does not take. *)
Theorem planned_call_binds_but_for_seven (f : Tool.t) (q : string) (sid : option string) :
  binds f (inject_session sid (Tool.name f) (teach_params (Tool.name f) q))
  = negb (bool_decide (Tool.name f ∈ Tool.name <$> tools_without_query))
    && negb (String.eqb (Tool.name f) "set_assignment" && truthy sid).
Proof. destruct f, sid as [[|a s]|]; vm_compute; reflexivity. Qed.

Lemma unbound_call_raises (h : host) (cp : control_plane) (sid : option string)
    (f : Tool.t) (q : string) :
  safety_rules cp = safety_rules fresh_plane ->
  binds f (inject_session sid (Tool.name f) (teach_params (Tool.name f) q)) = false ->
  exists e cp', execute h (action_plan sid (Tool.name f) q) cp = (Raise e, cp')
                /\ execution_log cp' = execution_log cp.
Proof.
  intros Hrules Hbinds. rewrite execute_unfold, teach_plan_is_valid by exact Hrules.
  change (default ∅ (parameters (action_plan sid (Tool.name f) q)))
    with (inject_session sid (Tool.name f) (teach_params (Tool.name f) q)).
  change (action (action_plan sid (Tool.name f) q)) with (Some (Tool.name f)).
  unfold _route_and_execute.
  change (Some (Tool.name f) ≫= (fun a => tool_map !! a)) with (tool_map !! Tool.name f).
  rewrite tool_map_name.
  unfold call, bind, modify, raise. rewrite Hbinds.
  unfold shared_by.
  change (Some (Tool.name f) ≫= (fun a => tool_map !! a)) with (tool_map !! Tool.name f).
  rewrite tool_map_name, Hbinds.
  eexists _, _. split; reflexivity.
Qed.

Lemma teach_actions_raise (hosts : nat -> host) (q : string) (sid : option string)
    (f : Tool.t) (names : list string) :
  binds f (inject_session sid (Tool.name f) (teach_params (Tool.name f) q)) = false ->
  Tool.name f ∈ names ->
  forall i cp, safety_rules cp = safety_rules fresh_plane ->
  exists e cp', teach_actions hosts q sid i names cp = (Raise e, cp').
Proof.
  intros Hbinds. induction names as [|name names IH]; intros Hin i cp Hrules.
  - by apply elem_of_nil in Hin.
  - cbn [teach_actions]. unfold bind at 1.
    destruct (decide (name = Tool.name f)) as [->|Hne].
    + rewrite tool_name_stripped.
      destruct (unbound_call_raises (hosts i) cp sid f q Hrules Hbinds)
        as (e & cp' & -> & _).
      eexists _, _. reflexivity.
    + apply elem_of_cons in Hin as [Heq|Hin]; [congruence|].
      pose proof (execute_keeps_rules (hosts i)
                    (action_plan sid (Str.strip name) q) cp) as Hkeep.
      destruct (execute (hosts i) (action_plan sid (Str.strip name) q) cp)
        as [[r|e] cp1]; [|eexists _, _; reflexivity].
      cbn [snd] in Hkeep.
      destruct (IH Hin (S i) cp1) as (e & cp' & Hrun); [congruence|].
      unfold bind. rewrite Hrun. eexists _, _. reflexivity.
Qed.

(** X23. When the plan names a tool whose planned call does not bind,
    [teach] raises: it returns no response, and the conversation
    history is left without the exchange. *)
Theorem unbound_planned_call_makes_teach_raise
    (lm : language_model) (hosts : nat -> host) (q : string) (sid : option string)
    (f : Tool.t) (ag : tutor_agent) :
  safety_rules (agent_control_plane ag) = safety_rules fresh_plane ->
  Tool.name f ∈ _plan_actions lm ->
  binds f (inject_session sid (Tool.name f) (teach_params (Tool.name f) q)) = false ->
  exists e ag',
    teach lm hosts q sid ag = (Raise e, ag')
    /\ conversation_history ag' = conversation_history ag.
Proof.
  intros Hrules Hin Hbinds.
  destruct (teach_actions_raise hosts q sid f (_plan_actions lm) Hbinds Hin 0
              (agent_control_plane ag) Hrules) as (e & cp' & Hrun).
  unfold teach, bind, zoom. rewrite Hrun. eexists _, _. split; reflexivity.
Qed.

Lemma unbound_planned_call_witness :
  exists e ag',
    teach three_line_model (fun _ => quiet_host) "how do loops work?" None
      (TutorAgent_init fresh_plane)
    = (Raise e, ag')
    /\ conversation_history ag' = conversation_history (TutorAgent_init fresh_plane).
Proof.
  refine (unbound_planned_call_makes_teach_raise three_line_model (fun _ => quiet_host)
            "how do loops work?" None Tool.run_code (TutorAgent_init fresh_plane) _ _ _).
  - reflexivity.
  - apply list_elem_of_In. vm_compute. auto.
  - vm_compute. reflexivity.
Defined.

Lemma teach_actions_bounds (hosts : nat -> host) (q : string) (sid : option string)
    (names : list string) (i : nat) (cp cp' : control_plane)
    (out : outcome (list envelope)) :
  teach_actions hosts q sid i names cp = (out, cp') ->
  length (execution_log cp) <= length (execution_log cp')
  <= length (execution_log cp) + length names
  /\ forall rs, out = Return rs -> length rs = length names.
Proof.
  revert i cp cp' out. induction names as [|name names IH]; intros i cp cp' out.
  - cbn. intros [= <- <-]. split; [lia|]. by intros rs [= <-].
  - cbn [teach_actions]. unfold bind at 1.
    pose proof (execute_log_length (hosts i) (action_plan sid (Str.strip name) q) cp)
      as Hstep.
    destruct (execute (hosts i) (action_plan sid (Str.strip name) q) cp) as [[r|e] cp1];
      cbn [fst snd] in Hstep.
    + unfold bind, ret.
      destruct (teach_actions hosts q sid (S i) names cp1) as [[rs|e] cp2] eqn:Hrest;
        apply IH in Hrest as [IHlog IHlen]; intros [= <- <-]; cbn [length];
        destruct (returned_success (Return r)) in Hstep;
        (split; [lia|]); intros rs' [=]; subst; cbn [length];
        f_equal; apply IHlen; reflexivity.
    + intros [= <- <-]. cbn [length]. destruct (returned_success (Raise e)) in Hstep.
      all: split; [lia|]; intros rs [=].
Qed.

(** X24. A call of [teach] adds at most five entries to the audit log
    of the control plane and takes none away; when it returns, the
    conversation history has grown by the one exchange, with the plan,
    one result for each planned action and the response returned; when
    it raises, the history is as before. *)
Theorem teach_executes_at_most_five_actions
    (lm : language_model) (hosts : nat -> host) (q : string) (sid : option string)
    (ag : tutor_agent) :
  length (execution_log (agent_control_plane ag))
  <= length (execution_log (agent_control_plane (teach lm hosts q sid ag).2))
  <= length (execution_log (agent_control_plane ag)) + 5
  /\ match (teach lm hosts q sid ag).1 with
     | Return response =>
         exists results,
           conversation_history (teach lm hosts q sid ag).2
           = conversation_history ag
             ++ [{| exchange_query := q;
                    exchange_plan := _plan_actions lm;
                    exchange_results := results;
                    exchange_response := response |}]
           /\ length results = length (_plan_actions lm)
     | Raise _ =>
         conversation_history (teach lm hosts q sid ag).2 = conversation_history ag
     end.
Proof.
  assert (Hfive : length (_plan_actions lm) <= 5).
  { unfold _plan_actions. destruct (planning lm); [rewrite length_take|cbn]; lia. }
  unfold teach, bind, zoom, modify, ret.
  destruct (teach_actions hosts q sid 0 (_plan_actions lm) (agent_control_plane ag))
    as [[rs|e] cp'] eqn:Hrun; apply teach_actions_bounds in Hrun as [Hlog Hlen];
    cbn [fst snd agent_control_plane conversation_history set_control_plane
         append_history].
  - split; [lia|]. exists rs. split; [reflexivity|]. by apply Hlen.
  - split; [lia|reflexivity].
Qed.

(** X25. Whatever the query, the questions [assess_understanding]
    gives for the topic [teach] derives from it are those on Python
    when the query names Python in any case, those on [ml] or [math]
    only when the lower-cased query is that very word, and the general
    check in every other case. *)
Theorem planned_assessment_questions (q : string) :
  value_get "questions" (assess_understanding (assess_topic q))
  = Some (VList (VStr <$>
       (if isin "python" (lower q)
        then ["what keyword defines a function?"; "how do you create a variable?"]
        else if String.eqb (lower q) "ml"
        then ["what is supervised learning?"; "name two types of ml algorithms."]
        else if String.eqb (lower q) "math"
        then ["what is a vector?"; "explain matrix multiplication."]
        else ["general comprehension check."]))).
Proof.
  unfold assess_topic, assess_understanding. cbv zeta. cbn [value_get dict_get String.eqb Ascii.eqb Bool.eqb].
  destruct (isin "python" (lower q)) eqn:Hpy; [reflexivity|].
  destruct (String.eqb_spec (lower q) "ml") as [Hml|Hml].
  { rewrite Hml. reflexivity. }
  destruct (String.eqb_spec (lower q) "math") as [Hmath|Hmath].
  { rewrite Hmath. reflexivity. }
  repeat match goal with
         | |- context [if isin ?k (lower q) then _ else _] =>
             destruct (isin k (lower q)); [reflexivity|]
         end.
  unfold questions. cbn [dict_get].
  destruct (String.eqb_spec "python" (lower q)) as [Heq|_].
  { rewrite <- Heq in Hpy. discriminate Hpy. }
  destruct (String.eqb_spec "ml" (lower q)) as [Heq|_]; [congruence|].
  destruct (String.eqb_spec "math" (lower q)) as [Heq|_]; [congruence|].
  reflexivity.
Qed.

(** *** [SemanticRetriever] *)

Ltac embedding_step :=
  cbn [embedding_attempts]; unfold bind, gets, modify, ret, max_retries;
  cbn [Nat.ltb Nat.leb Nat.sub api_calls count_call time_sleep documents slept
       fst snd].

Ltac embedding_cases o text :=
  unfold _generate_embedding, max_retries; cbn [seq];
  repeat (embedding_step;
          match goal with
          | |- context [embeddings_create o ?n text] =>
              destruct (embeddings_create o n text) eqn:?
          | |- context [isin "503" ?m || ?b] =>
              destruct (isin "503" m || b) eqn:?
          end);
  try embedding_step.

Lemma generate_embedding_returns (o : embedding_service) (text : string) (r : retriever) :
  exists v r',
    _generate_embedding o text r = (Return v, r') /\ documents r' = documents r.
Proof. embedding_cases o text; eexists _, _; split; reflexivity. Qed.

(** X26. [_generate_embedding] always returns a vector and never
    raises: it calls the API at most three times, sleeps only between
    two calls, one second and then two, and the answer of a first call
    that succeeds is the result, with no sleep. *)
Theorem embedding_is_tried_at_most_three_times
    (o : embedding_service) (text : string) (r : retriever) :
  exists v r',
    _generate_embedding o text r = (Return (Some v), r')
    /\ documents r' = documents r
    /\ (api_calls r < api_calls r' <= api_calls r + 3)%nat
    /\ (exists pauses, slept r' = slept r ++ pauses
                       /\ pauses `prefix_of` [1%Z; 2%Z]
                       /\ api_calls r' = (api_calls r + S (length pauses))%nat)
    /\ (forall e, embeddings_create o (api_calls r) text = Return e ->
                  v = e /\ slept r' = slept r).
Proof.
  embedding_cases o text; eexists _, _; (split; [reflexivity|]);
    cbn [api_calls documents slept count_call time_sleep Z.mul Pos.mul];
    (split; [reflexivity|]); (split; [lia|]).
  all: split;
    [ first [ exists []; rewrite app_nil_r; split; [reflexivity|];
              split; [apply prefix_nil | cbn [length]; lia]
            | exists [1%Z]; split; [reflexivity|];
              split; [by exists [2%Z] | cbn [length]; lia]
            | exists [1%Z; 2%Z]; rewrite <- app_assoc; split; [reflexivity|];
              split; [reflexivity | cbn [length]; lia] ]
    | intros e' He'; try congruence ].
  split; [congruence|reflexivity].
Qed.

Lemma insert_desc_perm (x : nat * Q) (l : list (nat * Q)) :
  Permutation (insert_desc x l) (x :: l).
Proof.
  induction l as [|y l IH]; cbn [insert_desc]; [reflexivity|].
  destruct (Qle_bool y.2 x.2); [reflexivity|].
  rewrite IH. apply perm_swap.
Qed.

Lemma sort_desc_perm (l : list (nat * Q)) : Permutation (sort_desc l) l.
Proof.
  induction l as [|x l IH]; [reflexivity|].
  unfold sort_desc. cbn [foldr]. rewrite insert_desc_perm. by constructor.
Qed.

Lemma insert_desc_sorted (x : nat * Q) (l : list (nat * Q)) :
  StronglySorted (fun a b => (b.2 <= a.2)%Q) l ->
  StronglySorted (fun a b => (b.2 <= a.2)%Q) (insert_desc x l).
Proof.
  induction 1 as [|y l Hsorted IH Hall]; cbn [insert_desc].
  - repeat constructor.
  - destruct (Qle_bool y.2 x.2) eqn:Hle.
    + apply Qle_bool_iff in Hle. constructor; [by constructor|].
      constructor; [exact Hle|].
      eapply List.Forall_impl; [|exact Hall]. intros z Hz. cbn beta in *.
      by apply Qle_trans with y.2.
    + constructor; [exact IH|].
      rewrite insert_desc_perm. constructor; [|exact Hall].
      apply Qlt_le_weak, Qnot_le_lt. intros Hc.
      apply Qle_bool_iff in Hc. congruence.
Qed.

Lemma sort_desc_sorted (l : list (nat * Q)) :
  StronglySorted (fun a b => (b.2 <= a.2)%Q) (sort_desc l).
Proof.
  induction l as [|x l IH]; [constructor|].
  unfold sort_desc. cbn [foldr]. by apply insert_desc_sorted.
Qed.

Lemma sorted_indices_in_range (f : nat -> Q) (docs : list Document) :
  Forall (fun x => is_Some (docs !! x.1)) (sort_desc (enumerate f (length docs))).
Proof.
  rewrite sort_desc_perm. unfold enumerate. apply Forall_fmap, List.Forall_forall.
  intros i Hi. apply in_seq in Hi. cbn. apply lookup_lt_is_Some. lia.
Qed.

Lemma search_loop_closed (docs : list Document) (k : Z)
    (filters : option (list (string * value))) (results : list (nat * Q))
    (acc : list Document) :
  Forall (fun x => is_Some (docs !! x.1)) results ->
  (length acc < Z.to_nat (Z.max 1 k))%nat ->
  search_loop docs k filters results acc
  = Return (acc ++ take (Z.to_nat (Z.max 1 k) - length acc)
                     (List.filter (passes filters)
                        (omap (fun x => docs !! x.1) results))).
Proof.
  revert acc. induction results as [|[idx score] results IH]; intros acc Hall Hlen.
  - cbn. rewrite take_nil, app_nil_r. reflexivity.
  - apply Forall_cons in Hall as [[doc Hdoc] Hall]. cbn [fst] in Hdoc.
    cbn [search_loop omap list_omap fst]. rewrite Hdoc. cbn [List.filter].
    destruct (passes filters doc) eqn:Hp; cbn [negb]; [|by apply IH].
    rewrite length_app. cbn [length].
    destruct (Z.leb_spec k (Z.of_nat (length acc + 1))) as [Hk|Hk].
    + replace (Z.to_nat (Z.max 1 k) - length acc)%nat with 1%nat by lia.
      reflexivity.
    + rewrite IH; [|exact Hall|rewrite length_app; cbn [length]; lia].
      rewrite length_app. cbn [length].
      replace (Z.to_nat (Z.max 1 k) - length acc)%nat
        with (S (Z.to_nat (Z.max 1 k) - (length acc + 1)))%nat by lia.
      cbn [take]. rewrite <- app_assoc. reflexivity.
Qed.

Lemma search_closed (o : embedding_service) (query : string) (top_k : Z)
    (filters : option (list (string * value))) (r : retriever) (f : nat -> Q) :
  query_similarities o query r = Return f ->
  exists r',
    search o query top_k filters r
    = (Return (take (Z.to_nat (Z.max 1 top_k))
                 (List.filter (passes filters)
                    (omap (fun x => documents r !! x.1)
                       (sort_desc (enumerate f (length (documents r))))))), r')
    /\ documents r' = documents r.
Proof.
  intros Hsim. unfold search, bind, gets.
  destruct (documents r) as [|d docs] eqn:Hdocs.
  - exists r. cbn. rewrite take_nil. split; [reflexivity|exact Hdocs].
  - destruct (generate_embedding_returns o query r) as (v & r1 & Hgen & Hkeep).
    unfold query_similarities in Hsim. rewrite Hgen in Hsim. cbn [fst] in Hsim.
    rewrite Hdocs in Hsim. rewrite Hgen, Hsim.
    rewrite search_loop_closed.
    + exists r1. rewrite Nat.sub_0_r. split; [reflexivity|congruence].
    + apply sorted_indices_in_range.
    + cbn [length]. lia.
Qed.

(** X27. When the similarities are computed, [search] returns, from the
    documents taken by descending similarity, the first [top_k] that
    pass the filters, or all that pass when they are fewer; for a
    [top_k] below one it still returns the first that passes.  The
    documents are left as they were. *)
Theorem search_returns_the_first_matches_by_similarity
    (o : embedding_service) (query : string) (top_k : Z)
    (filters : option (list (string * value))) (r : retriever) (f : nat -> Q) :
  query_similarities o query r = Return f ->
  exists ranked r',
    Permutation ranked (enumerate f (length (documents r)))
    /\ StronglySorted (fun a b => (b.2 <= a.2)%Q) ranked
    /\ search o query top_k filters r
       = (Return (take (Z.to_nat (Z.max 1 top_k))
                    (List.filter (passes filters)
                       (omap (fun x => documents r !! x.1) ranked))), r')
    /\ documents r' = documents r.
Proof.
  intros Hsim.
  destruct (search_closed o query top_k filters r f Hsim) as (r' & Hrun & Hkeep).
  exists (sort_desc (enumerate f (length (documents r)))), r'.
  split; [apply sort_desc_perm|]. split; [apply sort_desc_sorted|].
  split; [exact Hrun|exact Hkeep].
Qed.

Lemma search_first_matches_witness :
  exists ranked r',
    Permutation ranked (enumerate (fun i => inject_Z (Z.of_nat i)) 2)
    /\ StronglySorted (fun a b => (b.2 <= a.2)%Q) ranked
    /\ search overloaded_service "recursion" 0 None two_sessions
       = (Return (take 1 (List.filter (passes None)
                            (omap (fun x => documents two_sessions !! x.1) ranked))), r')
    /\ documents r' = documents two_sessions.
Proof.
  refine (search_returns_the_first_matches_by_similarity overloaded_service "recursion"
            0 None two_sessions (fun i => inject_Z (Z.of_nat i)) _).
  reflexivity.
Defined.

Lemma dict_set_In {A : Type} (k : string) (v : A) (items : list (string * A)) :
  In (k, v) (dict_set k v items).
Proof.
  induction items as [|[k' v'] items IH]; cbn [dict_set]; [by left|].
  destruct (String.eqb_spec k' k) as [->|_]; [by left|by right].
Qed.

Lemma passes_Some (fs : list (string * value)) (d : Document) :
  passes (Some fs) d = matches fs d.
Proof. by destruct fs. Qed.

Lemma py_eq_VStr (w : value) (s : string) : py_eq w (VStr s) = true -> w = VStr s.
Proof.
  destruct w; cbn [py_eq]; try discriminate.
  intros Heq. apply String.eqb_eq in Heq. congruence.
Qed.

Lemma matches_session (s : string) (fs : list (string * value)) (d : Document) :
  matches (dict_set "session_id" (VStr s) fs) d = true ->
  dict_get "session_id" (metadata d) = Some (VStr s).
Proof.
  intros Hm. unfold matches in Hm. rewrite forallb_forall in Hm.
  specialize (Hm _ (dict_set_In "session_id" (VStr s) fs)). cbn beta iota in Hm.
  destruct (dict_get "session_id" (metadata d)) as [w|]; [|discriminate Hm].
  by apply py_eq_VStr in Hm as ->.
Qed.

Lemma truthy_Some (s : string) : s <> "" -> truthy (Some s) = true.
Proof. intros Hs. cbn. by destruct (String.eqb_spec s "") as [?|_]. Qed.

Lemma found_in_session (s : string) (fs : list (string * value))
    (docs : list Document) (ranked : list (nat * Q)) (n : nat) (d : Document) :
  In d (take n (List.filter (passes (Some (dict_set "session_id" (VStr s) fs)))
                  (omap (fun x => docs !! x.1) ranked))) ->
  d ∈ docs /\ dict_get "session_id" (metadata d) = Some (VStr s).
Proof.
  intros Hin. apply list_elem_of_In, (subseteq_take n), list_elem_of_In in Hin.
  apply List.filter_In in Hin as [Hin Hpass]. rewrite passes_Some in Hpass.
  split; [|by apply matches_session in Hpass].
  apply list_elem_of_In, list_elem_of_omap in Hin as (x & _ & Hx).
  by apply list_elem_of_lookup_2 in Hx.
Qed.

(** X28. With a session id, [search_knowledge] returns at most three
    results, each a document of the retriever whose metadata carry that
    very session id, whatever other filters are given; [count] is their
    number. *)
Theorem search_knowledge_stays_in_the_session
    (o : embedding_service) (query : string)
    (filters : option (list (string * value))) (s : string)
    (r : retriever) (f : nat -> Q) :
  s <> "" ->
  query_similarities o query r = Return f ->
  exists found r',
    search_knowledge o query filters (Some s) r
    = (Return (VDict [("tool", VStr "search_knowledge");
                      ("results", VList (result_of <$> found));
                      ("count", VInt (Z.of_nat (length found)))]), r')
    /\ length found <= 3
    /\ Forall (fun d => d ∈ documents r
                        /\ dict_get "session_id" (metadata d) = Some (VStr s)) found.
Proof.
  intros Hs Hsim. unfold search_knowledge. rewrite (truthy_Some s Hs). cbv zeta.
  cbn [default from_option id].
  set (base := match filters with Some ((_ :: _) as fs) => fs | _ => [] end).
  destruct (search_closed o query 3 (Some (dict_set "session_id" (VStr s) base)) r f Hsim)
    as (r' & Hrun & _).
  unfold bind, ret. rewrite Hrun. eexists _, r'. split; [reflexivity|].
  split.
  - rewrite length_take. change (Z.to_nat (Z.max 1 3)) with 3%nat. lia.
  - apply List.Forall_forall. intros d Hd. by apply found_in_session in Hd.
Qed.

Lemma search_knowledge_session_witness :
  exists found r',
    search_knowledge overloaded_service "recursion" (Some [("source", VStr "b.pdf")])
      (Some "bob") two_sessions
    = (Return (VDict [("tool", VStr "search_knowledge");
                      ("results", VList (result_of <$> found));
                      ("count", VInt (Z.of_nat (length found)))]), r')
    /\ length found <= 3
    /\ Forall (fun d => d ∈ documents two_sessions
                        /\ dict_get "session_id" (metadata d) = Some (VStr "bob")) found.
Proof.
  refine (search_knowledge_stays_in_the_session overloaded_service "recursion"
            (Some [("source", VStr "b.pdf")]) "bob" two_sessions
            (fun i => inject_Z (Z.of_nat i)) _ _).
  - discriminate.
  - reflexivity.
Defined.

(** *** [ingest_document] *)



